(** * Surveillance camera supervisor: streaming and recording engine

    A shallow embedding of the supervision code of the repository
    (config.py, camera_utils.py, fs_utils.py, ffmpeg_utils.py, streaming.py,
    recording.py) and the properties of its specification.

    Conventions of the embedding
    - Python [str] is [string]; a list of arguments (argv) is [list string].
    - Python [dict] is an insertion-ordered association list ([PyDict]),
      because the code iterates over [list(d.keys())].
    - Python floats that hold times, durations and percentages are
      rationals ([Q]); integers are [Z].
    - Module-level globals, the file system, the process table and the
      clock form one [World]; a function with effects is a state and
      exception transformer [M A := World -> Res A * World].
    - What the operating system, the cameras and the encoder answer is not
      decided by the program: it is read from an [Env] of oracles, over
      which every theorem quantifies.
    - Logging is not modelled. *)

From Stdlib Require Import ZArith QArith Bool List String Ascii Lia Lqa.
From Stdlib Require Import DecimalString RelationClasses.
Import ListNotations.

Local Open Scope string_scope.
Local Open Scope Z_scope.

(** ** Python strings *)

Module PyStr.

Definition chars (s : string) : list ascii := list_ascii_of_string s.
Definition of_chars (l : list ascii) : string := string_of_list_ascii l.

Fixpoint list_prefix (p l : list ascii) : bool :=
  match p, l with
  | [], _ => true
  | _ :: _, [] => false
  | a :: p', b :: l' => Ascii.eqb a b && list_prefix p' l'
  end.

(** [s.startswith(p)] *)
Definition startswith (s p : string) : bool := list_prefix (chars p) (chars s).

(** [s.endswith(p)] *)
Definition endswith (s p : string) : bool :=
  list_prefix (rev (chars p)) (rev (chars s)).

Fixpoint list_contains (sub l : list ascii) : bool :=
  list_prefix sub l ||
  match l with
  | [] => false
  | _ :: t => list_contains sub t
  end.

(** [sub in s] *)
Definition contains (sub s : string) : bool := list_contains (chars sub) (chars s).

(** A string is the sequence of its code points, all below 256.

    [c.isspace()], the characters [str.strip()] and [str.split()] take
    away: TAB, LF, VT, FF, CR, the separators FS, GS, RS, US, the space,
    NEL and the no-break space. *)
Definition is_space (c : ascii) : bool :=
  let n := nat_of_ascii c in
  (Nat.eqb n 32 || (Nat.leb 9 n && Nat.leb n 13) || (Nat.leb 28 n && Nat.leb n 31)
   || Nat.eqb n 133 || Nat.eqb n 160)%bool.

Fixpoint lstrip_chars (l : list ascii) : list ascii :=
  match l with
  | c :: t => if is_space c then lstrip_chars t else l
  | [] => []
  end.

(** [s.strip()] *)
Definition strip (s : string) : string :=
  of_chars (rev (lstrip_chars (rev (lstrip_chars (chars s))))).

Definition LF : ascii := ascii_of_nat 10.
Definition CR : ascii := ascii_of_nat 13.

(** Cutting a text into lines at the characters [is_break]; CR followed
    by LF ends one line, and a text that ends with a line end has no empty
    last line.  The line ends are kept out ([after_cr]: the character
    before was a CR that ended a line). *)
Fixpoint split_lines_aux (is_break : ascii -> bool) (after_cr : bool)
  (cur : list ascii) (l : list ascii) : list string :=
  match l with
  | [] => match cur with [] => [] | _ => [of_chars (rev cur)] end
  | c :: t =>
      if (after_cr && Ascii.eqb c LF)%bool then split_lines_aux is_break false cur t
      else if is_break c then
        of_chars (rev cur) :: split_lines_aux is_break (Ascii.eqb c CR) [] t
      else split_lines_aux is_break false (c :: cur) t
  end.

(** The lines of a text file opened with [open(path, 'r')], as iteration
    over the file object yields them: in this mode LF, CR and CR LF each
    end a line (the line end is kept out; the callers strip each line). *)
Definition lines (s : string) : list string :=
  split_lines_aux (fun c => Ascii.eqb c LF || Ascii.eqb c CR)%bool false [] (chars s).

(** [s.splitlines()]: besides LF, CR and CR LF, the characters VT, FF, FS,
    GS, RS and NEL end a line. *)
Definition is_line_boundary (c : ascii) : bool :=
  let n := nat_of_ascii c in
  ((Nat.leb 10 n && Nat.leb n 13) || (Nat.leb 28 n && Nat.leb n 30) || Nat.eqb n 133)%bool.

Definition splitlines (s : string) : list string :=
  split_lines_aux is_line_boundary false [] (chars s).

(** [s.split()]: the maximal runs without white space *)
Fixpoint split_ws_aux (cur : list ascii) (l : list ascii) : list string :=
  match l with
  | [] => match cur with [] => [] | _ => [of_chars (rev cur)] end
  | c :: t =>
      if is_space c
      then match cur with
           | [] => split_ws_aux [] t
           | _ => of_chars (rev cur) :: split_ws_aux [] t
           end
      else split_ws_aux (c :: cur) t
  end.

Definition split_ws (s : string) : list string := split_ws_aux [] (chars s).

Definition digit_of (c : ascii) : option Z :=
  let n := nat_of_ascii c in
  if (Nat.leb 48 n && Nat.leb n 57)%bool then Some (Z.of_nat (n - 48)) else None.

Fixpoint int_of_chars (acc : Z) (l : list ascii) : option Z :=
  match l with
  | [] => Some acc
  | c :: t =>
      match digit_of c with
      | Some d => int_of_chars (10 * acc + d) t
      | None => None
      end
  end.

(** [int(s)] for a string of decimal digits; [None] stands for ValueError *)
Definition int_of_str (s : string) : option Z :=
  match chars s with
  | [] => None
  | l => int_of_chars 0 l
  end.

(** [' '.join(l)] *)
Definition join_spaces (l : list string) : string := String.concat " " l.

(** [s.replace(a, b)] for single characters *)
Definition replace_char (a b : ascii) (s : string) : string :=
  of_chars (map (fun c => if Ascii.eqb c a then b else c) (chars s)).

(** [str(n)] for an integer *)
Definition str_of_Z (n : Z) : string := NilZero.string_of_int (Z.to_int n).

End PyStr.

(** ** os.path (the Windows flavour, ntpath, for drive-letter paths)

    The deployment is a Windows host (the code shells out to taskkill and
    tasklist, and its default base path is on drive D).  UNC paths are not
    modelled. *)

Module OsPath.
Import PyStr.

Definition sep : ascii := "\"%char.
Definition altsep : ascii := "/"%char.
Definition is_sep (c : ascii) : bool := (Ascii.eqb c sep || Ascii.eqb c altsep)%bool.

(** [ntpath.splitdrive] for a drive letter followed by a colon *)
Definition splitdrive_chars (p : list ascii) : list ascii * list ascii :=
  match p with
  | d :: c :: rest => if Ascii.eqb c ":"%char then ([d; c], rest) else ([], p)
  | _ => ([], p)
  end.

(** The longest suffix without separator, scanning the reversed path:
    returns (reversed head, tail). *)
Fixpoint split_tail (rp : list ascii) (tail : list ascii) : list ascii * list ascii :=
  match rp with
  | [] => ([], tail)
  | c :: r => if is_sep c then (rp, tail) else split_tail r (c :: tail)
  end.

Fixpoint strip_seps (rp : list ascii) : list ascii :=
  match rp with
  | c :: r => if is_sep c then strip_seps r else rp
  | [] => []
  end.

(** [ntpath.split]: head = head.rstrip(seps) or head *)
Definition split_chars (p : list ascii) : list ascii * list ascii :=
  let (d, r) := splitdrive_chars p in
  let (rhead, tail) := split_tail (rev r) [] in
  let stripped := strip_seps rhead in
  let head := match stripped with [] => rev rhead | _ => rev stripped end in
  (d ++ head, tail)%list.

Definition dirname (p : string) : string := of_chars (fst (split_chars (chars p))).
Definition basename (p : string) : string := of_chars (snd (split_chars (chars p))).

(** [genericpath._splitext]: the extension starts at the last dot of the
    last component, unless that component has only dots before it. *)
Fixpoint ext_scan (rp : list ascii) (ext : list ascii) : option (list ascii * list ascii) :=
  match rp with
  | [] => None
  | c :: r =>
      if is_sep c then None
      else if Ascii.eqb c "."%char then Some (r, c :: ext)
      else ext_scan r (c :: ext)
  end.

Fixpoint only_dots_in_component (rp : list ascii) : bool :=
  match rp with
  | [] => true
  | c :: r =>
      if is_sep c then true
      else if Ascii.eqb c "."%char then only_dots_in_component r
      else false
  end.

Definition splitext (p : string) : string * string :=
  match ext_scan (rev (chars p)) [] with
  | Some (rroot, ext) =>
      if only_dots_in_component rroot then (p, "")
      else (of_chars (rev rroot), of_chars ext)
  | None => (p, "")
  end.

(** [ntpath.join] of two components *)
Definition join (a b : string) : string :=
  let (ad, ap) := splitdrive_chars (chars a) in
  let (bd, bp) := splitdrive_chars (chars b) in
  let b_abs := match bp with c :: _ => is_sep c | [] => false end in
  if b_abs then
    match bd, ad with
    | [], _ :: _ => of_chars (ad ++ bp)
    | _, _ => of_chars (bd ++ bp)
    end
  else
    match bd with
    | _ :: _ =>
        if String.eqb (of_chars bd) (of_chars ad) then
          let needs := match rev ap with c :: _ => negb (is_sep c) | [] => false end in
          of_chars (bd ++ ap ++ (if needs then [sep] else []) ++ bp)
        else of_chars (bd ++ bp)
    | [] =>
        let needs := match rev ap with c :: _ => negb (is_sep c) | [] => false end in
        of_chars (ad ++ ap ++ (if needs then [sep] else []) ++ bp)
    end.

End OsPath.

(** ** Python dict: an association list in insertion order *)

Module PyDict.
Section Dict.
Context {V : Type}.

Definition dict : Type := list (string * V).

Definition empty : dict := [].

(** [d.get(k)] *)
Fixpoint get (k : string) (d : dict) : option V :=
  match d with
  | [] => None
  | (k', v) :: t => if String.eqb k' k then Some v else get k t
  end.

(** [k in d] *)
Definition contains (k : string) (d : dict) : bool :=
  match get k d with Some _ => true | None => false end.

(** [d[k] = v]: an existing key keeps its position, a new key goes last *)
Fixpoint set (k : string) (v : V) (d : dict) : dict :=
  match d with
  | [] => [(k, v)]
  | (k', v') :: t =>
      if String.eqb k' k then (k, v) :: t else (k', v') :: set k v t
  end.

(** [del d[k]] for a key that is present, [d.pop(k, None)] in general *)
Fixpoint del (k : string) (d : dict) : dict :=
  match d with
  | [] => []
  | (k', v') :: t =>
      if String.eqb k' k then del k t else (k', v') :: del k t
  end.

(** [list(d.keys())] *)
Definition keys (d : dict) : list string := map fst d.

(** [len(d)] *)
Definition len (d : dict) : Z := Z.of_nat (List.length d).

End Dict.
Arguments dict V : clear implicits.
End PyDict.

Abbreviation dict := PyDict.dict.

(** ** Exceptions and the state-and-exception monad *)

Inductive Exn : Type :=
| TypeError (msg : string)
| ValueError (msg : string)
| OSError (msg : string)
| TimeoutExpired
| CalledProcessError
| RequestException
| ProcessLookupError
| PermissionError
| Exception (msg : string).

Inductive Res (A : Type) : Type :=
| Ok (a : A)
| Raise (e : Exn).
Arguments Ok {A} a.
Arguments Raise {A} e.

Section Monad.
Context {S : Type}.

Definition M (A : Type) : Type := S -> Res A * S.

Definition ret {A} (a : A) : M A := fun s => (Ok a, s).

Definition bind {A B} (m : M A) (k : A -> M B) : M B :=
  fun s =>
    match m s with
    | (Ok a, s') => k a s'
    | (Raise e, s') => (Raise e, s')
    end.

Definition raise {A} (e : Exn) : M A := fun s => (Raise e, s).

Definition gets {A} (f : S -> A) : M A := fun s => (Ok (f s), s).

Definition modify (f : S -> S) : M unit := fun s => (Ok tt, f s).

(** [try: m  except Exception as e: h e] *)
Definition try_except {A} (m : M A) (h : Exn -> M A) : M A :=
  fun s =>
    match m s with
    | (Ok a, s') => (Ok a, s')
    | (Raise e, s') => h e s'
    end.

(** [try: m  except <classes>: h]: exceptions outside [sel] propagate *)
Definition try_except_only {A} (sel : Exn -> bool) (m : M A) (h : Exn -> M A) : M A :=
  try_except m (fun e => if sel e then h e else raise e).

Definition when (b : bool) (m : M unit) : M unit := if b then m else ret tt.

(** A [for] loop whose body may leave the enclosing function:
    [None] goes on with the next element, [Some r] stops the loop with [r]
    (a [break], or a [return r]). *)
Fixpoint for_loop {A R} (xs : list A) (body : A -> M (option R)) : M (option R) :=
  match xs with
  | [] => ret None
  | x :: t =>
      bind (body x) (fun r =>
        match r with
        | Some v => ret (Some v)
        | None => for_loop t body
        end)
  end.

(** A [for] loop without [break] *)
Definition for_each {A} (xs : list A) (body : A -> M unit) : M unit :=
  bind (for_loop (R := unit) xs (fun x => bind (body x) (fun _ => ret None)))
       (fun _ => ret tt).

End Monad.
Arguments M S A : clear implicits.

Declare Scope monad_scope.
Delimit Scope monad_scope with monad.
Notation "x <- m ;; k" := (bind m (fun x => k))
  (at level 61, m at next level, right associativity) : monad_scope.
Notation "m ;; k" := (bind m (fun _ => k))
  (at level 61, right associativity) : monad_scope.
Local Open Scope monad_scope.

(** Running a computation in a component of the state *)
Definition lift_state {S T A} (proj : S -> T) (inj : T -> S -> S) (m : M T A) : M S A :=
  fun s => let (r, t') := m (proj s) in (r, inj t' s).

(** ** config.py *)

Record Config : Type := {
  BASE_PATH : string;
  TMP_PATH : string;
  RECORD_PATH : string;
  FFMPEG_PATH : string;
  HLS_SEGMENT_DURATION : Z;
  MAX_RECORDING_MINUTES : Z;
  MIN_DISK_SPACE_GB : Z;
  MAX_CONCURRENT_STREAMS : Z;
  RESOURCE_CHECK_INTERVAL : Z;
  MAX_CPU_PERCENT : Z;
  MAX_MEM_PERCENT : Z;
  CLEANUP_INTERVAL : Z
}.

(** [HLS_PLAYLIST_SIZE] is not read from the environment. *)
Definition HLS_PLAYLIST_SIZE : Z := 48.

(** The values config.py takes when no environment variable is set. *)
Definition default_config : Config := {|
  BASE_PATH := "D:\laragon\www\system\cam";
  TMP_PATH := "D:\laragon\www\system\cam\tmp";
  RECORD_PATH := "D:\laragon\www\system\cam\record";
  FFMPEG_PATH := "ffmpeg";
  HLS_SEGMENT_DURATION := 1;
  MAX_RECORDING_MINUTES := 60;
  MIN_DISK_SPACE_GB := 1;
  MAX_CONCURRENT_STREAMS := 10;
  RESOURCE_CHECK_INTERVAL := 30;
  MAX_CPU_PERCENT := 80;
  MAX_MEM_PERCENT := 80;
  CLEANUP_INTERVAL := 300
|}.

(** ** The operating system as the supervisor sees it *)

(** A path built by [os.path.join(directory, name)]: file operations look
    the entry [name] up in the directory [directory]. *)
Record Path : Type := { p_dir : string; p_name : string }.

Definition path_str (p : Path) : string := OsPath.join (p_dir p) (p_name p).

Record File : Type := {
  f_size : Z;
  f_mtime : Q;
  f_content : string;
  f_locked : bool;      (* [os.remove] and [os.replace] raise on it *)
  f_unreadable : bool   (* [open] raises on it *)
}.

Record Dir : Type := {
  d_files : dict File;
  d_writable : bool
}.

Definition FS : Type := dict Dir.

(** A child process: what [poll] reports and how the child answers the
    steps of the termination ladder. *)
Record Process : Type := {
  proc_returncode : option Z;
  proc_has_stdin : bool;
  proc_on_q : bool;
  proc_on_terminate : bool;
  proc_on_kill : bool;
  proc_exit_at : option (Q * Z); (* when the child ends by itself, and its exit code *)
  proc_broken : bool         (* operations on the handle raise *)
}.

Definition Procs : Type := list (nat * Process).

Inductive Signal : Type := SigQ | SigTerminate | SigKill.

Inductive Event : Type :=
| EvSleep (d : Q)
| EvPopen (argv : list string)
| EvRun (argv : list string)
| EvSignal (sig : Signal) (pid : nat)
| EvRemove (p : Path)
| EvReplace (src dst : Path)
| EvWrite (p : Path)
| EvThread (target : string) (arg : string)
| EvLog (msg : string).

Record OS : Type := {
  now : Q;
  fs : FS;
  procs : Procs;
  next_pid : nat;
  trace : list Event
}.

Inductive RunResult : Type :=
| Exited (returncode : Z) (stdout stderr : string)
| TimedOut
| RunRaises.

Record RunOutcome : Type := {
  ro_result : RunResult;
  ro_fs : FS;
  ro_procs : Procs
}.

(** The answers of everything outside the program. *)
Record Env : Type := {
  os_name_nt : bool;                               (* os.name == 'nt' *)
  getcwd : string;
  http_head : Q -> string -> option Z;             (* status code; None: the request raises *)
  run_cmd : Q -> list string -> FS -> Procs -> RunOutcome;
  popen_child : Q -> list string -> option Process; (* None: Popen raises *)
  elapse_files : Q -> Q -> FS -> FS;               (* what others wrote during a pause *)
  cpu_percent : Q -> Q;
  memory_percent : Q -> Q;
  disk_free : Q -> string -> option Z;             (* None: psutil.disk_usage raises *)
  pid_exists : Q -> nat -> bool;
  psutil_raises : nat -> bool;
  makedirs_raises : string -> bool;
  thread_is_alive : string -> bool;               (* recording_threads[id].is_alive() *)
  strftime : Q -> string                           (* datetime.now().strftime("%Y%m%d%H%M%S") *)
}.

Definition set_now (f : Q -> Q) (o : OS) : OS :=
  {| now := f (now o); fs := fs o; procs := procs o; next_pid := next_pid o; trace := trace o |}.
Definition set_fs (f : FS -> FS) (o : OS) : OS :=
  {| now := now o; fs := f (fs o); procs := procs o; next_pid := next_pid o; trace := trace o |}.
Definition set_procs (f : Procs -> Procs) (o : OS) : OS :=
  {| now := now o; fs := fs o; procs := f (procs o); next_pid := next_pid o; trace := trace o |}.
Definition set_next_pid (f : nat -> nat) (o : OS) : OS :=
  {| now := now o; fs := fs o; procs := procs o; next_pid := f (next_pid o); trace := trace o |}.
Definition log_event (e : Event) (o : OS) : OS :=
  {| now := now o; fs := fs o; procs := procs o; next_pid := next_pid o; trace := (trace o ++ [e])%list |}.

Definition Qltb (a b : Q) : bool := negb (Qle_bool b a).
Definition Qgtb (a b : Q) : bool := Qltb b a.
Definition Qgeb (a b : Q) : bool := Qle_bool b a.

Fixpoint proc_get (pid : nat) (ps : Procs) : option Process :=
  match ps with
  | [] => None
  | (n, p) :: t => if Nat.eqb n pid then Some p else proc_get pid t
  end.

Fixpoint proc_set (pid : nat) (p : Process) (ps : Procs) : Procs :=
  match ps with
  | [] => [(pid, p)]
  | (n, q) :: t => if Nat.eqb n pid then (pid, p) :: t else (n, q) :: proc_set pid p t
  end.

Definition with_returncode (rc : Z) (p : Process) : Process :=
  {| proc_returncode := Some rc; proc_has_stdin := proc_has_stdin p;
     proc_on_q := proc_on_q p; proc_on_terminate := proc_on_terminate p;
     proc_on_kill := proc_on_kill p; proc_exit_at := proc_exit_at p;
     proc_broken := proc_broken p |}.

Definition reacts (sig : Signal) (p : Process) : bool :=
  match sig with
  | SigQ => proc_on_q p
  | SigTerminate => proc_on_terminate p
  | SigKill => proc_on_kill p
  end.

Definition file_get (p : Path) (f : FS) : option File :=
  match PyDict.get (p_dir p) f with
  | Some d => PyDict.get (p_name p) (d_files d)
  | None => None
  end.

Definition with_files (g : dict File -> dict File) (d : Dir) : Dir :=
  {| d_files := g (d_files d); d_writable := d_writable d |}.

Definition fs_update_dir (dir : string) (g : dict File -> dict File) (f : FS) : FS :=
  match PyDict.get dir f with
  | Some d => PyDict.set dir (with_files g d) f
  | None => f
  end.

(** ** Primitive operations of the operating system

    Exception texts are shortened.  Of the log lines only those a theorem
    refers to are recorded, as [EvLog] events. *)

Section OsPrimitives.
Variable cfg : Config.
Variable E : Env.

(** [time.time()] *)
Definition time_time : M OS Q := gets now.

(** [time.sleep(d)]: the clock advances and the other actors (encoders)
    may have written files meanwhile. *)
Definition sleep (d : Q) : M OS unit :=
  modify (fun o =>
    log_event (EvSleep d)
      (set_fs (elapse_files E (now o) d) (set_now (fun t => (t + d)%Q) o))).

(** [process.poll()] *)
Definition poll (pid : nat) : M OS (option Z) :=
  fun o =>
    match proc_get pid (procs o) with
    | None => (Raise (OSError "invalid process handle"), o)
    | Some p =>
        if proc_broken p then (Raise (OSError "invalid process handle"), o)
        else
          match proc_returncode p with
          | Some rc => (Ok (Some rc), o)
          | None =>
              match proc_exit_at p with
              | Some (t, rc) =>
                  if Qle_bool t (now o)
                  then (Ok (Some rc), set_procs (proc_set pid (with_returncode rc p)) o)
                  else (Ok None, o)
              | None => (Ok None, o)
              end
          end
    end.

Definition signal_code (sig : Signal) : Z :=
  match sig with SigQ => 0 | SigTerminate => 1 | SigKill => 1 end.

(** [process.stdin.write(b'q\n')], [process.terminate()], [process.kill()] *)
Definition send_signal (sig : Signal) (pid : nat) : M OS unit :=
  fun o =>
    let o1 := log_event (EvSignal sig pid) o in
    match proc_get pid (procs o1) with
    | None => (Raise ProcessLookupError, o1)
    | Some p =>
        if proc_broken p then (Raise (OSError "invalid process handle"), o1)
        else
          match proc_returncode p with
          | Some _ => (Ok tt, o1)
          | None =>
              if reacts sig p
              then (Ok tt, set_procs (proc_set pid (with_returncode (signal_code sig) p)) o1)
              else (Ok tt, o1)
          end
    end.

(** [process.wait(timeout=t)] *)
Definition wait (pid : nat) (t : Q) : M OS Z :=
  rc <- poll pid ;;
  match rc with
  | Some c => ret c
  | None =>
      sleep t ;;
      rc' <- poll pid ;;
      match rc' with
      | Some c => ret c
      | None => raise TimeoutExpired
      end
  end.

(** [subprocess.run(argv)], [subprocess.check_output(argv)] and
    [Popen(argv).communicate()]: the command runs to its end. *)
Definition run (argv : list string) : M OS (Z * string * string) :=
  fun o =>
    let out := run_cmd E (now o) argv (fs o) (procs o) in
    let o' := log_event (EvRun argv)
                (set_procs (fun _ => ro_procs out) (set_fs (fun _ => ro_fs out) o)) in
    match ro_result out with
    | Exited c so se => (Ok (c, so, se), o')
    | TimedOut => (Raise TimeoutExpired, o')
    | RunRaises => (Raise (OSError "cannot run the command"), o')
    end.

(** [subprocess.Popen(argv)] for a long-running child *)
Definition popen (argv : list string) : M OS nat :=
  fun o =>
    let o1 := log_event (EvPopen argv) o in
    match popen_child E (now o) argv with
    | None => (Raise (OSError "cannot start the process"), o1)
    | Some p =>
        let pid := next_pid o1 in
        (Ok pid, set_next_pid Nat.succ (set_procs (fun ps => (ps ++ [(pid, p)])%list) o1))
    end.

(** [logging.info(msg)] and the like, for the recorded lines *)
Definition logging (msg : string) : M OS unit :=
  modify (log_event (EvLog msg)).

(** [threading.Thread(target=..., args=(arg,)).start()]: the thread is
    recorded, its body is not run. *)
Definition start_thread (target arg : string) : M OS unit :=
  modify (log_event (EvThread target arg)).

Definition is_some {A} (x : option A) : bool :=
  match x with Some _ => true | None => false end.

(** [os.path.exists] and [os.path.isdir] of a directory path *)
Definition dir_exists (d : string) : M OS bool :=
  gets (fun o => PyDict.contains d (fs o)).

(** [os.path.exists(os.path.join(dir, name))] *)
Definition path_exists (p : Path) : M OS bool :=
  gets (fun o => is_some (file_get p (fs o))).

Definition split_path (s : string) : Path :=
  {| p_dir := OsPath.dirname s; p_name := OsPath.basename s |}.

(** [os.path.exists(s)] for a path given as one string *)
Definition os_path_exists (s : string) : M OS bool :=
  gets (fun o => (PyDict.contains s (fs o) || is_some (file_get (split_path s) (fs o)))%bool).

(** [os.listdir(d)] *)
Definition listdir (d : string) : M OS (list string) :=
  fun o =>
    match PyDict.get d (fs o) with
    | Some dir => (Ok (PyDict.keys (d_files dir)), o)
    | None => (Raise (OSError "no such directory"), o)
    end.

Definition stat {A} (g : File -> A) (p : Path) : M OS A :=
  fun o =>
    match file_get p (fs o) with
    | Some f => (Ok (g f), o)
    | None => (Raise (OSError "no such file"), o)
    end.

(** [os.path.getsize], [os.path.getmtime] *)
Definition getsize (p : Path) : M OS Z := stat f_size p.
Definition getmtime (p : Path) : M OS Q := stat f_mtime p.

(** [os.remove(path)] *)
Definition remove (p : Path) : M OS unit :=
  fun o =>
    match file_get p (fs o) with
    | None => (Raise (OSError "no such file"), o)
    | Some f =>
        if f_locked f then (Raise PermissionError, o)
        else (Ok tt, log_event (EvRemove p)
                       (set_fs (fs_update_dir (p_dir p) (PyDict.del (p_name p))) o))
    end.

(** [open(path).read()] *)
Definition read_text (p : Path) : M OS string :=
  fun o =>
    match file_get p (fs o) with
    | None => (Raise (OSError "no such file"), o)
    | Some f =>
        if f_unreadable f then (Raise PermissionError, o) else (Ok (f_content f), o)
    end.

Definition new_file (content : string) (t : Q) : File :=
  {| f_size := Z.of_nat (String.length content); f_mtime := t;
     f_content := content; f_locked := false; f_unreadable := false |}.

(** [open(path, 'w').write(content)] *)
Definition write_text (p : Path) (content : string) : M OS unit :=
  fun o =>
    match PyDict.get (p_dir p) (fs o) with
    | None => (Raise (OSError "no such directory"), o)
    | Some d =>
        let busy := match PyDict.get (p_name p) (d_files d) with
                    | Some f => f_locked f
                    | None => false
                    end in
        if (negb (d_writable d) || busy)%bool then (Raise PermissionError, o)
        else (Ok tt, log_event (EvWrite p)
                       (set_fs (fs_update_dir (p_dir p)
                                  (PyDict.set (p_name p) (new_file content (now o)))) o))
    end.

(** [os.replace(src, dst)] *)
Definition replace (src dst : Path) : M OS unit :=
  fun o =>
    match file_get src (fs o), PyDict.get (p_dir dst) (fs o) with
    | Some f, Some d =>
        let busy := match PyDict.get (p_name dst) (d_files d) with
                    | Some g => f_locked g
                    | None => false
                    end in
        if (f_locked f || busy)%bool then (Raise PermissionError, o)
        else (Ok tt, log_event (EvReplace src dst)
                       (set_fs (fun x =>
                                  fs_update_dir (p_dir dst) (PyDict.set (p_name dst) f)
                                    (fs_update_dir (p_dir src) (PyDict.del (p_name src)) x)) o))
    | _, _ => (Raise (OSError "no such file"), o)
    end.

(** [os.makedirs(d, exist_ok=True)] *)
Definition makedirs (d : string) : M OS unit :=
  fun o =>
    if makedirs_raises E d then (Raise (OSError "cannot create the directory"), o)
    else if PyDict.contains d (fs o) then (Ok tt, o)
    else (Ok tt, set_fs (PyDict.set d {| d_files := PyDict.empty; d_writable := true |}) o).

(** [psutil.disk_usage(x).free] *)
Definition disk_usage_free (x : string) : M OS Z :=
  fun o =>
    match disk_free E (now o) x with
    | Some n => (Ok n, o)
    | None => (Raise (OSError "disk_usage failed"), o)
    end.

(** [requests.head(url, timeout=...)]: the status code *)
Definition requests_head (url : string) : M OS Z :=
  fun o =>
    match http_head E (now o) url with
    | Some c => (Ok c, o)
    | None => (Raise RequestException, o)
    end.

End OsPrimitives.

(** ** fs_utils.py *)

Section FsUtils.
Variable cfg : Config.
Variable E : Env.

Definition probe_file : string := "_test_write_permission.tmp".

(** [ensure_directory_exists(path)] *)
Definition ensure_directory_exists (path : string) : M OS unit :=
  ex <- os_path_exists path ;;
  (if negb ex then
     (* a failure of makedirs is logged and raised again; the failure of
        chmod (outside Windows) is only logged *)
     makedirs E path
   else
     isdir <- dir_exists path ;;
     if negb isdir then raise (ValueError "Path exists but is not a directory")
     else ret tt) ;;
  (* the write probe: any failure is logged and raised again *)
  let test_file_path := {| p_dir := path; p_name := probe_file |} in
  write_text test_file_path "test" ;;
  remove test_file_path.

Definition GiB : Z := 1024 * 1024 * 1024.

(** [os.path.abspath(path)], as far as the drive of the result goes *)
Definition abspath (path : string) : string :=
  match fst (OsPath.splitdrive_chars (PyStr.chars path)) with
  | [] => OsPath.join (getcwd E) path
  | _ => path
  end.

(** [get_free_space(path)] *)
Definition get_free_space (path : string) : M OS Z :=
  try_except
    (ex <- os_path_exists path ;;
     path1 <- (if negb ex then
                 let parent_path := OsPath.dirname path in
                 pex <- os_path_exists parent_path ;;
                 if pex then ret parent_path else ret (getcwd E)
               else ret path) ;;
     ex1 <- os_path_exists path1 ;;
     if ex1 then
       if os_name_nt E then
         let drive := PyStr.of_chars (fst (OsPath.splitdrive_chars (PyStr.chars (abspath path1)))) in
         if negb (String.eqb drive "") then
           try_except (disk_usage_free E drive)
                      (fun _ => disk_usage_free E path1)
         else disk_usage_free E path1
       else disk_usage_free E path1
     else ret 0)
    (fun _ => ret (1024 * 1024 * 1024)).

End FsUtils.

(** ** ffmpeg_utils.py *)

(** Python's binding of the arguments of a call to the parameters of a
    [def]: positional arguments fill the parameters in order, a keyword
    must name a parameter that is still free, and every parameter of the
    functions below has the default [None]. *)
Inductive PyVal : Type :=
| VNone
| VStr (s : string)
| VInt (n : Z).

Fixpoint bind_positional (params : list string) (args : list PyVal)
  : option (dict PyVal) :=
  match args, params with
  | [], _ => Some PyDict.empty
  | _ :: _, [] => None
  | a :: args', p :: params' =>
      match bind_positional params' args' with
      | Some d => Some ((p, a) :: d)
      | None => None
      end
  end.

Fixpoint bind_keywords (params : list string) (kwargs : list (string * PyVal))
  (bound : dict PyVal) : Res (dict PyVal) :=
  match kwargs with
  | [] => Ok bound
  | (k, v) :: rest =>
      if negb (existsb (String.eqb k) params)
      then Raise (TypeError ("got an unexpected keyword argument " ++ k))
      else if PyDict.contains k bound
      then Raise (TypeError ("got multiple values for argument " ++ k))
      else bind_keywords params rest (PyDict.set k v bound)
  end.

Definition bind_arguments (params : list string) (args : list PyVal)
  (kwargs : list (string * PyVal)) : Res (dict PyVal) :=
  match bind_positional params args with
  | None => Raise (TypeError "too many positional arguments")
  | Some bound => bind_keywords params kwargs bound
  end.

Definition arg_or_none (k : string) (d : dict PyVal) : PyVal :=
  match PyDict.get k d with Some v => v | None => VNone end.

(** Truth value of an argument in [if x:] *)
Definition truthy (v : PyVal) : bool :=
  match v with
  | VNone => false
  | VStr s => negb (String.eqb s "")
  | VInt n => negb (n =? 0)
  end.

Definition py_str (v : PyVal) : string :=
  match v with
  | VNone => "None"
  | VStr s => s
  | VInt n => PyStr.str_of_Z n
  end.

Definition is_TimeoutExpired (e : Exn) : bool :=
  match e with TimeoutExpired => true | _ => false end.
Definition is_CalledProcessError (e : Exn) : bool :=
  match e with CalledProcessError => true | _ => false end.
Definition is_lookup_or_permission (e : Exn) : bool :=
  match e with ProcessLookupError | PermissionError => true | _ => false end.

Section FfmpegUtils.
Variable cfg : Config.
Variable E : Env.

(** [check_rtsp_connection(rtsp_url, timeout=5)] *)
Definition check_rtsp_connection (rtsp_url : string) : M OS (bool * string) :=
  try_except
    (let cmd := [FFMPEG_PATH cfg; "-rtsp_transport"; "tcp"; "-i"; rtsp_url;
                 "-t"; "1"; "-f"; "null"; "-"] in
     try_except_only is_TimeoutExpired
       (r <- run E cmd ;;
        let '(returncode, _, stderr) := r in
        if returncode =? 0 then ret (true, "")
        else ret (false, "FFmpeg exit code: " ++ PyStr.str_of_Z returncode
                         ++ ", error: " ++ stderr))
       (fun _ => ret (false, "RTSP connection check timed out. URL: " ++ rtsp_url)))
    (fun _ => ret (false, "exception during the RTSP connection check")).

Definition kill_ffmpeg_processes_params : list string := ["camera_id"; "pid"].

Definition taskkill_all : list string := ["taskkill"; "/F"; "/IM"; "ffmpeg.exe"].

(** [os.kill(pid, 9)] *)
Definition os_kill (pid : Z) : M OS unit := send_signal SigKill (Z.to_nat pid).

(** The PIDs of the lines of [ps aux] that mention ffmpeg (and the camera) *)
Definition ps_ffmpeg_pids (camera_id : PyVal) (ps_output : string) : list string :=
  flat_map (fun line =>
    if (PyStr.contains "ffmpeg" line
        && (negb (truthy camera_id) || PyStr.contains (py_str camera_id) line))%bool
    then match PyStr.split_ws line with
         | _ :: pid :: _ => [pid]
         | _ => []
         end
    else []) (PyStr.splitlines ps_output).

(** The body of [kill_ffmpeg_processes(camera_id=None, pid=None)] *)
Definition kill_ffmpeg_processes_body (camera_id pid : PyVal) : M OS bool :=
  try_except
    (if os_name_nt E then
       if truthy pid then
         run E ["taskkill"; "/F"; "/PID"; py_str pid] ;;
         ret true
       else
         try_except_only is_CalledProcessError
           (if truthy camera_id
            then run E taskkill_all ;; ret tt   (* per camera is not implemented: all are killed *)
            else run E taskkill_all ;; ret tt)
           (fun _ => ret tt) ;;
         ret true
     else
       processes <-
         (if truthy pid then ret [py_str pid]
          else
            try_except_only is_CalledProcessError
              (r <- run E ["ps"; "aux"] ;;
               let '(returncode, ps_output, _) := r in
               if returncode =? 0 then ret (ps_ffmpeg_pids camera_id ps_output)
               else raise CalledProcessError)
              (fun _ => ret [])) ;;
       for_each processes (fun proc_pid =>
         match PyStr.int_of_str proc_pid with
         | None => raise (ValueError "invalid literal for int()")
         | Some n =>
             try_except_only is_lookup_or_permission (os_kill n) (fun _ => ret tt)
         end) ;;
       ret true)
    (fun _ => ret false).

(** A call of [kill_ffmpeg_processes] with the positional and keyword
    arguments a call site writes *)
Definition kill_ffmpeg_processes (args : list PyVal) (kwargs : list (string * PyVal))
  : M OS bool :=
  match bind_arguments kill_ffmpeg_processes_params args kwargs with
  | Raise e => raise e
  | Ok bound =>
      kill_ffmpeg_processes_body (arg_or_none "camera_id" bound) (arg_or_none "pid" bound)
  end.

Definition temp_path_of (file_path : Path) : Path :=
  {| p_dir := p_dir file_path; p_name := p_name file_path ++ ".temp.mp4" |}.

Definition finalize_command (file_path : Path) : list string :=
  ["ffmpeg"; "-i"; path_str file_path;
   "-c:v"; "copy"; "-c:a"; "copy"; "-map_metadata"; "0";
   "-movflags"; "+faststart"; "-write_tmcd"; "0"; "-use_editlist"; "0";
   "-fflags"; "+bitexact"; "-flags:v"; "+global_header"; "-ignore_unknown";
   "-tag:v"; "avc1"; "-y"; path_str (temp_path_of file_path)].

(** [finalize_recording(file_path)] *)
Definition finalize_recording (file_path : Path) : M OS unit :=
  try_except
    (ex <- path_exists file_path ;;
     sz <- (if ex then getsize file_path else ret 0) ;;
     if (ex && (sz >? 0))%bool then
       r <- run E (finalize_command file_path) ;;
       let '(returncode, _, _) := r in
       (if returncode =? 0 then ret tt else raise CalledProcessError) ;;
       replace (temp_path_of file_path) file_path
     else ret tt)
    (fun _ => ret tt).

(** [start_ffmpeg_process(cmd, log_path, high_priority, show_error)];
    setting the priority has no effect the supervisor observes. *)
Definition start_ffmpeg_process (cmd : list string) (log_path : option Path)
  : M OS (option nat) :=
  try_except
    (pid <- match log_path with
            | Some lp =>
                makedirs E (p_dir lp) ;;
                write_text lp ("Command: " ++ PyStr.join_spaces cmd) ;;
                popen E cmd
            | None => popen E cmd
            end ;;
     ret (Some pid))
    (fun _ => ret None).

Definition alert_file : Path :=
  {| p_dir := getcwd E; p_name := "process_kill_failure.log" |}.

(** Steps 3 to 5 of the ladder: taskkill on the tree, then psutil, then
    taskkill through the shell. *)
Definition force_kill (pid : nat) : M OS unit :=
  let pid_s := PyStr.str_of_Z (Z.of_nat pid) in
  try_except
    (r <- run E ["taskkill"; "/F"; "/T"; "/PID"; pid_s] ;;
     let '(returncode, _, _) := r in
     if returncode =? 0 then ret tt else raise (Exception "Taskkill failed"))
    (fun _ =>
       try_except
         ((if psutil_raises E pid then raise (Exception "NoSuchProcess") else ret tt) ;;
          send_signal SigTerminate pid ;;
          sleep E 1%Q ;;
          rc <- poll pid ;;
          match rc with
          | None => send_signal SigKill pid
          | Some _ => ret tt
          end)
         (fun _ =>
            try_except
              (run E ["taskkill /F /PID " ++ pid_s ++ " /T"] ;;
               sleep E 1%Q ;;
               run E ["taskkill /F /PID " ++ pid_s ++ " /T"] ;;
               ret tt)
              (fun _ => ret tt))).

(** [terminate_process(process, timeout=10)] *)
Definition terminate_process (pid : nat) (timeout : Q) : M OS unit :=
  rc <- poll pid ;;
  match rc with
  | Some _ => ret tt
  | None =>
      try_except
        (has_stdin <- gets (fun o => match proc_get pid (procs o) with
                                     | Some p => proc_has_stdin p
                                     | None => false
                                     end) ;;
         when has_stdin (try_except (send_signal SigQ pid) (fun _ => ret tt)) ;;
         quit <- for_loop [0; 1; 2] (fun _ =>
                   sleep E 1%Q ;;
                   rc1 <- poll pid ;;
                   match rc1 with
                   | Some _ => ret (Some tt)
                   | None => ret None
                   end) ;;
         match quit with
         | Some _ => ret tt
         | None =>
             rc2 <- poll pid ;;
             ended <- match rc2 with
                      | None =>
                          send_signal SigTerminate pid ;;
                          try_except_only is_TimeoutExpired
                            (wait E pid 3%Q ;;
                             rc3 <- poll pid ;;
                             ret (is_some rc3))
                            (fun _ => ret false)
                      | Some _ => ret false
                      end ;;
             if ended : bool then ret tt
             else
               rc4 <- poll pid ;;
               match rc4 with
               | None => force_kill pid
               | Some _ => ret tt
               end ;;
               try_except_only is_TimeoutExpired
                 (wait E pid timeout ;; poll pid ;; ret tt)
                 (fun _ => ret tt) ;;
               try_except
                 (alive <- gets (fun o => pid_exists E (now o) pid) ;;
                  when alive
                    (write_text alert_file
                       ("Failed to kill process PID: " ++ PyStr.str_of_Z (Z.of_nat pid))))
                 (fun _ => ret tt)
         end)
        (fun _ => ret tt)
  end.

(** [get_hls_streaming_command(input_url, output_path, segment_time=1,
    buffer_size="32768k")] *)
Definition get_hls_streaming_command (input_url output_path : string)
  (segment_time : Z) (buffer_size : string) : list string :=
  let output_dir := OsPath.dirname output_path in
  let filename := fst (OsPath.splitext (OsPath.basename output_path)) in
  [FFMPEG_PATH cfg;
   "-rtsp_transport"; "tcp";
   "-buffer_size"; buffer_size;
   "-max_delay"; "100000";
   "-analyzeduration"; "1000000";
   "-probesize"; "1000000";
   "-fflags"; "+genpts+discardcorrupt+igndts+ignidx+flush_packets";
   "-err_detect"; "ignore_err";
   "-avoid_negative_ts"; "make_zero";
   "-use_wallclock_as_timestamps"; "1";
   "-thread_queue_size"; "512";
   "-flags"; "+global_header";
   "-i"; input_url;
   "-c:v"; "libx264";
   "-preset"; "veryfast";
   "-tune"; "zerolatency";
   "-c:a"; "aac";
   "-b:a"; "128k";
   "-ar"; "44100";
   "-ac"; "2";
   "-async"; "1";
   "-vsync"; "cfr";
   "-fps_mode"; "cfr";
   "-force_key_frames"; "expr:gte(t,n_forced*" ++ PyStr.str_of_Z segment_time ++ ")";
   "-sc_threshold"; "0";
   "-g"; PyStr.str_of_Z (segment_time * 30);
   "-movflags"; "empty_moov+omit_tfhd_offset+frag_keyframe+default_base_moof";
   "-hls_time"; PyStr.str_of_Z segment_time;
   "-hls_list_size"; PyStr.str_of_Z HLS_PLAYLIST_SIZE;
   "-hls_flags"; "delete_segments+independent_segments+split_by_time";
   "-hls_segment_type"; "mpegts";
   "-hls_segment_filename"; OsPath.join output_dir (filename ++ "-%05d.ts");
   "-hls_start_number_source"; "datetime";
   "-hls_allow_cache"; "0";
   "-start_number"; "1";
   "-muxdelay"; "0";
   "-muxpreload"; "0";
   "-max_muxing_queue_size"; "4096";
   "-f"; "hls";
   "-y";
   output_path].

Definition hls_url_of (camera_id : string) : string :=
  "http://localhost:5000/system/cam/tmp/" ++ camera_id ++ "/" ++ camera_id ++ ".m3u8".

(** The argv of the branch of [get_ffmpeg_record_command] that reads the
    local HLS playlist *)
Definition record_command_hls (hls_url output_path : string) : list string :=
  ["ffmpeg";
   "-protocol_whitelist"; "file,http,https,tcp,tls";
   "-hwaccel"; "cuda";
   "-c:v"; "h264_cuvid";
   "-i"; hls_url;
   "-c:v"; "h264_nvenc";
   "-preset"; "fast";
   "-r"; "30";
   "-c:a"; "aac";
   "-b:a"; "128k";
   "-ar"; "44100";
   "-ac"; "2";
   "-max_muxing_queue_size"; "2048";
   "-fflags"; "+genpts+discardcorrupt+igndts";
   "-avoid_negative_ts"; "make_zero";
   "-start_at_zero";
   "-fps_mode"; "cfr";
   "-async"; "1";
   "-movflags"; "+faststart+frag_keyframe";
   "-y";
   output_path].

(** The argv of the branch that reads the RTSP stream *)
Definition record_command_rtsp (rtsp_url output_path : string) : list string :=
  ["ffmpeg";
   "-rtsp_transport"; "tcp";
   "-hwaccel"; "cuda";
   "-c:v"; "h264_cuvid";
   "-analyzeduration"; "10000000";
   "-probesize"; "5000000";
   "-buffer_size"; "30720k";
   "-use_wallclock_as_timestamps"; "1";
   "-timeout"; "10000000";
   "-rw_timeout"; "10000000";
   "-xerror"; "";
   "-i"; rtsp_url;
   "-c:v"; "h264_nvenc";
   "-preset"; "fast";
   "-r"; "30";
   "-c:a"; "aac";
   "-b:a"; "128k";
   "-ar"; "44100";
   "-ac"; "2";
   "-max_muxing_queue_size"; "2048";
   "-fflags"; "+genpts+discardcorrupt+igndts";
   "-avoid_negative_ts"; "make_zero";
   "-start_at_zero";
   "-fps_mode"; "cfr";
   "-async"; "1";
   "-movflags"; "+faststart+frag_keyframe";
   "-y";
   output_path].

(** The probe of [get_ffmpeg_record_command]: a HEAD request for the
    camera's playlist on the local HTTP server; no request when the
    camera id is missing, 'None' or 'unknown'. *)
Definition probe_hls (camera_id : PyVal) : M OS bool :=
  if (truthy camera_id
      && negb (String.eqb (py_str camera_id) "None")
      && negb (String.eqb (py_str camera_id) "unknown"))%bool
  then
    try_except
      (status_code <- requests_head E (hls_url_of (py_str camera_id)) ;;
       ret (status_code =? 200))
      (fun _ => ret false)
  else ret false.

(** [get_ffmpeg_record_command(rtsp_url, output_path, camera_id=None)] *)
Definition get_ffmpeg_record_command (rtsp_url output_path : string)
  (camera_id : PyVal) : M OS (list string) :=
  use_hls <- probe_hls camera_id ;;
  if use_hls : bool
  then ret (record_command_hls (hls_url_of (py_str camera_id)) output_path)
  else ret (record_command_rtsp rtsp_url output_path).

End FfmpegUtils.

(** ** camera_utils.py and the module-level state of the supervisors *)

(** A camera dict as [read_config] builds it; the key [enabled] may be
    missing in dicts that come from elsewhere. *)
Record Camera : Type := {
  cam_id : string;
  cam_name : string;
  cam_rtsp_url : string;
  cam_enabled : option Z
}.

(** [camera.get('enabled', 1)] *)
Definition get_enabled (camera : Camera) : Z :=
  match cam_enabled camera with
  | Some n => n
  | None => 1
  end.

(** The entries of [recording_processes] *)
Record RecInfo : Type := {
  ri_process : nat;
  ri_url : string;
  ri_file_path : Path;
  ri_start_time : Q;
  ri_hls : bool
}.

(** The globals of streaming.py *)
Record Streaming : Type := {
  streaming_processes : dict nat;
  hls_last_update : dict Q;
  m3u8_last_size : dict Z;
  streaming_queue : list Camera;
  active_streams_count : Z;
  streaming_workers_running : bool;
  system_resources : Q * Q;
  restart_counts : dict Z
}.

(** The globals of recording.py *)
Record Recording : Type := {
  recording_processes : dict RecInfo;
  recording_threads : dict unit;
  recording_start_times : dict Q
}.

Record World : Type := {
  streaming : Streaming;
  recording : Recording;
  camera_config : list Camera;   (* what [read_config()] returns *)
  os : OS
}.

Definition set_streaming_processes (f : dict nat -> dict nat) (s : Streaming) : Streaming :=
  {| streaming_processes := f (streaming_processes s);
     hls_last_update := hls_last_update s; m3u8_last_size := m3u8_last_size s;
     streaming_queue := streaming_queue s; active_streams_count := active_streams_count s;
     streaming_workers_running := streaming_workers_running s;
     system_resources := system_resources s; restart_counts := restart_counts s |}.
Definition set_hls_last_update (f : dict Q -> dict Q) (s : Streaming) : Streaming :=
  {| streaming_processes := streaming_processes s;
     hls_last_update := f (hls_last_update s); m3u8_last_size := m3u8_last_size s;
     streaming_queue := streaming_queue s; active_streams_count := active_streams_count s;
     streaming_workers_running := streaming_workers_running s;
     system_resources := system_resources s; restart_counts := restart_counts s |}.
Definition set_m3u8_last_size (f : dict Z -> dict Z) (s : Streaming) : Streaming :=
  {| streaming_processes := streaming_processes s;
     hls_last_update := hls_last_update s; m3u8_last_size := f (m3u8_last_size s);
     streaming_queue := streaming_queue s; active_streams_count := active_streams_count s;
     streaming_workers_running := streaming_workers_running s;
     system_resources := system_resources s; restart_counts := restart_counts s |}.
Definition set_streaming_queue (f : list Camera -> list Camera) (s : Streaming) : Streaming :=
  {| streaming_processes := streaming_processes s;
     hls_last_update := hls_last_update s; m3u8_last_size := m3u8_last_size s;
     streaming_queue := f (streaming_queue s); active_streams_count := active_streams_count s;
     streaming_workers_running := streaming_workers_running s;
     system_resources := system_resources s; restart_counts := restart_counts s |}.
Definition set_active_streams_count (f : Z -> Z) (s : Streaming) : Streaming :=
  {| streaming_processes := streaming_processes s;
     hls_last_update := hls_last_update s; m3u8_last_size := m3u8_last_size s;
     streaming_queue := streaming_queue s; active_streams_count := f (active_streams_count s);
     streaming_workers_running := streaming_workers_running s;
     system_resources := system_resources s; restart_counts := restart_counts s |}.
Definition set_streaming_workers_running (b : bool) (s : Streaming) : Streaming :=
  {| streaming_processes := streaming_processes s;
     hls_last_update := hls_last_update s; m3u8_last_size := m3u8_last_size s;
     streaming_queue := streaming_queue s; active_streams_count := active_streams_count s;
     streaming_workers_running := b;
     system_resources := system_resources s; restart_counts := restart_counts s |}.
Definition set_system_resources (r : Q * Q) (s : Streaming) : Streaming :=
  {| streaming_processes := streaming_processes s;
     hls_last_update := hls_last_update s; m3u8_last_size := m3u8_last_size s;
     streaming_queue := streaming_queue s; active_streams_count := active_streams_count s;
     streaming_workers_running := streaming_workers_running s;
     system_resources := r; restart_counts := restart_counts s |}.
Definition set_restart_counts (f : dict Z -> dict Z) (s : Streaming) : Streaming :=
  {| streaming_processes := streaming_processes s;
     hls_last_update := hls_last_update s; m3u8_last_size := m3u8_last_size s;
     streaming_queue := streaming_queue s; active_streams_count := active_streams_count s;
     streaming_workers_running := streaming_workers_running s;
     system_resources := system_resources s; restart_counts := f (restart_counts s) |}.

Definition set_recording_processes (f : dict RecInfo -> dict RecInfo) (r : Recording) : Recording :=
  {| recording_processes := f (recording_processes r);
     recording_threads := recording_threads r;
     recording_start_times := recording_start_times r |}.
Definition set_recording_threads (f : dict unit -> dict unit) (r : Recording) : Recording :=
  {| recording_processes := recording_processes r;
     recording_threads := f (recording_threads r);
     recording_start_times := recording_start_times r |}.
Definition set_recording_start_times (f : dict Q -> dict Q) (r : Recording) : Recording :=
  {| recording_processes := recording_processes r;
     recording_threads := recording_threads r;
     recording_start_times := f (recording_start_times r) |}.

Definition set_streaming (f : Streaming -> Streaming) (w : World) : World :=
  {| streaming := f (streaming w); recording := recording w;
     camera_config := camera_config w; os := os w |}.
Definition set_recording (f : Recording -> Recording) (w : World) : World :=
  {| streaming := streaming w; recording := f (recording w);
     camera_config := camera_config w; os := os w |}.
Definition set_os (o : OS) (w : World) : World :=
  {| streaming := streaming w; recording := recording w;
     camera_config := camera_config w; os := o |}.

(** An operating-system computation run from the supervisor *)
Definition in_os {A} (m : M OS A) : M World A := lift_state os set_os m.

(** Reading and updating the globals *)
Definition st {A} (f : Streaming -> A) : M World A := gets (fun w => f (streaming w)).
Definition rec {A} (f : Recording -> A) : M World A := gets (fun w => f (recording w)).
Definition upd_st (f : Streaming -> Streaming) : M World unit := modify (set_streaming f).
Definition upd_rec (f : Recording -> Recording) : M World unit := modify (set_recording f).

(** [get_camera_by_id(camera_id)] *)
Definition get_camera_by_id (camera_id : string) : M World (option Camera) :=
  gets (fun w => find (fun camera => String.eqb (cam_id camera) camera_id) (camera_config w)).

(** [get_enabled_cameras()] *)
Definition get_enabled_cameras : M World (list Camera) :=
  gets (fun w => filter (fun cam => get_enabled cam =? 1) (camera_config w)).

(** ** streaming.py *)

Definition MAX_RESTART_COUNT : Z := 5.
Definition RESTART_COOLDOWN : Z := 30.
Definition HLS_UPDATE_TIMEOUT : Z := 10.

(** [range(n)] *)
Definition range (n : Z) : list Z := map Z.of_nat (seq 0 (Z.to_nat n)).

Definition is_ts (name : string) : bool := PyStr.endswith name ".ts".

(** The segment names a playlist mentions: for each stripped line that
    ends in .ts, its last path component. *)
Definition active_segments_of (content : string) : list string :=
  flat_map (fun line =>
              let line := PyStr.strip line in
              if PyStr.endswith line ".ts" then [OsPath.basename line] else [])
           (PyStr.lines content).

Definition mem_str (x : string) (l : list string) : bool := existsb (String.eqb x) l.

Definition temporarily_stopping (camera_id : string) : string :=
  "Temporarily stopping streaming for camera " ++ camera_id ++ " due to high system load".

Section StreamingPy.
Variable cfg : Config.
Variable E : Env.

Definition camera_tmp_dir_of (camera_id : string) : string :=
  OsPath.join (TMP_PATH cfg) camera_id.

Definition m3u8_path_of (camera_id : string) : Path :=
  {| p_dir := camera_tmp_dir_of camera_id; p_name := camera_id ++ ".m3u8" |}.

(** [cleanup_old_segments(camera_id, force=False)] *)
Definition cleanup_old_segments (camera_id : string) (force : bool) : M OS unit :=
  try_except
    (let camera_tmp_dir := camera_tmp_dir_of camera_id in
     ex <- os_path_exists camera_tmp_dir ;;
     if negb ex then ret tt
     else
       let m3u8_path := m3u8_path_of camera_id in
       names <- listdir camera_tmp_dir ;;
       let ts_files := filter is_ts names in
       m3u8_exists <- path_exists m3u8_path ;;
       if (negb m3u8_exists && negb (Nat.eqb (List.length ts_files) 0))%bool then
         (* segments without a playlist: removed only when forced *)
         when force
           (for_each ts_files (fun ts_file =>
              try_except (remove {| p_dir := camera_tmp_dir; p_name := ts_file |})
                         (fun _ => ret tt)))
       else
         active <- (if m3u8_exists then
                      try_except
                        (content <- read_text m3u8_path ;;
                         ret (Some (active_segments_of content)))
                        (fun _ => ret None)   (* a read error stops the clean-up *)
                    else ret (Some [])) ;;
         match active with
         | None => ret tt
         | Some active_segments =>
             for_each ts_files (fun ts_file =>
               if negb (mem_str ts_file active_segments) then
                 try_except
                   (let ts_file_path := {| p_dir := camera_tmp_dir; p_name := ts_file |} in
                    file_mtime <- getmtime ts_file_path ;;
                    t <- time_time ;;
                    when (Qgtb (t - file_mtime) 180) (remove ts_file_path))
                   (fun _ => ret tt)
               else ret tt)
         end)
    (fun _ => ret tt).

Definition dec_count (n : Z) : Z := Z.max 0 (n - 1).

(** [cleanup_camera_resources(camera_id)] *)
Definition cleanup_camera_resources (camera_id : string) : M World unit :=
  try_except
    (in_os (logging ("Cleaning up resources for camera " ++ camera_id)) ;;
     sp <- st streaming_processes ;;
     match PyDict.get camera_id sp with
     | Some process =>
         try_except (in_os (terminate_process E process 10)) (fun _ => ret tt) ;;
         upd_st (set_streaming_processes (PyDict.del camera_id)) ;;
         upd_st (set_active_streams_count dec_count)
     | None => ret tt
     end ;;
     upd_st (set_hls_last_update (PyDict.del camera_id)) ;;
     upd_st (set_m3u8_last_size (PyDict.del camera_id)) ;;
     upd_st (set_restart_counts (PyDict.del camera_id)) ;;
     in_os (kill_ffmpeg_processes E [VStr camera_id] []) ;;
     in_os (cleanup_old_segments camera_id false))
    (fun _ => ret tt).

(** [start_streaming_workers()] *)
Definition start_streaming_workers : M World unit :=
  running <- st streaming_workers_running ;;
  if running : bool then ret tt
  else
    upd_st (set_streaming_workers_running true) ;;
    for_each (range (MAX_CONCURRENT_STREAMS cfg)) (fun i =>
      in_os (start_thread "streaming_worker" ("streaming-worker-" ++ PyStr.str_of_Z i))) ;;
    in_os (start_thread "monitor_system_resources" "resource-monitor") ;;
    in_os (start_thread "cleanup_scheduler" "cleanup-scheduler") ;;
    in_os (start_thread "global_health_monitor" "health-monitor").

(** [streaming_queue.put(camera)] *)
Definition queue_put (camera : Camera) : M World unit :=
  upd_st (set_streaming_queue (fun q => (q ++ [camera])%list)).

(** [get_or_start_streaming(camera)] *)
Definition get_or_start_streaming (camera : Camera) : M World bool :=
  if negb (get_enabled camera =? 1) then ret false
  else
    sp <- st streaming_processes ;;
    if PyDict.contains (cam_id camera) sp then ret true
    else
      queue_put camera ;;
      running <- st streaming_workers_running ;;
      when (negb running) start_streaming_workers ;;
      ret true.

(** The playlist path of a launch, [hls_path], as a string *)
Definition hls_path_of (camera_id : string) : string :=
  PyStr.replace_char "/"%char "\"%char (path_str (m3u8_path_of camera_id)).

(** The encoder argv of a launch: [start_streaming_process] fixes the
    segment time and the buffer size for all cameras. *)
Definition hls_launch_command (camera : Camera) : list string :=
  let hls_segment_time := 2 in
  let ffmpeg_buffer_size := "32768k" in
  get_hls_streaming_command cfg (cam_rtsp_url camera) (hls_path_of (cam_id camera))
    hls_segment_time ffmpeg_buffer_size.

(** One round of the wait for the playlist in [start_streaming_process]:
    [Some false] is the [return False] of the loop, [None] its end. *)
Fixpoint wait_for_playlist (fuel : nat) (camera_id : string) (process : nat)
  (start_wait_time : Q) : M World (option bool) :=
  match fuel with
  | O => ret None
  | S fuel' =>
      t <- in_os time_time ;;
      if negb (Qltb (t - start_wait_time) 30) then ret None
      else
        rc <- in_os (poll process) ;;
        match rc with
        | Some _ =>
            upd_st (set_streaming_processes (PyDict.del camera_id)) ;;
            ret (Some false)
        | None =>
            let camera_tmp_dir := camera_tmp_dir_of camera_id in
            let hls_path := m3u8_path_of camera_id in
            ex <- in_os (path_exists hls_path) ;;
            created <-
              (if ex : bool then
                 try_except
                   (m3u8_size <- in_os (getsize hls_path) ;;
                    if m3u8_size >? 0 then
                      content <- in_os (read_text hls_path) ;;
                      if PyStr.contains "#EXTM3U" content then
                        names <- in_os (listdir camera_tmp_dir) ;;
                        match filter is_ts names with
                        | [] => ret false
                        | _ :: _ =>
                            m3u8_content <- in_os (read_text hls_path) ;;
                            in_os (write_text
                                     {| p_dir := camera_tmp_dir;
                                        p_name := camera_id ++ "_backup.m3u8" |}
                                     m3u8_content) ;;
                            ret true
                        end
                      else ret false
                    else ret false)
                   (fun _ => ret false)
               else ret false) ;;
            if created : bool then ret None
            else
              in_os (sleep E 0.1%Q) ;;
              wait_for_playlist fuel' camera_id process start_wait_time
        end
  end.

(** [start_streaming_process(camera)] *)
Definition start_streaming_process (camera : Camera) : M World bool :=
  let camera_id := cam_id camera in
  try_except
    (let camera_tmp_dir := camera_tmp_dir_of camera_id in
     in_os (ensure_directory_exists E camera_tmp_dir) ;;
     let log_dir := OsPath.join (BASE_PATH cfg) "log" in
     in_os (makedirs E log_dir) ;;
     timestamp <- in_os (gets (fun o => strftime E (now o))) ;;
     let log_path := {| p_dir := log_dir;
                        p_name := "hls_" ++ camera_id ++ "_" ++ timestamp ++ ".log" |} in
     let hls_file := m3u8_path_of camera_id in
     (* (b) only the processes of this camera are to be ended *)
     in_os (kill_ffmpeg_processes E []
              [("camera_id", VStr camera_id); ("process_type", VStr "hls")]) ;;
     in_os (sleep E 0.5%Q) ;;
     ex <- in_os (os_path_exists camera_tmp_dir) ;;
     when (negb ex) (in_os (makedirs E camera_tmp_dir)) ;;
     let ffmpeg_cmd := hls_launch_command camera in
     (* the old segments are cleared *)
     try_except
       (names <- in_os (listdir camera_tmp_dir) ;;
        for_each (filter is_ts names) (fun ts_file =>
          try_except (in_os (remove {| p_dir := camera_tmp_dir; p_name := ts_file |}))
                     (fun _ => ret tt)))
       (fun _ => ret tt) ;;
     (* (c) the encoder starts *)
     started <- in_os (start_ffmpeg_process E ffmpeg_cmd (Some log_path)) ;;
     in_os (sleep E 1%Q) ;;
     alive <- match started with
              | None => ret None
              | Some process =>
                  rc <- in_os (poll process) ;;
                  match rc with
                  | Some _ => ret None
                  | None => ret (Some process)
                  end
              end ;;
     match alive with
     | None =>
         try_except (in_os (check_rtsp_connection cfg E (cam_rtsp_url camera)) ;; ret tt)
                    (fun _ => ret tt) ;;
         cleanup_camera_resources camera_id ;;
         ret false
     | Some process =>
         (* (e) the session is recorded, its restart counter reset *)
         upd_st (set_streaming_processes (PyDict.set camera_id process)) ;;
         t <- in_os time_time ;;
         upd_st (set_hls_last_update (PyDict.set camera_id t)) ;;
         ex_m3u8 <- in_os (path_exists hls_file) ;;
         size <- (if ex_m3u8 : bool then in_os (getsize hls_file) else ret 0) ;;
         upd_st (set_m3u8_last_size (PyDict.set camera_id size)) ;;
         upd_st (set_restart_counts (PyDict.set camera_id 0)) ;;
         (* (d) up to 30 s for the playlist, in steps of 0.1 s *)
         start_wait_time <- in_os time_time ;;
         waited <- wait_for_playlist 301 camera_id process start_wait_time ;;
         match waited with
         | Some r => ret r
         | None =>
             in_os (start_thread "monitor_streaming_process" camera_id) ;;
             in_os (start_thread "monitor_hls_updates" camera_id) ;;
             ret true
         end
     end)
    (fun _ =>
       cleanup_camera_resources camera_id ;;
       ret false).

(** [restart_counts[camera_id] += 1], after the entry was created with
    [init] when it was missing *)
Definition bump_restart_count (camera_id : string) (init : Z) : M World Z :=
  rc <- st restart_counts ;;
  let n := match PyDict.get camera_id rc with
           | Some n => n + 1
           | None => init
           end in
  upd_st (set_restart_counts (PyDict.set camera_id n)) ;;
  ret n.

(** [restart_streaming(camera_id)] *)
Definition restart_streaming (camera_id : string) : M World bool :=
  try_except
    (current_restart_count <- bump_restart_count camera_id (0 + 1) ;;
     when (current_restart_count >? MAX_RESTART_COUNT)
       (let cooldown := RESTART_COOLDOWN * (current_restart_count - MAX_RESTART_COUNT + 1) in
        let cooldown := Z.min cooldown 300 in
        in_os (sleep E (inject_Z cooldown))) ;;
     sp <- st streaming_processes ;;
     match PyDict.get camera_id sp with
     | Some process =>
         try_except
           (in_os (terminate_process E process 10) ;;
            upd_st (set_streaming_processes (PyDict.del camera_id)) ;;
            upd_st (set_active_streams_count dec_count))
           (fun _ => ret tt)
     | None => ret tt
     end ;;
     in_os (kill_ffmpeg_processes E [VStr camera_id] []) ;;
     camera <- get_camera_by_id camera_id ;;
     match camera with
     | None => ret false
     | Some camera => get_or_start_streaming camera
     end)
    (fun _ => ret false).

(** [restart_camera_stream(camera_id)] *)
Definition restart_camera_stream (camera_id : string) : M World bool :=
  try_except
    (count <- bump_restart_count camera_id 1 ;;
     when (count >? MAX_RESTART_COUNT)
       (let cooling_time := RESTART_COOLDOWN * 2 in
        in_os (sleep E (inject_Z cooling_time)) ;;
        upd_st (set_restart_counts (PyDict.set camera_id 1))) ;;
     sp <- st streaming_processes ;;
     match PyDict.get camera_id sp with
     | Some process =>
         try_except
           (rc <- in_os (poll process) ;;
            match rc with
            | None =>
                in_os (send_signal SigTerminate process) ;;
                try_except_only is_TimeoutExpired
                  (in_os (wait E process 5%Q) ;; ret tt)
                  (fun _ =>
                     in_os (send_signal SigKill process) ;;
                     in_os (wait E process 2%Q) ;;
                     ret tt)
            | Some _ => ret tt
            end)
           (fun _ => ret tt) ;;
         cleanup_camera_resources camera_id
     | None => ret tt
     end ;;
     sp' <- st streaming_processes ;;
     when (PyDict.contains camera_id sp') (cleanup_camera_resources camera_id) ;;
     in_os (sleep E 1%Q) ;;
     camera_info <- get_camera_by_id camera_id ;;
     match camera_info with
     | None => ret false
     | Some camera_info =>
         if negb (get_enabled camera_info =? 1) then ret false
         else
           queue_put camera_info ;;
           ret true
     end)
    (fun _ => ret false).

(** [psutil.cpu_percent(interval=1)]: the call blocks for the interval *)
Definition cpu_sample : M OS Q :=
  sleep E 1%Q ;;
  gets (fun o => cpu_percent E (now o)).

(** One round of the shedding loop of [monitor_system_resources]: the
    session is torn down, then a pause of 5 s, then the CPU is sampled
    again. *)
Definition tear_down_and_resample (camera_id : string) : M World Q :=
  in_os (logging (temporarily_stopping camera_id)) ;;
  cleanup_camera_resources camera_id ;;
  in_os (sleep E 5%Q) ;;
  in_os cpu_sample.

(** The shedding loop over the keys [list(streaming_processes.keys())],
    with its counter *)
Fixpoint shed_streams (camera_ids : list string) (count : Z) : M World unit :=
  match camera_ids with
  | [] => ret tt
  | camera_id :: rest =>
      if count >=? 5 then ret tt
      else
        cpu_current <- tear_down_and_resample camera_id ;;
        if Qltb cpu_current 70 then ret tt
        else shed_streams rest (count + 1)
  end.

(** One pass of the [while True] loop of [monitor_system_resources] *)
Definition monitor_system_resources_pass : M World unit :=
  try_except
    (cpu_percent <- in_os cpu_sample ;;
     memory_percent <- in_os (gets (fun o => memory_percent E (now o))) ;;
     upd_st (set_system_resources (cpu_percent, memory_percent)) ;;
     when (Qgtb cpu_percent 90 || Qgtb memory_percent 90)%bool
       (sp <- st streaming_processes ;;
        when (PyDict.len sp >? 5)
          (shed_streams (PyDict.keys sp) 0)) ;;
     in_os (sleep E (inject_Z (RESOURCE_CHECK_INTERVAL cfg))))
    (fun _ => in_os (sleep E 30%Q)).

(** [stop_all_streaming()] *)
Definition stop_all_streaming : M World bool :=
  sp <- st streaming_processes ;;
  for_each sp (fun item =>
    try_except (in_os (terminate_process E (snd item) 10)) (fun _ => ret tt)) ;;
  upd_st (set_streaming_processes (fun _ => PyDict.empty)) ;;
  upd_st (set_hls_last_update (fun _ => PyDict.empty)) ;;
  upd_st (set_m3u8_last_size (fun _ => PyDict.empty)) ;;
  upd_st (set_restart_counts (fun _ => PyDict.empty)) ;;
  try_except (in_os (kill_ffmpeg_processes E [] []) ;; ret tt) (fun _ => ret tt) ;;
  upd_st (set_active_streams_count (fun _ => 0)) ;;
  ret true.

End StreamingPy.

(** ** recording.py *)

Definition MiB : Z := 1024 * 1024.

Definition dquote : string := String (ascii_of_nat 34) EmptyString.

Definition tasklist_command : string :=
  "tasklist /FI " ++ dquote ++ "IMAGENAME eq ffmpeg.exe" ++ dquote.

Section RecordingPy.
Variable cfg : Config.
Variable E : Env.

Definition record_dir_of (camera_id : string) : string :=
  OsPath.join (OsPath.join (BASE_PATH cfg) "record") camera_id.

(** [stop_recording(camera_id)] *)
Definition stop_recording (camera_id : string) : M World bool :=
  recording_info <- rec (fun r => PyDict.get camera_id (recording_processes r)) ;;
  upd_rec (set_recording_processes (PyDict.del camera_id)) ;;
  upd_rec (set_recording_start_times (PyDict.del camera_id)) ;;
  match recording_info with
  | Some info =>
      let process := ri_process info in
      let file_path := ri_file_path info in
      try_except
        (in_os (terminate_process E process 10) ;;
         ex <- in_os (path_exists file_path) ;;
         (if ex : bool then
            file_size <- in_os (getsize file_path) ;;
            if file_size <? 1024 * 1024 then
              (* too small: removed as incomplete *)
              try_except (in_os (remove file_path)) (fun _ => ret tt)
            else if file_size >? 0 then
              in_os (finalize_recording E file_path)
            else
              try_except (in_os (remove file_path)) (fun _ => ret tt)
          else ret tt) ;;
         upd_rec (set_recording_processes (PyDict.del camera_id)) ;;
         upd_rec (set_recording_start_times (PyDict.del camera_id)) ;;
         ret true)
        (fun _ => ret false)
  | None => ret false
  end.

(** [check_disk_space(camera_id)] of recording.py *)
Definition check_disk_space (camera_id : string) : M World bool :=
  try_except
    (let camera_dir := record_dir_of camera_id in
     in_os (ensure_directory_exists E camera_dir) ;;
     free <- in_os (get_free_space E camera_dir) ;;
     let available_gb := (inject_Z free / inject_Z (1024 * 1024 * 1024))%Q in
     if Qltb available_gb (inject_Z (MIN_DISK_SPACE_GB cfg)) then ret false
     else ret true)
    (fun _ => ret false).

(** The RTSP probe of [start_new_recording]: up to five attempts, with a
    pause of 2 s (5 s after 'Operation not permitted') between them *)
Definition rtsp_retry (rtsp_url : string) : M World bool :=
  r <- for_loop [1; 2; 3; 4; 5] (fun attempt =>
         res <- in_os (check_rtsp_connection cfg E rtsp_url) ;;
         let '(success, err_msg) := res in
         if success : bool then ret (Some tt)
         else
           when (attempt <? 5)
             (let backoff_time :=
                if PyStr.contains "Operation not permitted" err_msg then 5%Q else 2%Q in
              in_os (sleep E backoff_time)) ;;
           ret None) ;;
  ret (is_some r).

(** [start_new_recording(camera_id, rtsp_url)] *)
Definition start_new_recording (camera_id rtsp_url : string) : M World bool :=
  try_except
    (rp <- rec recording_processes ;;
     when (PyDict.contains camera_id rp)
       (stop_recording camera_id ;; in_os (sleep E 2%Q)) ;;
     space <- check_disk_space camera_id ;;
     if negb space then ret false
     else
       timestamp <- in_os (gets (fun o => strftime E (now o))) ;;
       let file_path := {| p_dir := record_dir_of camera_id;
                           p_name := camera_id ++ "_" ++ timestamp ++ ".mp4" |} in
       use_hls <- try_except
                    (status_code <- in_os (requests_head E (hls_url_of camera_id)) ;;
                     ret (status_code =? 200))
                    (fun _ => ret false) ;;
       rtsp_ok <- (if use_hls : bool then ret true else rtsp_retry rtsp_url) ;;
       if negb rtsp_ok then ret false
       else
         ffmpeg_cmd <- in_os (get_ffmpeg_record_command E rtsp_url (path_str file_path)
                                (VStr camera_id)) ;;
         process <- in_os (popen E ffmpeg_cmd) ;;
         in_os (sleep E 1%Q) ;;
         rc <- in_os (poll process) ;;
         match rc with
         | None =>
             start_time <- in_os time_time ;;
             upd_rec (set_recording_processes
                        (PyDict.set camera_id
                           {| ri_process := process; ri_url := rtsp_url;
                              ri_file_path := file_path; ri_start_time := start_time;
                              ri_hls := use_hls |})) ;;
             upd_rec (set_recording_start_times (PyDict.set camera_id start_time)) ;;
             in_os (sleep E 0.5%Q) ;;
             rc' <- in_os (poll process) ;;
             match rc' with
             | None =>
                 in_os (start_thread "monitor_ffmpeg_output" camera_id) ;;
                 ret true
             | Some _ => ret false
             end
         | Some _ => ret false
         end)
    (fun _ => ret false).

(** [start_recording(camera_id, rtsp_url)] *)
Definition start_recording (camera_id rtsp_url : string) : M World bool :=
  try_except
    (rp <- rec recording_processes ;;
     when (PyDict.contains camera_id rp)
       (stop_recording camera_id ;; in_os (sleep E 3%Q)) ;;
     let camera_dir := record_dir_of camera_id in
     in_os (ensure_directory_exists E camera_dir) ;;
     let required_space := 1024 * 1024 * 1024 * MIN_DISK_SPACE_GB cfg in
     available_space <- in_os (get_free_space E camera_dir) ;;
     if available_space <? required_space then
       raise (Exception ("Insufficient disk space for camera " ++ camera_id))
     else
       start_new_recording camera_id rtsp_url ;;
       threads <- rec recording_threads ;;
       when (negb (PyDict.contains camera_id threads)
             || negb (thread_is_alive E camera_id))%bool
         (in_os (start_thread "check_recording_duration" camera_id) ;;
          upd_rec (set_recording_threads (PyDict.set camera_id tt))) ;;
       ret true)
    (fun _ => raise (Exception ("Error starting recording for camera " ++ camera_id))).

(** First loop of [stop_all_recordings]: the cameras whose stop failed *)
Fixpoint stop_each (camera_ids : list string) : M World (list string) :=
  match camera_ids with
  | [] => ret []
  | camera_id :: rest =>
      ok <- try_except (stop_recording camera_id) (fun _ => ret false) ;;
      failed <- stop_each rest ;;
      ret (if ok : bool then failed else camera_id :: failed)
  end.

(** Second loop: a forced stop of the sessions that are still recorded *)
Definition force_stop (camera_id : string) : M World unit :=
  try_except
    (recording_info <- rec (fun r => PyDict.get camera_id (recording_processes r)) ;;
     match recording_info with
     | Some info =>
         in_os (terminate_process E (ri_process info) 15) ;;
         upd_rec (set_recording_processes (PyDict.del camera_id)) ;;
         upd_rec (set_recording_start_times (PyDict.del camera_id))
     | None => ret tt
     end)
    (fun _ => ret tt).

(** Last resort, per remaining session *)
Definition last_resort (camera_id : string) : M World unit :=
  try_except
    (recording_info <- rec (fun r => PyDict.get camera_id (recording_processes r)) ;;
     match recording_info with
     | Some info =>
         try_except
           (rc <- in_os (poll (ri_process info)) ;;
            match rc with
            | None =>
                in_os (send_signal SigTerminate (ri_process info)) ;;
                in_os (sleep E 1%Q) ;;
                rc' <- in_os (poll (ri_process info)) ;;
                match rc' with
                | None => in_os (send_signal SigKill (ri_process info))
                | Some _ => ret tt
                end
            | Some _ => ret tt
            end)
           (fun _ => ret tt) ;;
         upd_rec (set_recording_processes (PyDict.del camera_id)) ;;
         upd_rec (set_recording_start_times (PyDict.del camera_id))
     | None => ret tt
     end)
    (fun _ => ret tt).

Definition clear_recording_tables : M World unit :=
  upd_rec (set_recording_processes (fun _ => PyDict.empty)) ;;
  upd_rec (set_recording_start_times (fun _ => PyDict.empty)).

(** [stop_all_recordings()] *)
Definition stop_all_recordings : M World bool :=
  camera_ids <- rec (fun r => PyDict.keys (recording_processes r)) ;;
  match camera_ids with
  | [] => ret true   (* nothing to stop *)
  | _ :: _ =>
      failed_cameras <- stop_each camera_ids ;;
      let success := match failed_cameras with [] => true | _ => false end in
      for_each failed_cameras force_stop ;;
      in_os (sleep E 3%Q) ;;
      remaining_processes <- rec (fun r => PyDict.keys (recording_processes r)) ;;
      success <-
        match remaining_processes with
        | [] => ret success
        | _ :: _ =>
            try_except
              (for_each remaining_processes last_resort ;;
               in_os (kill_ffmpeg_processes E [] [("process_type", VStr "recording")]) ;;
               in_os (sleep E 1%Q) ;;
               clear_recording_tables ;;
               ret success)
              (fun _ => ret false)
        end ;;
      (* the check through tasklist *)
      try_except
        (r <- in_os (run E [tasklist_command]) ;;
         let '(returncode, tasklist_output, _) := r in
         (if returncode =? 0 then ret tt else raise CalledProcessError) ;;
         when (PyStr.contains "ffmpeg.exe" tasklist_output)
           (in_os (run E ["taskkill /F /IM ffmpeg.exe /T"]) ;;
            in_os (sleep E 1%Q)))
        (fun _ => ret tt) ;;
      (* the final check of the table *)
      rp <- rec recording_processes ;;
      when (negb (Nat.eqb (List.length rp) 0)) clear_recording_tables ;;
      ret success
  end.

End RecordingPy.

(** ** Vocabulary of the properties *)

(** The consecutive pairs of an argv: an option and the word after it *)
Fixpoint pairs (argv : list string) : list (string * string) :=
  match argv with
  | a :: (b :: _) as t => (a, b) :: pairs t
  | _ => []
  end.

(** The argv passes [value] right after [option] *)
Definition has_option (option value : string) (argv : list string) : Prop :=
  In (option, value) (pairs argv).

(** The probe of the recording command finds the camera's playlist *)
Definition hls_reachable (E : Env) (o : OS) (camera_id : PyVal) : bool :=
  (truthy camera_id
   && negb (String.eqb (py_str camera_id) "None")
   && negb (String.eqb (py_str camera_id) "unknown")
   && match http_head E (now o) (hls_url_of (py_str camera_id)) with
      | Some status_code => status_code =? 200
      | None => false
      end)%bool.

(** ** Concrete environments and worlds for the examples *)

Definition child_running : Process :=
  {| proc_returncode := None; proc_has_stdin := false; proc_on_q := false;
     proc_on_terminate := true; proc_on_kill := true; proc_exit_at := None;
     proc_broken := false |}.

(** A Windows host on which every command succeeds, every child starts
    and keeps running, the local HTTP server is down and the disk has
    100 GiB free. *)
Definition calm_env : Env :=
  {| os_name_nt := true;
     getcwd := "D:\laragon\www\system\cam";
     http_head := fun _ _ => None;
     run_cmd := fun _ _ f ps => {| ro_result := Exited 0 "" ""; ro_fs := f; ro_procs := ps |};
     popen_child := fun _ _ => Some child_running;
     elapse_files := fun _ _ f => f;
     cpu_percent := fun _ => 10%Q;
     memory_percent := fun _ => 10%Q;
     disk_free := fun _ _ => Some (100 * GiB);
     pid_exists := fun _ _ => false;
     psutil_raises := fun _ => false;
     makedirs_raises := fun _ => false;
     thread_is_alive := fun _ => false;
     strftime := fun _ => "20260101120000" |}.

Definition empty_os : OS :=
  {| now := 1000%Q; fs := PyDict.empty; procs := []; next_pid := 100%nat; trace := [] |}.

Definition empty_streaming : Streaming :=
  {| streaming_processes := PyDict.empty; hls_last_update := PyDict.empty;
     m3u8_last_size := PyDict.empty; streaming_queue := [];
     active_streams_count := 0; streaming_workers_running := true;
     system_resources := (0%Q, 0%Q); restart_counts := PyDict.empty |}.

Definition empty_recording : Recording :=
  {| recording_processes := PyDict.empty; recording_threads := PyDict.empty;
     recording_start_times := PyDict.empty |}.

Definition cam1 : Camera :=
  {| cam_id := "cam1"; cam_name := "Front"; cam_rtsp_url := "rtsp://x/1"; cam_enabled := Some 1 |}.
Definition cam2 : Camera :=
  {| cam_id := "cam2"; cam_name := "Back"; cam_rtsp_url := "rtsp://x/2"; cam_enabled := Some 1 |}.
Definition cam3 : Camera :=
  {| cam_id := "cam3"; cam_name := "Side"; cam_rtsp_url := "rtsp://x/3"; cam_enabled := Some 0 |}.

Definition world0 : World :=
  {| streaming := empty_streaming; recording := empty_recording;
     camera_config := [cam1; cam2; cam3]; os := empty_os |}.

(** The calm host with the local HTTP server answering 200 *)
Definition hls_up_env : Env :=
  {| os_name_nt := os_name_nt calm_env;
     getcwd := getcwd calm_env;
     http_head := fun _ _ => Some 200;
     run_cmd := run_cmd calm_env;
     popen_child := popen_child calm_env;
     elapse_files := elapse_files calm_env;
     cpu_percent := cpu_percent calm_env;
     memory_percent := memory_percent calm_env;
     disk_free := disk_free calm_env;
     pid_exists := pid_exists calm_env;
     psutil_raises := psutil_raises calm_env;
     makedirs_raises := makedirs_raises calm_env;
     thread_is_alive := thread_is_alive calm_env;
     strftime := strftime calm_env |}.

(** The entries of [d] whose key is not in [ks] *)
Definition without_keys {V} (ks : list string) (d : dict V) : dict V :=
  filter (fun kv => negb (mem_str (fst kv) ks)) d.

(** Tables in which a start time has no session: a state that no writer
    of the tables leaves behind *)
Definition stale_start_time_world : World :=
  {| streaming := empty_streaming;
     recording := {| recording_processes := PyDict.empty;
                     recording_threads := PyDict.empty;
                     recording_start_times := [("cam1", 990%Q)] |};
     camera_config := [cam1; cam2; cam3];
     os := empty_os |}.

(** Every recorded start time belongs to a recorded session.  The code
    writes the two tables together: [start_new_recording] sets both
    entries, [stop_recording] and the loops of [stop_all_recordings]
    delete both, and the two are cleared together. *)
Definition tables_paired (r : Recording) : Prop :=
  forall k, PyDict.contains k (recording_start_times r) = true ->
            PyDict.contains k (recording_processes r) = true.

(** The recording tables after the session of a camera is popped *)
Definition popped (camera_id : string) (r : Recording) : Recording :=
  set_recording_start_times (PyDict.del camera_id)
    (set_recording_processes (PyDict.del camera_id) r).

(** ** Vocabulary for reasoning about runs *)

Section RunVocabulary.
Context {S : Type}.

(** A computation that always returns, never raises *)
Definition total {A} (m : M S A) : Prop :=
  forall s, exists a s', m s = (Ok a, s').

(** Every run of [m] relates the state before to the state after by [R];
    with a preorder [R] this composes along the program text.  Frames
    ([f] is unchanged), invariants ([I] before gives [I] after) and the
    growth of the trace are instances. *)
Definition steps (R : S -> S -> Prop) {A} (m : M S A) : Prop :=
  forall s, R s (snd (m s)).

(** Every run of [m] ends in an exception, in a state related by [R] *)
Definition always_raises (R : S -> S -> Prop) {A} (m : M S A) : Prop :=
  forall s, exists e s', m s = (Raise e, s') /\ R s s'.

(** The value of [f] is unchanged *)
Definition frame {T} (f : S -> T) : S -> S -> Prop := fun s s' => f s' = f s.

(** The invariant [I] is kept *)
Definition keeps (I : S -> Prop) : S -> S -> Prop := fun s s' => I s -> I s'.

End RunVocabulary.

(** A run keeps the pairing of the recording tables *)
Definition keeps_paired : World -> World -> Prop :=
  keeps (fun w => tables_paired (recording w)).

(** The trace only grows, by events that satisfy [P] *)
Definition appends (P : Event -> Prop) : OS -> OS -> Prop :=
  fun o o' => exists tr, trace o' = (trace o ++ tr)%list /\ Forall P tr.

(** The events of the primitive operations other than starting a child
    and writing a log line *)
Definition basic_event (e : Event) : bool :=
  match e with
  | EvPopen _ | EvLog _ => false
  | _ => true
  end.

(** The trace of the operating system, seen from the supervisor *)
Definition appends_in_world (P : Event -> Prop) : World -> World -> Prop :=
  fun w w' => appends P (os w) (os w').

(** No child process is started: the event is not a [Popen] *)
Definition no_popen (e : Event) : Prop := forall argv, e <> EvPopen argv.

(** What a restart must not change for a disabled camera: the queue of
    cameras to start, and the configuration *)
Definition queue_and_config (w : World) : list Camera * list Camera :=
  (streaming_queue (streaming w), camera_config w).

(** Every run of [m] from a state with [I] ends in an outcome with [Q] *)
Definition establishes {S A} (I : S -> Prop) (Q : Res A * S -> Prop) (m : M S A) : Prop :=
  forall s, I s -> Q (m s).

(** The outcome of a refused request: False, or an exception on the way *)
Definition refused (v : list Camera * list Camera) (out : Res bool * World) : Prop :=
  (fst out = Ok false \/ exists e, fst out = Raise e) /\ queue_and_config (snd out) = v.

(** The streaming tables after the resources of a camera are cleaned up:
    its session and its entries in the auxiliary tables are gone, and the
    count of active streams went down when it had a session. *)
Definition cleaned (camera_id : string) (s : Streaming) : Streaming :=
  {| streaming_processes := PyDict.del camera_id (streaming_processes s);
     hls_last_update := PyDict.del camera_id (hls_last_update s);
     m3u8_last_size := PyDict.del camera_id (m3u8_last_size s);
     streaming_queue := streaming_queue s;
     active_streams_count :=
       if PyDict.contains camera_id (streaming_processes s)
       then dec_count (active_streams_count s) else active_streams_count s;
     streaming_workers_running := streaming_workers_running s;
     system_resources := system_resources s;
     restart_counts := PyDict.del camera_id (restart_counts s) |}.

(** The count a restart request gives the camera *)
Definition next_restart_count (camera_id : string) (s : Streaming) : Z :=
  match PyDict.get camera_id (restart_counts s) with
  | Some k => k + 1
  | None => 1
  end.

(** The cool-down of the specification, in seconds *)
Definition policy_cooldown (count : Z) : Z :=
  Z.min (RESTART_COOLDOWN * (count - MAX_RESTART_COUNT + 1)) 300.

Definition any_event : Event -> Prop := fun _ => True.

Definition with_restart_count (n : Z) (w : World) : World :=
  set_streaming (set_restart_counts (PyDict.set "cam1" n)) w.

(** The event is not the log line of a tear-down by the resource monitor *)
Definition not_shed (e : Event) : Prop :=
  forall camera_id, e <> EvLog (temporarily_stopping camera_id).

(** A trace with [n] tear-downs by the resource monitor, each followed by
    a pause of 5 s before the next one *)
Inductive paced : nat -> list Event -> Prop :=
| paced_done tr :
    Forall not_shed tr -> paced 0 tr
| paced_shed camera_id tr1 n tr2 :
    Forall not_shed tr1 ->
    In (EvSleep 5%Q) tr1 ->
    paced n tr2 ->
    paced (S n) (EvLog (temporarily_stopping camera_id) :: tr1 ++ tr2).

(** A host like the calm one with the CPU at 95 % and the memory at 50 % *)
Definition busy_cpu_env : Env :=
  {| os_name_nt := os_name_nt calm_env;
     getcwd := getcwd calm_env;
     http_head := http_head calm_env;
     run_cmd := run_cmd calm_env;
     popen_child := popen_child calm_env;
     elapse_files := elapse_files calm_env;
     cpu_percent := fun _ => 95%Q;
     memory_percent := fun _ => 50%Q;
     disk_free := disk_free calm_env;
     pid_exists := pid_exists calm_env;
     psutil_raises := psutil_raises calm_env;
     makedirs_raises := makedirs_raises calm_env;
     thread_is_alive := thread_is_alive calm_env;
     strftime := strftime calm_env |}.

(** Six cameras streaming *)
Definition six_streams_world : World :=
  {| streaming :=
       set_active_streams_count (fun _ => 6)
         (set_streaming_processes
            (fun _ => [("cam1", 1%nat); ("cam2", 2%nat); ("cam3", 3%nat);
                       ("cam4", 4%nat); ("cam5", 5%nat); ("cam6", 6%nat)])
            empty_streaming);
     recording := empty_recording;
     camera_config := [cam1; cam2; cam3];
     os := set_procs
             (fun _ => [(1%nat, child_running); (2%nat, child_running);
                        (3%nat, child_running); (4%nat, child_running);
                        (5%nat, child_running); (6%nat, child_running)])
             empty_os |}.

(** At time [t] the file [name] is a segment that no line of the playlist
    names and that is older than 180 s. *)
Definition stale_segment (active : list string) (t : Q) (name : string) (f : File) : bool :=
  (is_ts name && negb (mem_str name active) && Qgtb (t - f_mtime f) 180)%bool.

(** The tmp directory of cam1 at time 1000: a playlist that names segment
    2, an old segment 1 that it does not name, the old segment 2 and a
    young segment 3. *)
Definition playlist_cam1 : File :=
  new_file (String.concat (String PyStr.LF EmptyString)
              ["#EXTM3U"; "#EXTINF:2.0,"; "cam1-00002.ts"; ""]) 999%Q.

Definition segment_written_at (t : Q) : File :=
  {| f_size := 4096; f_mtime := t; f_content := ""; f_locked := false;
     f_unreadable := false |}.

Definition segments_os : OS :=
  set_fs (fun _ =>
            [(camera_tmp_dir_of default_config "cam1",
              {| d_files := [("cam1.m3u8", playlist_cam1);
                             ("cam1-00001.ts", segment_written_at 100%Q);
                             ("cam1-00002.ts", segment_written_at 100%Q);
                             ("cam1-00003.ts", segment_written_at 900%Q)];
                 d_writable := true |})])
         empty_os.

(** A segment written at time 100 that another process keeps open *)
Definition locked_segment : File :=
  {| f_size := 4096; f_mtime := 100%Q; f_content := ""; f_locked := true;
     f_unreadable := false |}.

(** The tmp directory of cam1 at time 1000 with two old segments that the
    playlist does not name, of which segment 1 is locked. *)
Definition locked_segments_os : OS :=
  set_fs (fun _ =>
            [(camera_tmp_dir_of default_config "cam1",
              {| d_files := [("cam1.m3u8", playlist_cam1);
                             ("cam1-00000.ts", segment_written_at 100%Q);
                             ("cam1-00001.ts", locked_segment);
                             ("cam1-00002.ts", segment_written_at 100%Q);
                             ("cam1-00003.ts", segment_written_at 900%Q)];
                 d_writable := true |})])
         empty_os.

Definition rec_path_cam1 : Path :=
  {| p_dir := "D:\laragon\www\system\cam\record\cam1"; p_name := "cam1_20260101120000.mp4" |}.

Definition recorded_file (size : Z) (locked : bool) : File :=
  {| f_size := size; f_mtime := 990%Q; f_content := ""; f_locked := locked;
     f_unreadable := false |}.

Definition cam1_session : RecInfo :=
  {| ri_process := 1%nat; ri_url := "rtsp://x/1"; ri_file_path := rec_path_cam1;
     ri_start_time := 990%Q; ri_hls := false |}.

(** Camera cam1 is recording with child 1 into a file [f]. *)
Definition recording_world (f : File) : World :=
  {| streaming := empty_streaming;
     recording := {| recording_processes :=
                       [("cam1", cam1_session)];
                     recording_threads := PyDict.empty;
                     recording_start_times := [("cam1", 990%Q)] |};
     camera_config := [cam1; cam2; cam3];
     os := set_procs (fun _ => [(1%nat, child_running)])
             (set_fs (fun _ => [(p_dir rec_path_cam1,
                                 {| d_files := [(p_name rec_path_cam1, f)];
                                    d_writable := true |})])
                empty_os) |}.

(** A host like the calm one on which the remux of a recording writes an
    output of 900000 bytes. *)
Definition small_remux_env : Env :=
  {| os_name_nt := os_name_nt calm_env;
     getcwd := getcwd calm_env;
     http_head := http_head calm_env;
     run_cmd := fun _ _ f ps =>
       {| ro_result := Exited 0 "" "";
          ro_fs := fs_update_dir (p_dir rec_path_cam1)
                     (PyDict.set (p_name (temp_path_of rec_path_cam1))
                        (recorded_file 900000 false)) f;
          ro_procs := ps |};
     popen_child := popen_child calm_env;
     elapse_files := elapse_files calm_env;
     cpu_percent := cpu_percent calm_env;
     memory_percent := memory_percent calm_env;
     disk_free := disk_free calm_env;
     pid_exists := pid_exists calm_env;
     psutil_raises := psutil_raises calm_env;
     makedirs_raises := makedirs_raises calm_env;
     thread_is_alive := thread_is_alive calm_env;
     strftime := strftime calm_env |}.

(** The size of the recording of cam1 after a run *)
Definition size_left {A} (r : Res A * World) : option Z :=
  option_map f_size (file_get rec_path_cam1 (fs (os (snd r)))).

(** A host like the calm one on which every query of the free space fails *)
Definition no_disk_usage_env : Env :=
  {| os_name_nt := os_name_nt calm_env;
     getcwd := getcwd calm_env;
     http_head := http_head calm_env;
     run_cmd := run_cmd calm_env;
     popen_child := popen_child calm_env;
     elapse_files := elapse_files calm_env;
     cpu_percent := cpu_percent calm_env;
     memory_percent := memory_percent calm_env;
     disk_free := fun _ _ => None;
     pid_exists := pid_exists calm_env;
     psutil_raises := psutil_raises calm_env;
     makedirs_raises := makedirs_raises calm_env;
     thread_is_alive := thread_is_alive calm_env;
     strftime := strftime calm_env |}.

(** A file system with one directory, which is read-only and holds a file *)
Definition read_only_os : OS :=
  set_fs (fun _ => [("D:\ro", {| d_files := [("a.mp4", new_file "x" 5%Q)];
                                 d_writable := false |})])
         empty_os.

(** [os.path.exists(s)] as a value *)
Definition path_is_there (s : string) (o : OS) : bool :=
  (PyDict.contains s (fs o) || is_some (file_get (split_path s) (fs o)))%bool.

(** What [get_free_space] answers for a path it queries: the free space of
    the drive (on Windows, when the path has a drive), else that of the
    path, else 1 GiB. *)
Definition free_space_answer (E : Env) (path1 : string) (o : OS) : Z :=
  let of_path := match disk_free E (now o) path1 with
                 | Some n => n
                 | None => 1024 * 1024 * 1024
                 end in
  let drive := PyStr.of_chars (fst (OsPath.splitdrive_chars (PyStr.chars (abspath E path1)))) in
  if (os_name_nt E && negb (String.eqb drive ""))%bool then
    match disk_free E (now o) drive with
    | Some n => n
    | None => of_path
    end
  else of_path.

(** The clean-up without force removes the file [f] at [p]: the playlist
    of the camera exists and can be read, and the file is a stale segment
    of the camera's directory that is not locked. *)
Definition removable (cfg : Config) (camera_id : string) (o : OS) (p : Path) (f : File)
  : bool :=
  match file_get (m3u8_path_of cfg camera_id) (fs o) with
  | Some pl =>
      (negb (f_unreadable pl)
       && String.eqb (p_dir p) (camera_tmp_dir_of cfg camera_id)
       && stale_segment (active_segments_of (f_content pl)) (now o) (p_name p) f
       && negb (f_locked f))%bool
  | None => false
  end.

(** The files of [o] without those that [gone] selects *)
Definition files_without (gone : Path -> File -> bool) (o : OS) (p : Path) : option File :=
  match file_get p (fs o) with
  | Some f => if gone p f then None else Some f
  | None => None
  end.

(** Two segments of cam1 and no playlist *)
Definition orphan_segments_os : OS :=
  set_fs (fun _ =>
            [(camera_tmp_dir_of default_config "cam1",
              {| d_files := [("cam1-00001.ts", segment_written_at 100%Q);
                             ("cam1-00002.ts", segment_written_at 900%Q)];
                 d_writable := true |})])
         empty_os.

(** [fs_utils.check_disk_space(path, min_free_space_gb=2)] (recording.py
    has a function of the same name, [check_disk_space] above) *)
Definition fs_check_disk_space (E : Env) (path : string) (min_free_space_gb : Q)
  : M OS bool :=
  try_except
    (free_space <- get_free_space E path ;;
     let free_space_gb := (inject_Z free_space / inject_Z (1024 * 1024 * 1024))%Q in
     if Qltb free_space_gb min_free_space_gb then ret false else ret true)
    (fun _ => ret false).

(** The loop [for camera_id in list(streaming_processes.keys()):
    cleanup_old_segments(camera_id)], which [cleanup_scheduler] has twice *)
Definition cleanup_round (cfg : Config) : M World unit :=
  sp <- st streaming_processes ;;
  for_each (PyDict.keys sp) (fun camera_id =>
    in_os (cleanup_old_segments cfg camera_id false)).

(** One pass of the [while True] loop of [cleanup_scheduler] *)
Definition cleanup_scheduler_pass (cfg : Config) (E : Env) : M World unit :=
  try_except
    (cleanup_round cfg ;;
     disk_ok <- in_os (fs_check_disk_space E (TMP_PATH cfg) 2) ;;
     when (negb disk_ok) (cleanup_round cfg) ;;
     in_os (sleep E (inject_Z (CLEANUP_INTERVAL cfg))))
    (fun _ => in_os (sleep E 60%Q)).

(** [scheduled_cleanup()] *)
Definition scheduled_cleanup (cfg : Config) : M World bool :=
  try_except
    (sp <- st streaming_processes ;;
     for_each (PyDict.keys sp) (fun camera_id =>
       try_except
         (let camera_tmp_dir := camera_tmp_dir_of cfg camera_id in
          ex <- in_os (os_path_exists camera_tmp_dir) ;;
          when ex (in_os (cleanup_old_segments cfg camera_id false)))
         (fun _ => ret tt)) ;;
     ret true)
    (fun _ => ret false).

(** No file of [o] is removable for the camera. *)
Definition settled (cfg : Config) (camera_id : string) (o : OS) : Prop :=
  forall p f, file_get p (fs o) = Some f -> removable cfg camera_id o p f = false.

(** The threads [start_streaming_workers] starts: one worker per
    concurrent stream allowed, then the three monitors *)
Definition started_threads (cfg : Config) : list Event :=
  (map (fun i => EvThread "streaming_worker" ("streaming-worker-" ++ PyStr.str_of_Z i))
       (range (MAX_CONCURRENT_STREAMS cfg))
   ++ [EvThread "monitor_system_resources" "resource-monitor";
       EvThread "cleanup_scheduler" "cleanup-scheduler";
       EvThread "global_health_monitor" "health-monitor"])%list.

(** One turn of the [while True] loop of [streaming_worker], run by one
    worker without interference of the others.  An empty queue makes
    [streaming_queue.get(timeout=1)] raise queue.Empty after 1 s, which
    the loop answers with a sleep of 0.5 s. *)
Definition streaming_worker_step (cfg : Config) (E : Env) : M World unit :=
  try_except
    (q <- st streaming_queue ;;
     match q with
     | [] => in_os (sleep E 1%Q) ;; in_os (sleep E 0.5%Q)
     | camera :: rest =>
         upd_st (set_streaming_queue (fun _ => rest)) ;;
         sp <- st streaming_processes ;;
         if PyDict.contains (cam_id camera) sp then ret tt
         else
           res <- st system_resources ;;
           let '(cpu_usage, mem_usage) := res in
           current_streams <- st active_streams_count ;;
           if current_streams >=? MAX_CONCURRENT_STREAMS cfg then
             queue_put camera ;;
             in_os (sleep E 5%Q)
           else if (Qgtb cpu_usage (inject_Z (MAX_CPU_PERCENT cfg))
                    || Qgtb mem_usage (inject_Z (MAX_MEM_PERCENT cfg)))%bool then
             queue_put camera ;;
             in_os (sleep E 10%Q)
           else
             in_os (sleep E 1%Q) ;;
             success <- start_streaming_process cfg E camera ;;
             when success (upd_st (set_active_streams_count (fun n => n + 1))) ;;
             when (negb success)
               (in_os (sleep E 10%Q) ;;
                queue_put camera)
     end)
    (fun _ => in_os (sleep E 1%Q)).

(** [terminate_streaming(camera_id)] *)
Definition terminate_streaming (E : Env) (camera_id : string) : M World bool :=
  try_except
    (sp <- st streaming_processes ;;
     match PyDict.get camera_id sp with
     | None => ret true
     | Some process =>
         in_os (terminate_process E process 10) ;;
         in_os (kill_ffmpeg_processes E [] [("camera_id", VStr camera_id)]) ;;
         upd_st (set_active_streams_count dec_count) ;;
         sp' <- st streaming_processes ;;
         (if PyDict.contains camera_id sp'
          then upd_st (set_streaming_processes (PyDict.del camera_id))
          else raise (Exception "KeyError")) ;;
         ret true
     end)
    (fun _ => ret false).

(** [[f(x) for x in l]] for a computation [f] *)
Fixpoint map_m {S A B} (f : A -> M S B) (l : list A) : M S (list B) :=
  match l with
  | [] => ret []
  | x :: t =>
      y <- f x ;;
      ys <- map_m f t ;;
      ret (y :: ys)
  end.

(** [max(l, key=...)] on the keyed elements: the first one of the largest
    key *)
Fixpoint max_by_key (best : string * Q) (l : list (string * Q)) : string * Q :=
  match l with
  | [] => best
  | x :: t => if Qgtb (snd x) (snd best) then max_by_key x t else max_by_key best t
  end.

(** [check_hls_file_health(camera_id)] *)
Definition check_hls_file_health (cfg : Config) (camera_id : string) : M OS bool :=
  try_except
    (let camera_tmp_dir := camera_tmp_dir_of cfg camera_id in
     let m3u8_path := m3u8_path_of cfg camera_id in
     ex <- path_exists m3u8_path ;;
     if negb ex then ret false
     else
       current_time <- time_time ;;
       mod_time <- getmtime m3u8_path ;;
       if Qgtb (current_time - mod_time) (inject_Z HLS_UPDATE_TIMEOUT) then ret false
       else
         size <- getsize m3u8_path ;;
         if size <? 100 then ret false
         else
           content <- read_text m3u8_path ;;
           if negb (PyStr.contains ".ts" content) then ret false
           else
             names <- listdir camera_tmp_dir ;;
             let ts_files := filter is_ts names in
             keyed <- map_m (fun f =>
                         t <- getmtime {| p_dir := camera_tmp_dir; p_name := f |} ;;
                         ret (f, t)) ts_files ;;
             match keyed with
             | [] => ret false
             | first :: others =>
                 let latest_ts := fst (max_by_key first others) in
                 latest_ts_mtime <- getmtime {| p_dir := camera_tmp_dir;
                                                p_name := latest_ts |} ;;
                 if Qgtb (current_time - latest_ts_mtime) (inject_Z HLS_UPDATE_TIMEOUT)
                 then ret false
                 else ret true
             end)
    (fun _ => ret false).

(** The file was written within HLS_UPDATE_TIMEOUT seconds before [t]. *)
Definition fresh (t : Q) (f : File) : bool :=
  negb (Qgtb (t - f_mtime f) (inject_Z HLS_UPDATE_TIMEOUT)).

(** The playlist of cam1 written 2 s ago, of 120 bytes, and a segment
    written 1 s ago *)
Definition healthy_os : OS :=
  set_fs (fun _ =>
            [(camera_tmp_dir_of default_config "cam1",
              {| d_files := [("cam1.m3u8",
                              {| f_size := 120; f_mtime := 998%Q;
                                 f_content := "cam1-00007.ts"; f_locked := false;
                                 f_unreadable := false |});
                             ("cam1-00007.ts", segment_written_at 999%Q)];
                 d_writable := true |})])
         empty_os.

(** [for x in l: acc = f(acc, x)] *)
Fixpoint fold_m {S A B} (f : B -> A -> M S B) (l : list A) (b : B) : M S B :=
  match l with
  | [] => ret b
  | x :: t => b' <- f b x ;; fold_m f t b'
  end.

(** The exceptions [except OSError] catches among those of the model *)
Definition is_OSError (e : Exn) : bool :=
  match e with
  | OSError _ | PermissionError | ProcessLookupError => true
  | _ => false
  end.

(** The entries of the list [files] of [cleanup_directory]; the path is
    the directory joined with the name *)
Record FileInfo : Type := { fi_name : string; fi_mtime : Q; fi_size : Z }.

(** [l.sort(key=...)] on the modification time: a stable sort *)
Fixpoint insert_by_mtime (x : FileInfo) (l : list FileInfo) : list FileInfo :=
  match l with
  | [] => [x]
  | y :: t => if Qltb (fi_mtime x) (fi_mtime y) then x :: y :: t
              else y :: insert_by_mtime x t
  end.

Definition sort_by_mtime (l : list FileInfo) : list FileInfo :=
  fold_left (fun acc x => insert_by_mtime x acc) l [].

(** Truth value of [max_age_seconds] and of [max_files] in [if x:] *)
Definition truthy_Q (x : option Q) : bool :=
  match x with Some q => negb (Qeq_bool q 0) | None => false end.
Definition truthy_Z (x : option Z) : bool :=
  match x with Some n => negb (n =? 0) | None => false end.

(** The first loop of [cleanup_directory]: the files of the directory
    that match the pattern; those under 1 KiB are removed on the way. *)
Definition scan_directory (directory file_pattern : string) (names : list string)
  : M OS (list FileInfo) :=
  fold_m (fun files filename =>
    if (negb (String.eqb file_pattern "")
        && negb (PyStr.endswith filename file_pattern))%bool then ret files
    else
      let file_path := {| p_dir := directory; p_name := filename |} in
      isfile <- path_exists file_path ;;
      if negb isfile then ret files
      else
        try_except_only is_OSError
          (file_stat <- stat (fun f => (f_mtime f, f_size f)) file_path ;;
           let '(file_mtime, file_size) := file_stat in
           removed <- (if file_size <? 1024 then
                         try_except_only is_OSError
                           (remove file_path ;; ret true)
                           (fun _ => ret false)
                       else ret false) ;;
           if removed : bool then ret files
           else ret (files ++ [{| fi_name := filename; fi_mtime := file_mtime;
                                  fi_size := file_size |}])%list)
          (fun _ => ret files)) names [].

(** The files older than [max_age_seconds] *)
Definition too_old (current_time : Q) (max_age_seconds : option Q) (files : list FileInfo)
  : list string :=
  if truthy_Q max_age_seconds then
    map fi_name
      (filter (fun fi => Qgtb (current_time - fi_mtime fi)
                              (match max_age_seconds with Some q => q | None => 0 end))
              files)
  else [].

(** [cleanup_directory(directory, file_pattern='', max_age_seconds=None,
    max_files=None)]; the result is None when the directory is missing *)
Definition cleanup_directory (directory file_pattern : string)
  (max_age_seconds : option Q) (max_files : option Z) : M OS (option Z) :=
  ex <- os_path_exists directory ;;
  if negb ex then ret None
  else
    try_except
      (current_time <- time_time ;;
       names <- listdir directory ;;
       files <- scan_directory directory file_pattern names ;;
       let files_to_delete := too_old current_time max_age_seconds files in
       let remaining_files :=
         filter (fun fi => negb (mem_str (fi_name fi) files_to_delete)) files in
       let len := Z.of_nat (List.length remaining_files) in
       let limit := match max_files with Some n => n | None => 0 end in
       excess <- (if (truthy_Z max_files && (len >? limit))%bool then
                    let sorted := sort_by_mtime remaining_files in
                    map_m (fun i => match nth_error sorted (Z.to_nat i) with
                                    | Some fi => ret (fi_name fi)
                                    | None => raise (Exception "IndexError")
                                    end)
                          (range (len - limit))
                  else ret []) ;;
       let files_to_delete := (files_to_delete ++ excess)%list in
       for_each files_to_delete (fun name =>
         try_except_only is_OSError
           (remove {| p_dir := directory; p_name := name |})
           (fun _ => ret tt)) ;;
       ret (Some (Z.of_nat (List.length files_to_delete))))
      (fun _ => ret (Some 0)).

(** A directory of logs at time 1000: one of 100 bytes, four of 2000
    bytes written at the times 100, 400, 300 and 900 *)
Definition log_file (size : Z) (t : Q) : File :=
  {| f_size := size; f_mtime := t; f_content := ""; f_locked := false;
     f_unreadable := false |}.

Definition logs_os : OS :=
  set_fs (fun _ =>
            [("D:\log", {| d_files := [("a.log", log_file 2000 100%Q);
                                       ("tiny.log", log_file 100 950%Q);
                                       ("b.log", log_file 2000 400%Q);
                                       ("notes.txt", log_file 10 1%Q);
                                       ("c.log", log_file 2000 300%Q);
                                       ("d.log", log_file 2000 900%Q)];
                           d_writable := true |})])
         empty_os.

(** The name passes the filter of [cleanup_directory] on the pattern. *)
Definition matches (file_pattern name : string) : bool :=
  (String.eqb file_pattern "" || PyStr.endswith name file_pattern)%bool.

(** * Properties *)

(** ** Path and string helpers on examples *)

Example basename_example :
  OsPath.basename "D:\cam\tmp\cam1\cam1.m3u8" = "cam1.m3u8".
Proof. reflexivity. Qed.

Example dirname_example :
  OsPath.dirname "D:\cam\tmp\cam1\cam1.m3u8" = "D:\cam\tmp\cam1".
Proof. reflexivity. Qed.

Example splitext_example :
  OsPath.splitext "cam1.m3u8" = ("cam1", ".m3u8").
Proof. reflexivity. Qed.

Example join_example :
  OsPath.join "D:\cam\tmp" "cam1" = "D:\cam\tmp\cam1".
Proof. reflexivity. Qed.

Example str_of_Z_example : PyStr.str_of_Z 60 = "60".
Proof. reflexivity. Qed.

Example active_segments_example :
  active_segments_of
    (String.concat (String PyStr.LF EmptyString)
       ["#EXTM3U"; "#EXTINF:1.0,"; "cam1-00007.ts"; "#EXTINF:1.0,"; " cam1-00008.ts "])
  = ["cam1-00007.ts"; "cam1-00008.ts"].
Proof. reflexivity. Qed.

(** A playlist written with CR LF, with a lone CR and with a separator
    character after a name *)
Example active_segments_other_line_ends :
  active_segments_of
    ("#EXTM3U" ++ String PyStr.CR (String PyStr.LF "a.ts")
     ++ String PyStr.CR ("b.ts" ++ String (ascii_of_nat 28) (String PyStr.LF "c.ts")))
  = ["a.ts"; "b.ts"; "c.ts"].
Proof. reflexivity. Qed.

Example lines_example :
  PyStr.lines ("a" ++ String PyStr.CR (String PyStr.LF ("b" ++ String PyStr.CR
                 ("c" ++ String (ascii_of_nat 28) ("d" ++ String PyStr.LF
                    (String PyStr.CR (String PyStr.LF "f")))))))
  = ["a"; "b"; "c" ++ String (ascii_of_nat 28) "d"; ""; "f"].
Proof. reflexivity. Qed.

Example splitlines_example :
  PyStr.splitlines ("a" ++ String PyStr.CR (String PyStr.LF ("b" ++ String (ascii_of_nat 12)
                     ("c" ++ String PyStr.LF EmptyString))))
  = ["a"; "b"; "c"].
Proof. reflexivity. Qed.

Example launch_command_cam1 :
  hls_launch_command default_config cam1 =
  get_hls_streaming_command default_config "rtsp://x/1"
    "D:\laragon\www\system\cam\tmp\cam1\cam1.m3u8" 2 "32768k".
Proof. reflexivity. Qed.

(** ** The encoder command lines *)

Ltac find_option :=
  unfold has_option, hls_launch_command, get_hls_streaming_command,
    record_command_hls, record_command_rtsp;
  cbn [pairs In];
  repeat first [ left; reflexivity | right ].

Ltac no_option :=
  unfold has_option, hls_launch_command, get_hls_streaming_command,
    record_command_hls, record_command_rtsp;
  cbn [pairs In];
  let H := fresh "H" in
  intros H;
  repeat (destruct H as [H|H]; [ solve [discriminate H | congruence] | ]);
  exact H.

(** With its default segment time the encoder driver does write
    '-hls_time 1'; the launch overrides it. *)
Lemma hls_time_is_the_segment_time cfg input_url output_path segment_time buffer_size :
  has_option "-hls_time" (PyStr.str_of_Z segment_time)
    (get_hls_streaming_command cfg input_url output_path segment_time buffer_size).
Proof. find_option. Qed.



Example launch_segment_filename_cam1 :
  has_option "-hls_segment_filename" "D:\laragon\www\system\cam\tmp\cam1\cam1-%05d.ts"
    (hls_launch_command default_config cam1).
Proof. find_option. Qed.

(** C7, counterexample: with the playlist of cam1 reachable, the recording
    argv reads the HLS URL and encodes with h264_nvenc; it has no
    '-c:v copy'. *)
Lemma record_command_on_hls_is_not_copy :
  exists argv,
    get_ffmpeg_record_command hls_up_env "rtsp://x/1" "out.mp4" (VStr "cam1") empty_os
      = (Ok argv, empty_os) /\
    has_option "-i" "http://localhost:5000/system/cam/tmp/cam1/cam1.m3u8" argv /\
    has_option "-c:v" "h264_nvenc" argv /\
    ~ has_option "-c:v" "copy" argv.
Proof.
  eexists. split; [reflexivity|].
  split; [find_option|]. split; [find_option|]. no_option.
Qed.

(** C7, amended: for every (url, output path, camera id) the recording
    command probes the camera's local playlist (no probe for a missing
    id, 'None' or 'unknown') and returns an argv whose input is the HLS
    URL when the probe answers 200 and the RTSP URL otherwise; in both
    cases the video is decoded and encoded in hardware (h264_cuvid,
    h264_nvenc), never stream-copied, and the argv has the MP4 flags
    '+faststart+frag_keyframe'. *)
Theorem record_command_source_and_flags E rtsp_url output_path camera_id o :
  exists argv,
    get_ffmpeg_record_command E rtsp_url output_path camera_id o = (Ok argv, o) /\
    has_option "-i" (if hls_reachable E o camera_id
                     then hls_url_of (py_str camera_id) else rtsp_url) argv /\
    has_option "-hwaccel" "cuda" argv /\
    has_option "-c:v" "h264_cuvid" argv /\
    has_option "-c:v" "h264_nvenc" argv /\
    ~ has_option "-c:v" "copy" argv /\
    has_option "-movflags" "+faststart+frag_keyframe" argv.
Proof.
  unfold get_ffmpeg_record_command, probe_hls, hls_reachable, bind, try_except,
    requests_head, ret.
  destruct (truthy camera_id && negb (py_str camera_id =? "None")%string
            && negb (py_str camera_id =? "unknown")%string)%bool; cbn [andb].
  - destruct (http_head E (now o) (hls_url_of (py_str camera_id))) as [status|].
    + destruct (status =? 200); eexists; (split; [reflexivity|]);
        repeat split; try solve [find_option]; no_option.
    + eexists; (split; [reflexivity|]);
        repeat split; try solve [find_option]; no_option.
  - eexists; (split; [reflexivity|]);
      repeat split; try solve [find_option]; no_option.
Qed.

(** ** Reasoning about the state-and-exception monad *)

Section MonadFacts.
Context {S : Type}.

Lemma total_ret {A} (a : A) : total (ret a : M S A).
Proof. intros s. eexists _, _. reflexivity. Qed.

Lemma total_gets {A} (f : S -> A) : total (gets f).
Proof. intros s. eexists _, _. reflexivity. Qed.

Lemma total_modify (f : S -> S) : total (modify f).
Proof. intros s. eexists _, _. reflexivity. Qed.

Lemma total_bind {A B} (m : M S A) (k : A -> M S B) :
  total m -> (forall a, total (k a)) -> total (bind m k).
Proof.
  intros Hm Hk s. unfold bind.
  destruct (Hm s) as (a & s' & ->). apply Hk.
Qed.

Lemma total_try_except {A} (m : M S A) (h : Exn -> M S A) :
  (forall e, total (h e)) -> total (try_except m h).
Proof.
  intros Hh s. unfold try_except.
  destruct (m s) as [[a|e] s'].
  - eexists _, _. reflexivity.
  - apply Hh.
Qed.

Lemma total_when (b : bool) (m : M S unit) : total m -> total (when b m).
Proof. destruct b; [trivial | intros _; apply total_ret]. Qed.

Lemma total_for_loop {A R} (xs : list A) (body : A -> M S (option R)) :
  (forall x, total (body x)) -> total (for_loop xs body).
Proof.
  intros Hb. induction xs as [|x xs IH]; cbn [for_loop].
  - apply total_ret.
  - apply total_bind; [apply Hb|]. intros [r|]; [apply total_ret | exact IH].
Qed.

Lemma total_for_each {A} (xs : list A) (body : A -> M S unit) :
  (forall x, total (body x)) -> total (for_each xs body).
Proof.
  intros Hb. unfold for_each. apply total_bind.
  - apply total_for_loop. intros x. apply total_bind; [apply Hb|].
    intros _. apply total_ret.
  - intros _. apply total_ret.
Qed.

Context (R : S -> S -> Prop) {HR : PreOrder R}.

Lemma steps_ret {A} (a : A) : steps R (ret a).
Proof. intros s. reflexivity. Qed.

Lemma steps_raise {A} (e : Exn) : steps R (raise (A := A) e).
Proof. intros s. reflexivity. Qed.

Lemma steps_gets {A} (f : S -> A) : steps R (gets f).
Proof. intros s. reflexivity. Qed.

Lemma steps_modify (f : S -> S) : (forall s, R s (f s)) -> steps R (modify f).
Proof. intros H s. apply H. Qed.

Lemma steps_bind {A B} (m : M S A) (k : A -> M S B) :
  steps R m -> (forall a, steps R (k a)) -> steps R (bind m k).
Proof.
  intros Hm Hk s. unfold bind. specialize (Hm s).
  destruct (m s) as [[a|e] s']; cbn [snd] in *.
  - etransitivity; [exact Hm | apply Hk].
  - exact Hm.
Qed.

Lemma steps_try_except {A} (m : M S A) (h : Exn -> M S A) :
  steps R m -> (forall e, steps R (h e)) -> steps R (try_except m h).
Proof.
  intros Hm Hh s. unfold try_except. specialize (Hm s).
  destruct (m s) as [[a|e] s']; cbn [snd] in *.
  - exact Hm.
  - etransitivity; [exact Hm | apply Hh].
Qed.

Lemma steps_try_except_only {A} sel (m : M S A) (h : Exn -> M S A) :
  steps R m -> (forall e, steps R (h e)) -> steps R (try_except_only sel m h).
Proof.
  intros Hm Hh. unfold try_except_only. apply steps_try_except; [exact Hm|].
  intros e. destruct (sel e); [apply Hh | apply steps_raise].
Qed.

Lemma steps_when (b : bool) (m : M S unit) : steps R m -> steps R (when b m).
Proof. destruct b; [trivial | intros _; apply steps_ret]. Qed.

Lemma steps_for_loop {A B} (xs : list A) (body : A -> M S (option B)) :
  (forall x, steps R (body x)) -> steps R (for_loop xs body).
Proof.
  intros Hb. induction xs as [|x xs IH]; cbn [for_loop].
  - apply steps_ret.
  - apply steps_bind; [apply Hb|]. intros [r|]; [apply steps_ret | exact IH].
Qed.

Lemma steps_for_each {A} (xs : list A) (body : A -> M S unit) :
  (forall x, steps R (body x)) -> steps R (for_each xs body).
Proof.
  intros Hb. unfold for_each. apply steps_bind.
  - apply steps_for_loop. intros x. apply steps_bind; [apply Hb|].
    intros _. apply steps_ret.
  - intros _. apply steps_ret.
Qed.

End MonadFacts.

(** A computation lifted from a component steps by [R] when its own steps
    carry over. *)
Lemma steps_lift_state {S T A} (R : S -> S -> Prop) (R' : T -> T -> Prop)
  (proj : S -> T) (inj : T -> S -> S) (m : M T A) :
  steps R' m ->
  (forall s t', R' (proj s) t' -> R s (inj t' s)) ->
  steps R (lift_state proj inj m).
Proof.
  intros Hm Hl s. unfold lift_state. specialize (Hm (proj s)).
  destruct (m (proj s)) as [r t']. cbn [snd] in *. apply Hl, Hm.
Qed.

(** An operating-system computation cannot touch what does not depend on
    the operating-system state. *)
Lemma steps_in_os_frame {A} (R : World -> World -> Prop) (m : M OS A) :
  (forall w o, R w (set_os o w)) -> steps R (in_os m).
Proof.
  intros H w. unfold in_os, lift_state. destruct (m (os w)) as [r o]. apply H.
Qed.

Lemma total_lift_state {S T A} (proj : S -> T) (inj : T -> S -> S) (m : M T A) :
  total m -> total (lift_state proj inj m).
Proof.
  intros Hm s. unfold lift_state. destruct (Hm (proj s)) as (a & t' & ->).
  eexists _, _. reflexivity.
Qed.

#[export] Instance frame_preorder {S T} (f : S -> T) : PreOrder (frame f).
Proof.
  split.
  - intros s. reflexivity.
  - intros a b c Hab Hbc. unfold frame in *. congruence.
Qed.

#[export] Instance keeps_preorder {S} (I : S -> Prop) : PreOrder (keeps I).
Proof.
  split.
  - intros s H. exact H.
  - intros a b c Hab Hbc H. apply Hbc, Hab, H.
Qed.

#[export] Instance appends_preorder (P : Event -> Prop) : PreOrder (appends P).
Proof.
  split.
  - intros o. exists []. split; [symmetry; apply app_nil_r | constructor].
  - intros a b c (t1 & H1 & F1) (t2 & H2 & F2).
    exists (t1 ++ t2)%list. split.
    + rewrite H2, H1, app_assoc. reflexivity.
    + apply Forall_app. split; assumption.
Qed.

Ltac pre_order := match goal with |- PreOrder _ => typeclasses eauto end.

Tactic Notation "sapply" uconstr(l) := (apply l; try pre_order).

(** One syntax-directed step of a proof of [steps R m] *)
Ltac steps_step :=
  match goal with
  | |- steps _ (ret _) => sapply @steps_ret
  | |- steps _ (raise _) => sapply @steps_raise
  | |- steps _ (gets _) => sapply @steps_gets
  | |- steps _ (bind _ _) => sapply @steps_bind; [ | intros ]
  | |- steps _ (try_except_only _ _ _) => sapply @steps_try_except_only; [ | intros ]
  | |- steps _ (try_except _ _) => sapply @steps_try_except; [ | intros ]
  | |- steps _ (when _ _) => sapply @steps_when
  | |- steps _ (for_each _ _) => sapply @steps_for_each; intros
  | |- steps _ (for_loop _ _) => sapply @steps_for_loop; intros
  | |- steps _ (match ?x with _ => _ end) => destruct x
  | |- steps _ (if ?b then _ else _) => destruct b
  end.

(** ** Stop-all of the streaming supervisor *)

Lemma in_os_keeps_streaming {A} (m : M OS A) :
  steps (frame streaming) (in_os m).
Proof. apply steps_in_os_frame. intros w o. reflexivity. Qed.

Lemma stop_all_streaming_clears E w :
  exists w',
    stop_all_streaming E w = (Ok true, w') /\
    streaming_processes (streaming w') = [] /\
    hls_last_update (streaming w') = [] /\
    m3u8_last_size (streaming w') = [] /\
    restart_counts (streaming w') = [] /\
    active_streams_count (streaming w') = 0.
Proof.
  unfold stop_all_streaming.
  unfold bind at 1. unfold st at 1, gets at 1.
  unfold bind at 1.
  destruct (total_for_each (streaming_processes (streaming w))
              (fun item => try_except (in_os (terminate_process E (snd item) 10))
                                      (fun _ => ret tt))
              (fun x => total_try_except _ _ (fun _ => total_ret tt)) w)
    as (u & w1 & ->).
  unfold upd_st.
  do 4 (unfold bind at 1; unfold modify at 1).
  unfold bind at 1.
  match goal with |- context [try_except ?m ?h ?x] => set (w2 := x) end.
  assert (Hk : total (try_except (bind (in_os (kill_ffmpeg_processes E [] []))
                                       (fun _ => ret tt)) (fun _ => ret (S := World) tt)))
    by (apply total_try_except; intros; apply total_ret).
  assert (Hf : steps (frame streaming)
                 (try_except (bind (in_os (kill_ffmpeg_processes E [] []))
                                   (fun _ => ret tt)) (fun _ => ret (S := World) tt))).
  { repeat steps_step. apply in_os_keeps_streaming. }
  specialize (Hf w2). unfold frame in Hf.
  destruct (Hk w2) as (u' & w3 & Hw3).
  rewrite Hw3 in Hf |- *. cbn [snd] in Hf.
  eexists. split; [reflexivity|].
  cbn. rewrite Hf. subst w2. cbn. repeat split; reflexivity.
Qed.

(** ** Facts about dicts *)

Section DictFacts.
Context {V : Type}.
Implicit Types (d : dict V) (k : string).

Lemma del_as_filter k d :
  PyDict.del k d = filter (fun kv => negb (String.eqb (fst kv) k)) d.
Proof.
  induction d as [|[k' v] d IH]; cbn; [reflexivity|].
  destruct (String.eqb k' k); cbn; [exact IH | f_equal; exact IH].
Qed.

Lemma get_del_same k d : PyDict.get k (PyDict.del k d) = None.
Proof.
  induction d as [|[k' v] d IH]; cbn; [reflexivity|].
  destruct (String.eqb k' k) eqn:Hk; cbn; [exact IH | rewrite Hk; exact IH].
Qed.

Lemma get_del_other k k' d :
  k <> k' -> PyDict.get k' (PyDict.del k d) = PyDict.get k' d.
Proof.
  intros Hne. induction d as [|[k0 v] d IH]; cbn; [reflexivity|].
  destruct (String.eqb k0 k) eqn:Hk; cbn.
  - apply String.eqb_eq in Hk. subst k0.
    destruct (String.eqb k k') eqn:Hk'; [apply String.eqb_eq in Hk'; contradiction | exact IH].
  - destruct (String.eqb k0 k'); [reflexivity | exact IH].
Qed.

Lemma get_set_same k (v : V) d : PyDict.get k (PyDict.set k v d) = Some v.
Proof.
  induction d as [|[k0 v0] d IH]; cbn.
  - rewrite String.eqb_refl. reflexivity.
  - destruct (String.eqb k0 k) eqn:Hk; cbn.
    + rewrite String.eqb_refl. reflexivity.
    + rewrite Hk. exact IH.
Qed.

Lemma get_set_other k k' (v : V) d :
  k <> k' -> PyDict.get k' (PyDict.set k v d) = PyDict.get k' d.
Proof.
  intros Hne. induction d as [|[k0 v0] d IH]; cbn.
  - destruct (String.eqb k k') eqn:Hk'; [apply String.eqb_eq in Hk'; contradiction | reflexivity].
  - destruct (String.eqb k0 k) eqn:Hk; cbn.
    + apply String.eqb_eq in Hk. subst k0.
      destruct (String.eqb k k') eqn:Hk'; [apply String.eqb_eq in Hk'; contradiction | reflexivity].
    + destruct (String.eqb k0 k'); [reflexivity | exact IH].
Qed.

Lemma del_idempotent k d : PyDict.del k (PyDict.del k d) = PyDict.del k d.
Proof.
  induction d as [|[k' v] d IH]; cbn; [reflexivity|].
  destruct (String.eqb k' k) eqn:Hk; cbn; [exact IH | rewrite Hk; f_equal; exact IH].
Qed.

Lemma contains_as_mem k d : PyDict.contains k d = mem_str k (PyDict.keys d).
Proof.
  unfold PyDict.contains, mem_str, PyDict.keys.
  induction d as [|[k' v] d IH]; cbn; [reflexivity|].
  rewrite (String.eqb_sym k k').
  destruct (String.eqb k' k); cbn; [reflexivity | exact IH].
Qed.

Lemma filter_twice {A} (f g : A -> bool) (l : list A) :
  filter f (filter g l) = filter (fun x => (g x && f x)%bool) l.
Proof.
  induction l as [|x l IH]; cbn; [reflexivity|].
  destruct (g x); cbn; [destruct (f x); [f_equal|]; exact IH | exact IH].
Qed.

(** Deleting the keys [ks] one after the other *)
Lemma del_all_as_without ks d :
  fold_left (fun d k => PyDict.del k d) ks d = without_keys ks d.
Proof.
  revert d. induction ks as [|k ks IH]; intros d; cbn [fold_left].
  - unfold without_keys. cbn. induction d as [|kv d IHd]; cbn; [reflexivity|].
    f_equal. exact IHd.
  - rewrite IH, del_as_filter. unfold without_keys. rewrite filter_twice.
    apply filter_ext. intros [k' v]. unfold mem_str. cbn.
    rewrite (String.eqb_sym k' k). apply eq_sym, negb_orb.
Qed.

Lemma without_own_keys d : without_keys (PyDict.keys d) d = [].
Proof.
  unfold without_keys.
  assert (H : forall ks, (forall kv, In kv d -> mem_str (fst kv) ks = true) ->
                         filter (fun kv => negb (mem_str (fst kv) ks)) d = []).
  { intros ks. induction d as [|kv d IH]; intros Hks; cbn; [reflexivity|].
    rewrite (Hks kv (or_introl eq_refl)). cbn. apply IH.
    intros kv' Hin. apply Hks. right. exact Hin. }
  apply H. intros kv Hin. unfold mem_str. apply existsb_exists.
  exists (fst kv). split; [|apply String.eqb_refl].
  unfold PyDict.keys. apply in_map. exact Hin.
Qed.

End DictFacts.

Section RunLaws.
Context {S : Type}.

Lemma bind_gets_run {A B} (f : S -> A) (k : A -> M S B) s :
  bind (gets f) k s = k (f s) s.
Proof. reflexivity. Qed.

Lemma bind_modify_run {B} (f : S -> S) (k : unit -> M S B) s :
  bind (modify f) k s = k tt (f s).
Proof. reflexivity. Qed.

Lemma bind_ret_run {A B} (a : A) (k : A -> M S B) s :
  bind (ret a) k s = k a s.
Proof. reflexivity. Qed.

Lemma bind_run {A B} (m : M S A) (k : A -> M S B) s a s' :
  m s = (Ok a, s') -> bind m k s = k a s'.
Proof. intros H. unfold bind. rewrite H. reflexivity. Qed.

Lemma bind_run_raise {A B} (m : M S A) (k : A -> M S B) s e s' :
  m s = (Raise e, s') -> bind m k s = (Raise e, s').
Proof. intros H. unfold bind. rewrite H. reflexivity. Qed.

End RunLaws.

(** ** Stop and stop-all of the recording supervisor *)



Lemma in_os_frame_any {A T} (f : World -> T) (m : M OS A) :
  (forall w o, f (set_os o w) = f w) -> steps (frame f) (in_os m).
Proof. intros H. apply steps_in_os_frame. intros w o. apply H. Qed.

Lemma stop_recording_total E camera_id : total (stop_recording E camera_id).
Proof.
  unfold stop_recording.
  apply total_bind; [apply total_gets|]. intros info.
  apply total_bind; [apply total_modify|]. intros _.
  apply total_bind; [apply total_modify|]. intros _.
  destruct info as [info|]; [|apply total_ret].
  apply total_try_except. intros; apply total_ret.
Qed.

Lemma stop_recording_pops E camera_id :
  steps (fun w w' => recording w' = popped camera_id (recording w)
                     /\ streaming w' = streaming w
                     /\ camera_config w' = camera_config w)
        (stop_recording E camera_id).
Proof.
  intros w. unfold stop_recording, rec, upd_rec.
  rewrite bind_gets_run, !bind_modify_run.
  set (w0 := set_recording _ (set_recording _ w)).
  assert (H0 : recording w0 = popped camera_id (recording w)
               /\ streaming w0 = streaming w
               /\ camera_config w0 = camera_config w) by (repeat split; reflexivity).
  destruct (PyDict.get camera_id (recording_processes (recording w))) as [info|];
    [|exact H0].
  match goal with |- context [try_except ?m ?h w0] =>
    assert (Hs : steps (keeps (fun x => recording x = popped camera_id (recording w)
                                        /\ streaming x = streaming w
                                        /\ camera_config x = camera_config w))
                   (try_except m h))
  end.
  { repeat steps_step;
      try (apply steps_in_os_frame; intros x o Hx; exact Hx);
      sapply @steps_modify; intros x (Hx & Hy & Hz);
      (split; [|split; assumption]); cbn; rewrite Hx;
      unfold popped, set_recording_processes, set_recording_start_times; cbn;
      rewrite ?del_idempotent; reflexivity. }
  exact (Hs w0 H0).
Qed.

Lemma force_stop_nothing E camera_id w :
  recording_processes (recording w) = [] -> force_stop E camera_id w = (Ok tt, w).
Proof.
  intros H. unfold force_stop, try_except, bind, rec, gets. rewrite H. reflexivity.
Qed.

Lemma for_each_force_stop_nothing E ids w :
  recording_processes (recording w) = [] ->
  for_each ids (force_stop E) w = (Ok tt, w).
Proof.
  intros H. unfold for_each.
  assert (Hl : for_loop (R := unit) ids
                 (fun x => bind (force_stop E x) (fun _ => ret None)) w = (Ok None, w)).
  { induction ids as [|id ids IH]; cbn [for_loop]; [reflexivity|].
    unfold bind at 1. unfold bind at 1. rewrite (force_stop_nothing E id w H).
    cbn [ret]. exact IH. }
  rewrite (bind_run _ _ _ _ _ Hl). reflexivity.
Qed.

Lemma stop_each_run E ids w :
  exists failed w',
    stop_each E ids w = (Ok failed, w') /\
    recording_processes (recording w')
      = fold_left (fun d k => PyDict.del k d) ids (recording_processes (recording w)) /\
    recording_start_times (recording w')
      = fold_left (fun d k => PyDict.del k d) ids (recording_start_times (recording w)).
Proof.
  revert w. induction ids as [|id ids IH]; intros w; cbn [stop_each fold_left].
  - eexists _, _. split; [reflexivity|]. split; reflexivity.
  - pose proof (stop_recording_pops E id w) as (Hp & _).
    destruct (stop_recording_total E id w) as (b & w1 & Hb).
    rewrite Hb in Hp. cbn [snd] in Hp.
    assert (Ht : try_except (stop_recording E id) (fun _ => ret false) w = (Ok b, w1))
      by (unfold try_except; rewrite Hb; reflexivity).
    rewrite (bind_run _ _ _ _ _ Ht).
    destruct (IH w1) as (failed & w2 & Hf & Hrp & Hst).
    rewrite (bind_run _ _ _ _ _ Hf).
    eexists _, _. split; [reflexivity|].
    rewrite Hrp, Hst, Hp. split; reflexivity.
Qed.

Lemma in_os_sleep_run E d w :
  in_os (sleep E d) w
  = (Ok tt, set_os (log_event (EvSleep d)
                      (set_fs (elapse_files E (now (os w)) d)
                         (set_now (fun t => (t + d)%Q) (os w)))) w).
Proof. reflexivity. Qed.

Ltac frame_leaves :=
  try (apply steps_in_os_frame; intros; reflexivity);
  try (sapply @steps_modify; intros; reflexivity).

Lemma stop_all_recordings_run E w :
  exists b w',
    stop_all_recordings E w = (Ok b, w') /\
    recording_processes (recording w') = [] /\
    recording_start_times (recording w')
      = without_keys (PyDict.keys (recording_processes (recording w)))
          (recording_start_times (recording w)).
Proof.
  unfold stop_all_recordings, rec. rewrite bind_gets_run.
  destruct (PyDict.keys (recording_processes (recording w))) as [|id ids] eqn:Hkeys.
  - eexists _, _. split; [reflexivity|]. split.
    + destruct (recording_processes (recording w)); [reflexivity | discriminate].
    + unfold without_keys. cbn. symmetry.
      induction (recording_start_times (recording w)) as [|kv d IHd]; cbn; [reflexivity|].
      f_equal. exact IHd.
  - destruct (stop_each_run E (id :: ids) w) as (failed & w1 & Hs & Hrp & Hst).
    rewrite (bind_run _ _ _ _ _ Hs).
    rewrite <- Hkeys in Hrp, Hst.
    rewrite del_all_as_without in Hrp. rewrite del_all_as_without in Hst.
    rewrite without_own_keys in Hrp.
    rewrite (bind_run _ _ _ _ _ (for_each_force_stop_nothing E failed w1 Hrp)).
    rewrite (bind_run _ _ _ _ _ (in_os_sleep_run E 3 w1)).
    rewrite bind_gets_run. cbn [recording set_os]. rewrite Hrp.
    cbn [PyDict.keys map]. rewrite bind_ret_run.
    match goal with |- context [bind (try_except ?m ?h) ?k ?x] =>
      destruct (total_try_except m h (fun _ => total_ret tt) x) as (u & w3 & Ht);
      assert (Hfr : steps (frame recording) (try_except m h))
        by (repeat steps_step; frame_leaves);
      specialize (Hfr x); rewrite Ht in Hfr; cbn [snd] in Hfr;
      rewrite (bind_run _ _ _ _ _ Ht)
    end.
    unfold frame in Hfr. cbn [recording set_os] in Hfr.
    rewrite bind_gets_run, Hfr, Hrp. cbn [List.length Nat.eqb negb when].
    rewrite bind_ret_run.
    eexists _, _. split; [reflexivity|].
    rewrite Hfr. split; [exact Hrp | rewrite Hst, Hkeys; reflexivity].
Qed.

(** When every recorded start time belongs to a recorded session nothing
    is left. *)
Lemma without_keys_covered {V W} (rp : dict W) (st : dict V) :
  (forall k, PyDict.contains k st = true -> PyDict.contains k rp = true) ->
  without_keys (PyDict.keys rp) st = [].
Proof.
  intros H. unfold without_keys.
  assert (G : forall d : dict V, (forall kv, In kv d -> PyDict.contains (fst kv) st = true) ->
                        filter (fun kv => negb (mem_str (fst kv) (PyDict.keys rp))) d = []).
  { induction d as [|kv d IH]; intros Hd; cbn; [reflexivity|].
    rewrite <- contains_as_mem, (H _ (Hd kv (or_introl eq_refl))). cbn.
    apply IH. intros kv' Hin. apply Hd. right. exact Hin. }
  apply G. intros kv Hin. rewrite contains_as_mem. unfold mem_str.
  apply existsb_exists. exists (fst kv). split; [|apply String.eqb_refl].
  unfold PyDict.keys. apply in_map. exact Hin.
Qed.

(** *** The two recording tables are written together

    [tables_paired] holds when the program starts and every operation on
    the recording tables keeps it. *)

Lemma tables_paired_initially : tables_paired empty_recording.
Proof. intros k H. discriminate H. Qed.

(** A check of the pairing by evaluation *)
Lemma tables_paired_by_keys r :
  forallb (fun k => PyDict.contains k (recording_processes r))
          (PyDict.keys (recording_start_times r)) = true ->
  tables_paired r.
Proof.
  intros H k Hk. rewrite contains_as_mem in Hk. unfold mem_str in Hk.
  apply existsb_exists in Hk as (x & Hin & Hx). apply String.eqb_eq in Hx. subst x.
  rewrite forallb_forall in H. apply H, Hin.
Qed.

Lemma contains_del {V} k k' (d : dict V) :
  PyDict.contains k' (PyDict.del k d)
  = (negb (String.eqb k k') && PyDict.contains k' d)%bool.
Proof.
  unfold PyDict.contains. destruct (String.eqb_spec k k') as [-> | Hne]; cbn [negb andb].
  - rewrite get_del_same. reflexivity.
  - rewrite get_del_other by exact Hne. reflexivity.
Qed.

Lemma contains_set {V} k k' (v : V) (d : dict V) :
  PyDict.contains k' (PyDict.set k v d) = (String.eqb k k' || PyDict.contains k' d)%bool.
Proof.
  unfold PyDict.contains. destruct (String.eqb_spec k k') as [-> | Hne]; cbn [orb].
  - rewrite get_set_same. reflexivity.
  - rewrite get_set_other by exact Hne. reflexivity.
Qed.

Lemma tables_paired_popped camera_id r :
  tables_paired r -> tables_paired (popped camera_id r).
Proof.
  intros H k. unfold popped. cbn. rewrite !contains_del.
  destruct (String.eqb camera_id k); cbn [negb andb]; [discriminate | apply H].
Qed.

Lemma tables_paired_set camera_id info start_time r :
  tables_paired r ->
  tables_paired (set_recording_start_times (PyDict.set camera_id start_time)
                   (set_recording_processes (PyDict.set camera_id info) r)).
Proof.
  intros H k. cbn. rewrite !contains_set.
  destruct (String.eqb camera_id k); cbn [orb]; [reflexivity | apply H].
Qed.

Lemma tables_paired_deleted camera_id r :
  tables_paired r ->
  tables_paired (set_recording_start_times (PyDict.del camera_id)
                   (set_recording_processes (PyDict.del camera_id) r)).
Proof. apply tables_paired_popped. Qed.

Lemma tables_paired_cleared r :
  tables_paired (set_recording_start_times (fun _ => PyDict.empty)
                   (set_recording_processes (fun _ => PyDict.empty) r)).
Proof. intros k H. discriminate H. Qed.

(** Two writes in a row, related as one step *)
Lemma steps_modify_twice {S A} (R : S -> S -> Prop) `{!PreOrder R}
  (f g : S -> S) (k : M S A) :
  (forall s, R s (g (f s))) -> steps R k ->
  steps R (modify f ;; modify g ;; k).
Proof.
  intros Hfg Hk s. unfold bind, modify. cbn.
  transitivity (g (f s)); [apply Hfg | apply Hk].
Qed.

Lemma steps_modify_pair {S} (R : S -> S -> Prop) (f g : S -> S) :
  (forall s, R s (g (f s))) -> steps R (modify f ;; modify g).
Proof. intros Hfg s. apply Hfg. Qed.

#[export] Instance keeps_paired_preorder : PreOrder keeps_paired.
Proof. unfold keeps_paired. typeclasses eauto. Qed.

Lemma in_os_keeps_paired {A} (m : M OS A) : steps keeps_paired (in_os m).
Proof. apply steps_in_os_frame. intros w o H. exact H. Qed.

Lemma stop_recording_keeps_paired E camera_id :
  steps keeps_paired (stop_recording E camera_id).
Proof.
  intros w H. destruct (stop_recording_pops E camera_id w) as (Hr & _).
  rewrite Hr. apply tables_paired_popped, H.
Qed.

Lemma check_disk_space_keeps_paired cfg E camera_id :
  steps keeps_paired (check_disk_space cfg E camera_id).
Proof.
  unfold check_disk_space. repeat steps_step; apply in_os_keeps_paired.
Qed.

Lemma rtsp_retry_keeps_paired cfg E rtsp_url :
  steps keeps_paired (rtsp_retry cfg E rtsp_url).
Proof.
  unfold rtsp_retry. repeat steps_step; apply in_os_keeps_paired.
Qed.

(** One syntax-directed step for the pairing of the tables: the two
    writes of a session are taken together *)
Ltac paired_step :=
  match goal with
  | |- steps _ (bind (upd_rec _) (fun _ => bind (upd_rec _) _)) =>
      unfold upd_rec; sapply @steps_modify_twice;
      [intros x Hx; first [apply tables_paired_set | apply tables_paired_deleted
                           | apply tables_paired_cleared]; try exact Hx | ]
  | |- steps _ (bind (upd_rec _) (fun _ => upd_rec _)) =>
      unfold upd_rec; apply steps_modify_pair;
      intros x Hx; first [apply tables_paired_set | apply tables_paired_deleted
                          | apply tables_paired_cleared]; try exact Hx
  | |- steps _ (upd_rec (set_recording_threads _)) =>
      unfold upd_rec; sapply @steps_modify; intros x Hx; exact Hx
  | |- steps _ (in_os _) => apply in_os_keeps_paired
  | |- steps _ (rec _) => unfold rec; sapply @steps_gets
  | |- steps _ (stop_recording _ _) => apply stop_recording_keeps_paired
  | |- steps _ (check_disk_space _ _ _) => apply check_disk_space_keeps_paired
  | |- steps _ (rtsp_retry _ _ _) => apply rtsp_retry_keeps_paired
  | _ => steps_step
  end.

Lemma start_new_recording_keeps_paired cfg E camera_id rtsp_url :
  steps keeps_paired (start_new_recording cfg E camera_id rtsp_url).
Proof. unfold start_new_recording. repeat paired_step. Qed.

Lemma start_recording_keeps_paired cfg E camera_id rtsp_url :
  steps keeps_paired (start_recording cfg E camera_id rtsp_url).
Proof.
  unfold start_recording.
  repeat first [apply start_new_recording_keeps_paired | paired_step].
Qed.

Lemma force_stop_keeps_paired E camera_id : steps keeps_paired (force_stop E camera_id).
Proof. unfold force_stop. repeat paired_step. Qed.

Lemma last_resort_keeps_paired E camera_id : steps keeps_paired (last_resort E camera_id).
Proof. unfold last_resort. repeat paired_step. Qed.

Lemma stop_all_recordings_keeps_paired E : steps keeps_paired (stop_all_recordings E).
Proof.
  intros w H. destruct (stop_all_recordings_run E w) as (b & w' & Hrun & Hrp & Hst).
  rewrite Hrun. cbn [snd]. intros k. rewrite Hst, (without_keys_covered _ _ H).
  discriminate.
Qed.

(** Outside the pairing the final clear is not reached: with no session
    in the table [stop_all_recordings] returns at once, whatever the table
    of start times holds. *)
Example stop_all_recordings_of_unpaired_tables :
  ~ tables_paired (recording stale_start_time_world) /\
  stop_all_recordings calm_env stale_start_time_world = (Ok true, stale_start_time_world).
Proof.
  split; [|reflexivity]. intros H. specialize (H "cam1" eq_refl). discriminate H.
Qed.

(** C3: after [stop_all_streaming] returns, the session map and the tables
    hls_last_update, m3u8_last_size and restart_counts are empty and
    active_streams_count is 0, for every prior state; after
    [stop_all_recordings] returns, recording_processes and
    recording_start_times are empty, for every prior state of the two
    tables that their writers can leave (every start time belongs to a
    session).  Both hold whatever the termination of a session does,
    errors included. *)
Theorem stop_all_leaves_the_tables_empty E w :
  (exists w',
     stop_all_streaming E w = (Ok true, w') /\
     streaming_processes (streaming w') = [] /\
     hls_last_update (streaming w') = [] /\
     m3u8_last_size (streaming w') = [] /\
     restart_counts (streaming w') = [] /\
     active_streams_count (streaming w') = 0) /\
  (tables_paired (recording w) ->
   exists b w',
     stop_all_recordings E w = (Ok b, w') /\
     recording_processes (recording w') = [] /\
     recording_start_times (recording w') = []).
Proof.
  split; [apply stop_all_streaming_clears|]. intros Hpaired.
  destruct (stop_all_recordings_run E w) as (b & w' & Hrun & Hrp & Hst).
  exists b, w'. split; [exact Hrun|]. split; [exact Hrp|].
  rewrite Hst. apply without_keys_covered. exact Hpaired.
Qed.

(** With cam1 recording *)
Lemma stop_all_leaves_the_tables_empty_witness :
  tables_paired (recording (recording_world (recorded_file 2097152 false))) /\
  exists b w',
    stop_all_recordings calm_env (recording_world (recorded_file 2097152 false)) = (Ok b, w') /\
    recording_processes (recording w') = [] /\
    recording_start_times (recording w') = [].
Proof.
  assert (H : tables_paired (recording (recording_world (recorded_file 2097152 false))))
    by (apply tables_paired_by_keys; reflexivity).
  split; [exact H|].
  exact (proj2 (stop_all_leaves_the_tables_empty calm_env
                  (recording_world (recorded_file 2097152 false))) H).
Defined.

(** ** What the operations append to the trace *)



#[export] Instance appends_in_world_preorder (P : Event -> Prop) :
  PreOrder (appends_in_world P).
Proof.
  split.
  - intros w. unfold appends_in_world. reflexivity.
  - intros a b c Hab Hbc. unfold appends_in_world in *. etransitivity; eassumption.
Qed.

Ltac appends_none :=
  exists []; split; [symmetry; apply app_nil_r | constructor].

Ltac appends_one H :=
  eexists [_]; split; [reflexivity | constructor; [apply H; reflexivity | constructor]].

Section AppendsFacts.
Variable P : Event -> Prop.
Hypothesis HP : forall e, basic_event e = true -> P e.
Variable E : Env.

Lemma sleep_appends d : steps (appends P) (sleep E d).
Proof. intros o. cbn. appends_one HP. Qed.

Lemma poll_appends pid : steps (appends P) (poll pid).
Proof.
  intros o. unfold poll.
  destruct (proc_get pid (procs o)) as [p|]; [|appends_none].
  destruct (proc_broken p); [appends_none|].
  destruct (proc_returncode p); [appends_none|].
  destruct (proc_exit_at p) as [[t rc]|]; [|appends_none].
  destruct (Qle_bool t (now o)); appends_none.
Qed.

Lemma send_signal_appends sig pid : steps (appends P) (send_signal sig pid).
Proof.
  intros o. unfold send_signal. cbn.
  destruct (proc_get pid (procs o)) as [p|]; [|appends_one HP].
  destruct (proc_broken p); [appends_one HP|].
  destruct (proc_returncode p); [appends_one HP|].
  destruct (reacts sig p); appends_one HP.
Qed.

Lemma run_appends argv : steps (appends P) (run E argv).
Proof.
  intros o. unfold run.
  destruct (ro_result (run_cmd E (now o) argv (fs o) (procs o))); cbn; appends_one HP.
Qed.

Lemma popen_appends argv : P (EvPopen argv) -> steps (appends P) (popen E argv).
Proof.
  intros H o. unfold popen.
  destruct (popen_child E (now o) argv); cbn;
    (eexists [_]; split; [reflexivity | constructor; [exact H | constructor]]).
Qed.

Lemma logging_appends msg : P (EvLog msg) -> steps (appends P) (logging msg).
Proof.
  intros H o. cbn.
  eexists [_]; split; [reflexivity | constructor; [exact H | constructor]].
Qed.

Lemma start_thread_appends target arg : steps (appends P) (start_thread target arg).
Proof. intros o. cbn. appends_one HP. Qed.

Lemma listdir_appends d : steps (appends P) (listdir d).
Proof. intros o. unfold listdir. destruct (PyDict.get d (fs o)); appends_none. Qed.

Lemma stat_appends {A} (g : File -> A) p : steps (appends P) (stat g p).
Proof. intros o. unfold stat. destruct (file_get p (fs o)); appends_none. Qed.

Lemma remove_appends p : steps (appends P) (remove p).
Proof.
  intros o. unfold remove. destruct (file_get p (fs o)) as [f|]; [|appends_none].
  destruct (f_locked f); [appends_none | cbn; appends_one HP].
Qed.

Lemma read_text_appends p : steps (appends P) (read_text p).
Proof.
  intros o. unfold read_text. destruct (file_get p (fs o)) as [f|]; [|appends_none].
  destruct (f_unreadable f); appends_none.
Qed.

Lemma write_text_appends p content : steps (appends P) (write_text p content).
Proof.
  intros o. unfold write_text. destruct (PyDict.get (p_dir p) (fs o)) as [d|]; [|appends_none].
  destruct (negb (d_writable d) || _)%bool; [appends_none | cbn; appends_one HP].
Qed.

Lemma replace_appends src dst : steps (appends P) (replace src dst).
Proof.
  intros o. unfold replace.
  destruct (file_get src (fs o)) as [f|]; [|appends_none].
  destruct (PyDict.get (p_dir dst) (fs o)) as [d|]; [|appends_none].
  destruct (f_locked f || _)%bool; [appends_none | cbn; appends_one HP].
Qed.

Lemma makedirs_appends d : steps (appends P) (makedirs E d).
Proof.
  intros o. unfold makedirs. destruct (makedirs_raises E d); [appends_none|].
  destruct (PyDict.contains d (fs o)); [appends_none|]. cbn. appends_none.
Qed.

Lemma disk_usage_free_appends x : steps (appends P) (disk_usage_free E x).
Proof. intros o. unfold disk_usage_free. destruct (disk_free E (now o) x); appends_none. Qed.

Lemma requests_head_appends url : steps (appends P) (requests_head E url).
Proof. intros o. unfold requests_head. destruct (http_head E (now o) url); appends_none. Qed.

End AppendsFacts.

(** The composite operations of fs_utils.py and ffmpeg_utils.py *)

Ltac os_appends HP :=
  repeat first
    [ steps_step
    | apply (sleep_appends _ HP)
    | apply (poll_appends _)
    | apply (send_signal_appends _ HP)
    | apply (run_appends _ HP)
    | apply (start_thread_appends _ HP)
    | apply (listdir_appends _)
    | apply (stat_appends _)
    | apply (remove_appends _ HP)
    | apply (read_text_appends _)
    | apply (write_text_appends _ HP)
    | apply (replace_appends _ HP)
    | apply (makedirs_appends _)
    | apply (disk_usage_free_appends _)
    | apply (requests_head_appends _)
    | progress unfold wait, time_time, dir_exists, path_exists, os_path_exists,
        getsize, getmtime, os_kill ].

Section CompositeAppends.
Variable P : Event -> Prop.
Hypothesis HP : forall e, basic_event e = true -> P e.
Variable cfg : Config.
Variable E : Env.

Lemma ensure_directory_exists_appends path :
  steps (appends P) (ensure_directory_exists E path).
Proof. unfold ensure_directory_exists. os_appends HP. Qed.

Lemma get_free_space_appends path : steps (appends P) (get_free_space E path).
Proof. unfold get_free_space. os_appends HP. Qed.

Lemma check_rtsp_connection_appends url :
  steps (appends P) (check_rtsp_connection cfg E url).
Proof. unfold check_rtsp_connection. os_appends HP. Qed.

Lemma kill_ffmpeg_processes_appends args kwargs :
  steps (appends P) (kill_ffmpeg_processes E args kwargs).
Proof.
  unfold kill_ffmpeg_processes, kill_ffmpeg_processes_body. os_appends HP.
Qed.

Lemma finalize_recording_appends file_path :
  steps (appends P) (finalize_recording E file_path).
Proof. unfold finalize_recording. os_appends HP. Qed.

Lemma force_kill_appends pid : steps (appends P) (force_kill E pid).
Proof. unfold force_kill. os_appends HP. Qed.

Lemma terminate_process_appends pid timeout :
  steps (appends P) (terminate_process E pid timeout).
Proof.
  unfold terminate_process. os_appends HP. apply force_kill_appends.
Qed.

Lemma cleanup_old_segments_appends camera_id force :
  steps (appends P) (cleanup_old_segments cfg camera_id force).
Proof. unfold cleanup_old_segments. os_appends HP. Qed.

Lemma get_ffmpeg_record_command_appends rtsp_url output_path camera_id :
  steps (appends P) (get_ffmpeg_record_command E rtsp_url output_path camera_id).
Proof. unfold get_ffmpeg_record_command, probe_hls. os_appends HP. Qed.

Lemma in_os_appends {A} (m : M OS A) :
  steps (appends P) m -> steps (appends_in_world P) (in_os m).
Proof.
  intros H. unfold in_os. apply (steps_lift_state _ (appends P)); [exact H|].
  intros w o' Ho. exact Ho.
Qed.

Lemma upd_st_appends f : steps (appends_in_world P) (upd_st f).
Proof. intros w. unfold appends_in_world. cbn. reflexivity. Qed.

Lemma upd_rec_appends f : steps (appends_in_world P) (upd_rec f).
Proof. intros w. unfold appends_in_world. cbn. reflexivity. Qed.

Lemma cleanup_camera_resources_appends camera_id :
  P (EvLog ("Cleaning up resources for camera " ++ camera_id)) ->
  steps (appends_in_world P) (cleanup_camera_resources cfg E camera_id).
Proof.
  intros Hlog. unfold cleanup_camera_resources, st.
  repeat first
    [ steps_step
    | apply upd_st_appends
    | apply in_os_appends;
      first [ apply (logging_appends _ _ Hlog)
            | apply terminate_process_appends
            | apply kill_ffmpeg_processes_appends
            | apply cleanup_old_segments_appends ] ].
Qed.

End CompositeAppends.

(** ** The launch sequence *)



Section AlwaysRaises.
Context {S : Type} (R : S -> S -> Prop) {HR : PreOrder R}.

Lemma always_raises_bind_l {A B} (m : M S A) (k : A -> M S B) :
  always_raises R m -> always_raises R (bind m k).
Proof.
  intros Hm s. destruct (Hm s) as (e & s' & Hrun & Hs').
  exists e, s'. split; [apply (bind_run_raise _ _ _ _ _ Hrun) | exact Hs'].
Qed.

Lemma always_raises_bind_r {A B} (m : M S A) (k : A -> M S B) :
  steps R m -> (forall a, always_raises R (k a)) -> always_raises R (bind m k).
Proof.
  intros Hm Hk s. specialize (Hm s). unfold bind.
  destruct (m s) as [[a|e] s1]; cbn [snd] in Hm.
  - destruct (Hk a s1) as (e & s' & Hrun & Hs').
    exists e, s'. split; [exact Hrun | etransitivity; eassumption].
  - exists e, s1. split; [reflexivity | exact Hm].
Qed.

Lemma try_except_of_raising {A} (m : M S A) (h : Exn -> M S A) (a : A) :
  always_raises R m ->
  (forall e s, exists s', h e s = (Ok a, s') /\ R s s') ->
  forall s, exists s', try_except m h s = (Ok a, s') /\ R s s'.
Proof.
  intros Hm Hh s. destruct (Hm s) as (e & s1 & Hrun & Hs1).
  destruct (Hh e s1) as (s' & Hrun' & Hs').
  exists s'. unfold try_except. rewrite Hrun. split; [exact Hrun' |].
  etransitivity; eassumption.
Qed.

End AlwaysRaises.

Lemma basic_event_no_popen e : basic_event e = true -> no_popen e.
Proof. intros H argv ->. discriminate H. Qed.

(** The call that [start_streaming_process] writes names a parameter that
    [kill_ffmpeg_processes(camera_id=None, pid=None)] does not have. *)
Lemma kill_with_process_type_raises E camera_id o :
  kill_ffmpeg_processes E [] [("camera_id", VStr camera_id); ("process_type", VStr "hls")] o
  = (Raise (TypeError "got an unexpected keyword argument process_type"), o).
Proof. reflexivity. Qed.

Lemma cleanup_camera_resources_total cfg E camera_id :
  total (cleanup_camera_resources cfg E camera_id).
Proof.
  unfold cleanup_camera_resources. apply total_try_except. intros; apply total_ret.
Qed.

(** C1: [start_streaming_process] returns False for every camera in every
    state of the world, and starts no child process on the way: the call
    of [kill_ffmpeg_processes] with the keyword process_type raises
    TypeError before the encoder is started, the handler cleans up and
    returns False.  So no input makes the launch sequence complete. *)
Theorem start_streaming_process_never_succeeds cfg E camera w :
  exists w',
    start_streaming_process cfg E camera w = (Ok false, w') /\
    appends_in_world no_popen w w'.
Proof.
  unfold start_streaming_process.
  sapply (try_except_of_raising (appends_in_world no_popen)).
  - sapply @always_raises_bind_r;
      [apply in_os_appends, ensure_directory_exists_appends, basic_event_no_popen|].
    intros _. sapply @always_raises_bind_r;
      [apply in_os_appends, makedirs_appends|].
    intros _. sapply @always_raises_bind_r;
      [apply in_os_appends; sapply @steps_gets|].
    intros timestamp. sapply @always_raises_bind_l.
    intros s. eexists _, (set_os (os s) s). split.
    + unfold in_os, lift_state. rewrite kill_with_process_type_raises. reflexivity.
    + unfold appends_in_world. cbn. reflexivity.
  - intros e s.
    destruct (cleanup_camera_resources_total cfg E (cam_id camera) s) as ([] & s' & Hrun).
    exists s'. split; [rewrite (bind_run _ _ _ _ _ Hrun); reflexivity|].
    pose proof (cleanup_camera_resources_appends no_popen basic_event_no_popen cfg E
                  (cam_id camera)) as Happ.
    specialize (Happ ltac:(intros argv; discriminate) s).
    rewrite Hrun in Happ. exact Happ.
Qed.

(** The same on the cold-start scenario: cam1 on a calm host. *)
Example launch_of_cam1_fails :
  fst (start_streaming_process default_config calm_env cam1 world0) = Ok false.
Proof. vm_compute. reflexivity. Qed.

(** ** Disabled cameras *)



Lemma steps_frame_keeps {S T A} (f : S -> T) (v : T) (m : M S A) :
  steps (frame f) m -> steps (keeps (fun s => f s = v)) m.
Proof. intros H s Hs. rewrite (H s). exact Hs. Qed.

Lemma establishes_bind {S A B} (I : S -> Prop) (Q : Res B * S -> Prop)
  (m : M S A) (k : A -> M S B) :
  steps (keeps I) m ->
  (forall e s, I s -> Q (Raise e, s)) ->
  (forall a, establishes I Q (k a)) ->
  establishes I Q (bind m k).
Proof.
  intros Hm Hraise Hk s Hs. specialize (Hm s Hs). unfold bind.
  destruct (m s) as [[a|e] s']; cbn [snd] in Hm.
  - apply Hk, Hm.
  - apply Hraise, Hm.
Qed.

Ltac world_frame :=
  repeat first
    [ steps_step
    | apply steps_in_os_frame; intros; reflexivity
    | sapply @steps_modify; intros; reflexivity
    | progress unfold st, rec, upd_st, upd_rec, bump_restart_count, get_camera_by_id,
        get_enabled_cameras, queue_put ].

Lemma cleanup_camera_resources_keeps_queue cfg E camera_id :
  steps (frame queue_and_config) (cleanup_camera_resources cfg E camera_id).
Proof. unfold cleanup_camera_resources. world_frame. Qed.

(** [get_or_start_streaming] refuses a camera whose enabled is not 1 and
    changes nothing. *)
Lemma get_or_start_streaming_refuses cfg camera w :
  get_enabled camera <> 1 -> get_or_start_streaming cfg camera w = (Ok false, w).
Proof.
  intros H. unfold get_or_start_streaming.
  destruct (get_enabled camera =? 1) eqn:He; [apply Z.eqb_eq in He; contradiction|].
  reflexivity.
Qed.

Lemma refused_raise v e w : queue_and_config w = v -> refused v (Raise e, w).
Proof. intros H. split; [right; eexists; reflexivity | exact H]. Qed.

Lemma refused_try_except v (m : M World bool) w :
  queue_and_config w = v ->
  establishes (fun s => queue_and_config s = v) (refused v) m ->
  exists w', try_except m (fun _ => ret false) w = (Ok false, w')
             /\ queue_and_config w' = v.
Proof.
  intros Hw Hm. specialize (Hm w Hw). unfold try_except.
  destruct (m w) as [[b|e] w']; destruct Hm as ([Hb|(e' & Hb)] & Hq); cbn in *;
    try discriminate.
  - injection Hb as ->. eexists. split; [reflexivity | exact Hq].
  - eexists. split; [reflexivity | exact Hq].
Qed.

Lemma restart_streaming_refuses cfg E camera_id camera w :
  find (fun c => String.eqb (cam_id c) camera_id) (camera_config w) = Some camera ->
  get_enabled camera <> 1 ->
  exists w', restart_streaming cfg E camera_id w = (Ok false, w')
             /\ streaming_queue (streaming w') = streaming_queue (streaming w).
Proof.
  intros Hfind Hdis. unfold restart_streaming.
  match goal with |- context [try_except ?m _ w] =>
    assert (Hest : establishes (fun s => queue_and_config s = queue_and_config w)
                     (refused (queue_and_config w)) m)
  end.
  { do 5 (apply establishes_bind;
            [ apply steps_frame_keeps; world_frame
            | intros; apply refused_raise; assumption
            | intros ]).
    intros s Hs. unfold get_camera_by_id. rewrite bind_gets_run.
    assert (Hc : camera_config s = camera_config w)
      by (unfold queue_and_config in Hs; congruence).
    rewrite Hc, Hfind, (get_or_start_streaming_refuses cfg camera s Hdis).
    split; [left; reflexivity | exact Hs]. }
  destruct (refused_try_except _ _ w eq_refl Hest) as (w' & Hrun & Hq).
  exists w'. split; [exact Hrun|]. unfold queue_and_config in Hq. congruence.
Qed.

Lemma restart_camera_stream_refuses cfg E camera_id camera w :
  find (fun c => String.eqb (cam_id c) camera_id) (camera_config w) = Some camera ->
  get_enabled camera <> 1 ->
  exists w', restart_camera_stream cfg E camera_id w = (Ok false, w')
             /\ streaming_queue (streaming w') = streaming_queue (streaming w).
Proof.
  intros Hfind Hdis. unfold restart_camera_stream.
  match goal with |- context [try_except ?m _ w] =>
    assert (Hest : establishes (fun s => queue_and_config s = queue_and_config w)
                     (refused (queue_and_config w)) m)
  end.
  { do 7 (apply establishes_bind;
            [ apply steps_frame_keeps; world_frame;
              try apply cleanup_camera_resources_keeps_queue
            | intros; apply refused_raise; assumption
            | intros ]).
    intros s Hs. unfold get_camera_by_id. rewrite bind_gets_run.
    assert (Hc : camera_config s = camera_config w)
      by (unfold queue_and_config in Hs; congruence).
    rewrite Hc, Hfind.
    destruct (get_enabled camera =? 1) eqn:He; [apply Z.eqb_eq in He; contradiction|].
    split; [left; reflexivity | exact Hs]. }
  destruct (refused_try_except _ _ w eq_refl Hest) as (w' & Hrun & Hq).
  exists w'. split; [exact Hrun|]. unfold queue_and_config in Hq. congruence.
Qed.

(** C2, counterexample: cam3 is configured with enabled = 0, and
    [start_recording] called for it on a calm host starts and records a
    Recording Session for it. *)
Lemma start_recording_records_a_disabled_camera :
  get_enabled cam3 <> 1 /\
  find (fun c => String.eqb (cam_id c) "cam3") (camera_config world0) = Some cam3 /\
  fst (start_recording default_config calm_env "cam3" "rtsp://x/3" world0) = Ok true /\
  PyDict.contains "cam3"
    (recording_processes
       (recording (snd (start_recording default_config calm_env "cam3" "rtsp://x/3" world0))))
  = true.
Proof.
  split; [discriminate|]. split; [reflexivity|].
  split; vm_compute; reflexivity.
Qed.

(** C2, amended: for every camera descriptor with enabled not equal to 1
    the streaming supervisor never queues the camera: called with the
    descriptor, [get_or_start_streaming] returns False and changes
    nothing, and a restart request for its id, by [restart_streaming] or
    by [restart_camera_stream], returns False and leaves the queue of
    cameras to start as it was.  (Recording is not part of this:
    [start_recording] gets an id and a URL and no descriptor.) *)
Theorem disabled_camera_is_refused_by_streaming cfg E camera w :
  get_enabled camera <> 1 ->
  find (fun c => String.eqb (cam_id c) (cam_id camera)) (camera_config w) = Some camera ->
  get_or_start_streaming cfg camera w = (Ok false, w) /\
  (exists w', restart_streaming cfg E (cam_id camera) w = (Ok false, w')
              /\ streaming_queue (streaming w') = streaming_queue (streaming w)) /\
  (exists w', restart_camera_stream cfg E (cam_id camera) w = (Ok false, w')
              /\ streaming_queue (streaming w') = streaming_queue (streaming w)).
Proof.
  intros Hdis Hfind. split; [|split].
  - apply get_or_start_streaming_refuses, Hdis.
  - apply (restart_streaming_refuses cfg E _ camera); assumption.
  - apply (restart_camera_stream_refuses cfg E _ camera); assumption.
Qed.

Lemma disabled_camera_is_refused_by_streaming_witness :
  get_or_start_streaming default_config cam3 world0 = (Ok false, world0) /\
  (exists w', restart_streaming default_config calm_env "cam3" world0 = (Ok false, w')
              /\ streaming_queue (streaming w') = streaming_queue (streaming world0)) /\
  (exists w', restart_camera_stream default_config calm_env "cam3" world0 = (Ok false, w')
              /\ streaming_queue (streaming w') = streaming_queue (streaming world0)).
Proof.
  apply (disabled_camera_is_refused_by_streaming default_config calm_env cam3 world0).
  - discriminate.
  - reflexivity.
Defined.

(** ** The effect of a clean-up on the streaming tables *)



Section MoreRunLaws.
Context {S : Type}.

Lemma bind_assoc_run {A B C} (m : M S A) (k1 : A -> M S B) (k2 : B -> M S C) s :
  bind (bind m k1) k2 s = bind m (fun a => bind (k1 a) k2) s.
Proof. unfold bind. destruct (m s) as [[a|e] s']; reflexivity. Qed.

Lemma snd_try_except_ret {A} (m : M S A) (x : A) s :
  snd (try_except m (fun _ => ret x) s) = snd (m s).
Proof. unfold try_except. destruct (m s) as [[a|e] s']; reflexivity. Qed.

Lemma try_except_bind_run {A B} (m : M S A) (k : A -> M S B) h s a s' :
  m s = (Ok a, s') -> try_except (bind m k) h s = try_except (k a) h s'.
Proof. intros H. unfold try_except, bind. rewrite H. reflexivity. Qed.

Lemma try_except_bind_assoc {A B C} (m : M S A) (k1 : A -> M S B) (k2 : B -> M S C) h s :
  try_except (bind (bind m k1) k2) h s
  = try_except (bind m (fun a => bind (k1 a) k2)) h s.
Proof. unfold try_except. rewrite bind_assoc_run. reflexivity. Qed.

End MoreRunLaws.

Lemma del_absent {V} k (d : dict V) : PyDict.get k d = None -> PyDict.del k d = d.
Proof.
  induction d as [|[k' v] d IH]; cbn; [reflexivity|].
  destruct (String.eqb k' k); [discriminate|]. intros H. f_equal. apply IH, H.
Qed.

Lemma in_os_logging_run msg w :
  in_os (logging msg) w = (Ok tt, set_os (log_event (EvLog msg) (os w)) w).
Proof. reflexivity. Qed.

Lemma cleanup_camera_resources_streaming cfg E camera_id w :
  streaming (snd (cleanup_camera_resources cfg E camera_id w))
  = cleaned camera_id (streaming w).
Proof.
  unfold cleanup_camera_resources. rewrite snd_try_except_ret.
  rewrite (bind_run _ _ _ _ _ (in_os_logging_run _ w)).
  unfold st. rewrite bind_gets_run. cbn [streaming set_os].
  set (w1 := set_os _ w).
  assert (Hw1 : streaming w1 = streaming w) by reflexivity.
  assert (Hrest : forall x,
            streaming (snd (bind (upd_st (set_hls_last_update (PyDict.del camera_id)))
              (fun _ => bind (upd_st (set_m3u8_last_size (PyDict.del camera_id)))
              (fun _ => bind (upd_st (set_restart_counts (PyDict.del camera_id)))
              (fun _ => bind (in_os (kill_ffmpeg_processes E [VStr camera_id] []))
              (fun _ => in_os (cleanup_old_segments cfg camera_id false))))) x))
            = set_restart_counts (PyDict.del camera_id)
                (set_m3u8_last_size (PyDict.del camera_id)
                   (set_hls_last_update (PyDict.del camera_id) (streaming x)))).
  { intros x. unfold upd_st. rewrite !bind_modify_run.
    match goal with |- streaming (snd (?m ?y)) = _ =>
      assert (Hf : steps (frame streaming) m) by world_frame;
      rewrite (Hf y)
    end.
    reflexivity. }
  destruct (PyDict.get camera_id (streaming_processes (streaming w))) as [process|] eqn:Hget.
  - rewrite !bind_assoc_run.
    match goal with |- context [bind (try_except ?m ?h) ?k w1] =>
      destruct (total_try_except m h (fun _ => total_ret tt) w1) as (u & w2 & Ht);
      assert (Hfr : steps (frame streaming) (try_except m h)) by world_frame;
      specialize (Hfr w1); rewrite Ht in Hfr; cbn [snd] in Hfr; unfold frame in Hfr;
      rewrite (bind_run _ _ _ _ _ Ht)
    end.
    cbv beta. rewrite !bind_assoc_run. unfold upd_st at 1 2. rewrite !bind_modify_run.
    rewrite Hrest. cbn. rewrite Hfr, Hw1. unfold cleaned, PyDict.contains. rewrite Hget. reflexivity.
  - rewrite bind_ret_run.
    rewrite Hrest, Hw1. unfold cleaned, PyDict.contains. rewrite Hget.
    unfold set_restart_counts, set_m3u8_last_size, set_hls_last_update. cbn.
    rewrite (del_absent _ _ Hget). reflexivity.
Qed.

(** ** The restart counter and the cool-down *)



Lemma any_basic_event e : basic_event e = true -> any_event e.
Proof. intros _. exact I. Qed.

Ltac os_appends_all HP :=
  repeat first
    [ apply (terminate_process_appends _ HP)
    | apply (kill_ffmpeg_processes_appends _ HP)
    | apply (cleanup_old_segments_appends _ HP)
    | apply (finalize_recording_appends _ HP)
    | apply (check_rtsp_connection_appends _ HP)
    | apply (ensure_directory_exists_appends _ HP)
    | apply (get_free_space_appends _ HP)
    | apply (get_ffmpeg_record_command_appends _ HP)
    | progress os_appends HP ].

Ltac world_appends HP :=
  repeat first
    [ steps_step
    | apply upd_st_appends
    | apply upd_rec_appends
    | apply in_os_appends; os_appends_all HP
    | progress unfold st, rec, bump_restart_count, get_camera_by_id,
        get_enabled_cameras, queue_put, get_or_start_streaming,
        start_streaming_workers ].

Ltac world_frame_all :=
  repeat first
    [ progress world_frame
    | progress unfold get_or_start_streaming, start_streaming_workers ].

Lemma bump_restart_count_run camera_id w :
  bump_restart_count camera_id 1 w
  = (Ok (next_restart_count camera_id (streaming w)),
     set_streaming
       (set_restart_counts
          (PyDict.set camera_id (next_restart_count camera_id (streaming w)))) w).
Proof. reflexivity. Qed.

Lemma restart_streaming_counter_and_cooldown cfg E camera_id w :
  let n := next_restart_count camera_id (streaming w) in
  exists b w' tr,
    restart_streaming cfg E camera_id w = (Ok b, w') /\
    PyDict.get camera_id (restart_counts (streaming w')) = Some n /\
    trace (os w')
    = (trace (os w)
       ++ (if n >? MAX_RESTART_COUNT
           then [EvSleep (inject_Z (policy_cooldown n))] else [])
       ++ tr)%list.
Proof.
  intros n. unfold restart_streaming. change (0 + 1) with 1.
  rewrite (try_except_bind_run _ _ _ _ _ _ (bump_restart_count_run camera_id w)).
  fold n. set (w1 := set_streaming _ w).
  assert (Hrest : forall (m : M World bool) x,
            steps (frame (fun y => restart_counts (streaming y))) m ->
            steps (appends_in_world any_event) m ->
            exists b w' tr, try_except m (fun _ => ret false) x = (Ok b, w')
              /\ restart_counts (streaming w') = restart_counts (streaming x)
              /\ trace (os w') = (trace (os x) ++ tr)%list).
  { intros m x Hf Ha.
    destruct (total_try_except m (fun _ => ret false) (fun _ => total_ret false) x)
      as (b & w' & Hrun).
    assert (Hf' : steps (frame (fun y => restart_counts (streaming y)))
                    (try_except m (fun _ => ret false)))
      by (sapply @steps_try_except; [exact Hf | intros; sapply @steps_ret]).
    assert (Ha' : steps (appends_in_world any_event) (try_except m (fun _ => ret false)))
      by (sapply @steps_try_except; [exact Ha | intros; sapply @steps_ret]).
    specialize (Hf' x). specialize (Ha' x). rewrite Hrun in Hf', Ha'.
    destruct Ha' as (tr & Htr & _).
    exists b, w', tr. split; [exact Hrun|]. split; [exact Hf' | exact Htr]. }
  destruct (n >? MAX_RESTART_COUNT) eqn:Hn; cbn [when].
  - rewrite (try_except_bind_run _ _ _ _ _ _ (in_os_sleep_run E _ w1)).
    match goal with |- context [try_except ?m _ ?x] =>
      destruct (Hrest m x) as (b & w' & tr & Hrun & Hrc & Htr)
    end.
    + world_frame_all.
    + world_appends any_basic_event.
    + exists b, w', tr. split; [exact Hrun|]. split.
      * rewrite Hrc. cbn. apply get_set_same.
      * rewrite Htr. cbn. rewrite <- app_assoc. reflexivity.
  - rewrite (try_except_bind_run _ _ _ _ _ _ (eq_refl : ret tt w1 = (Ok tt, w1))).
    match goal with |- context [try_except ?m _ ?x] =>
      destruct (Hrest m x) as (b & w' & tr & Hrun & Hrc & Htr)
    end.
    + world_frame_all.
    + world_appends any_basic_event.
    + exists b, w', tr. split; [exact Hrun|]. split.
      * rewrite Hrc. cbn. apply get_set_same.
      * rewrite Htr. reflexivity.
Qed.

Lemma contains_del_same {V} k (d : dict V) : PyDict.contains k (PyDict.del k d) = false.
Proof. unfold PyDict.contains. rewrite get_del_same. reflexivity. Qed.

Lemma appends_in_world_trace P w w' :
  appends_in_world P w w' -> exists tr, trace (os w') = (trace (os w) ++ tr)%list.
Proof. intros (tr & H & _). exists tr. exact H. Qed.

Lemma restart_camera_stream_counter_and_cooldown cfg E camera_id w :
  let n := next_restart_count camera_id (streaming w) in
  exists b w' tr,
    restart_camera_stream cfg E camera_id w = (Ok b, w') /\
    PyDict.get camera_id (restart_counts (streaming w'))
    = (if PyDict.contains camera_id (streaming_processes (streaming w))
       then None
       else Some (if n >? MAX_RESTART_COUNT then 1 else n)) /\
    trace (os w')
    = (trace (os w)
       ++ (if n >? MAX_RESTART_COUNT
           then [EvSleep (inject_Z (RESTART_COOLDOWN * 2))] else [])
       ++ tr)%list.
Proof.
  intros n. unfold restart_camera_stream.
  rewrite (try_except_bind_run _ _ _ _ _ _ (bump_restart_count_run camera_id w)).
  fold n. set (w1 := set_streaming _ w).
  (* the state after the cool-down *)
  set (w2 := if n >? MAX_RESTART_COUNT
             then set_streaming (set_restart_counts (PyDict.set camera_id 1))
                    (set_os (log_event (EvSleep (inject_Z (RESTART_COOLDOWN * 2)))
                               (set_fs (elapse_files E (now (os w1))
                                          (inject_Z (RESTART_COOLDOWN * 2)))
                                  (set_now (fun t => (t + inject_Z (RESTART_COOLDOWN * 2))%Q)
                                     (os w1)))) w1)
             else w1).
  assert (Hcool : when (n >? MAX_RESTART_COUNT)
                    (bind (in_os (sleep E (inject_Z (RESTART_COOLDOWN * 2))))
                       (fun _ => upd_st (set_restart_counts (PyDict.set camera_id 1)))) w1
                  = (Ok tt, w2)).
  { subst w2. destruct (n >? MAX_RESTART_COUNT); reflexivity. }
  rewrite (try_except_bind_run _ _ _ _ _ _ Hcool).
  assert (Hsp2 : streaming_processes (streaming w2) = streaming_processes (streaming w))
    by (subst w2; destruct (n >? MAX_RESTART_COUNT); reflexivity).
  assert (Hrc2 : PyDict.get camera_id (restart_counts (streaming w2))
                 = Some (if n >? MAX_RESTART_COUNT then 1 else n))
    by (subst w2; destruct (n >? MAX_RESTART_COUNT); cbn; apply get_set_same).
  assert (Htr2 : trace (os w2)
                 = (trace (os w) ++ (if n >? MAX_RESTART_COUNT
                                     then [EvSleep (inject_Z (RESTART_COOLDOWN * 2))]
                                     else []))%list).
  { subst w2. destruct (n >? MAX_RESTART_COUNT); cbn; [reflexivity|].
    symmetry. apply app_nil_r. }
  clearbody w2. clear Hcool.
  unfold st at 1.
  rewrite (try_except_bind_run _ _ _ _ _ _
             (eq_refl : gets (fun x => streaming_processes (streaming x)) w2 = (Ok _, w2))).
  rewrite Hsp2.
  (* the end of the request, from a state without a session of the camera *)
  assert (Hend : forall x,
            PyDict.contains camera_id (streaming_processes (streaming x)) = false ->
            exists b w',
              try_except
                (bind (st streaming_processes) (fun sp' =>
                 bind (when (PyDict.contains camera_id sp')
                         (cleanup_camera_resources cfg E camera_id)) (fun _ =>
                 bind (in_os (sleep E 1%Q)) (fun _ =>
                 bind (get_camera_by_id camera_id) (fun camera_info =>
                   match camera_info with
                   | None => ret false
                   | Some camera_info =>
                       if negb (get_enabled camera_info =? 1) then ret false
                       else bind (queue_put camera_info) (fun _ => ret true)
                   end)))))
                (fun _ => ret false) x = (Ok b, w')
              /\ restart_counts (streaming w') = restart_counts (streaming x)
              /\ appends_in_world any_event x w').
  { intros x Hx. unfold st at 1.
    rewrite (try_except_bind_run _ _ _ _ _ _
               (eq_refl : gets (fun y => streaming_processes (streaming y)) x = (Ok _, x))).
    rewrite Hx. cbn [when].
    rewrite (try_except_bind_run _ _ _ _ _ _ (eq_refl : ret tt x = (Ok tt, x))).
    match goal with |- context [try_except ?m ?h x] =>
      destruct (total_try_except m h (fun _ => total_ret false) x) as (b & w' & Hrun);
      assert (Hf : steps (frame (fun y => restart_counts (streaming y))) (try_except m h))
        by world_frame;
      assert (Ha : steps (appends_in_world any_event) (try_except m h))
        by world_appends any_basic_event
    end.
    specialize (Hf x). specialize (Ha x). rewrite Hrun in Hf, Ha.
    exists b, w'. split; [exact Hrun|]. split; [exact Hf | exact Ha]. }
  destruct (PyDict.get camera_id (streaming_processes (streaming w))) as [process|] eqn:Hget.
  - (* a session exists: it is ended and cleaned up *)
    rewrite try_except_bind_assoc.
    match goal with |- context [bind (try_except ?m ?h) _] =>
      destruct (total_try_except m h (fun _ => total_ret tt) w2) as ([] & w3 & Ht);
      assert (Hf3 : steps (frame streaming) (try_except m h)) by world_frame;
      assert (Ha3 : steps (appends_in_world any_event) (try_except m h))
        by world_appends any_basic_event
    end.
    specialize (Hf3 w2). specialize (Ha3 w2). rewrite Ht in Hf3, Ha3.
    cbn [snd] in Hf3, Ha3. unfold frame in Hf3.
    rewrite (try_except_bind_run _ _ _ _ _ _ Ht).
    destruct (cleanup_camera_resources_total cfg E camera_id w3) as ([] & w4 & Hc).
    pose proof (cleanup_camera_resources_streaming cfg E camera_id w3) as Hs4.
    pose proof (cleanup_camera_resources_appends any_event any_basic_event cfg E camera_id I w3)
      as Ha4.
    rewrite Hc in Hs4, Ha4. cbn [snd] in Hs4, Ha4.
    rewrite (try_except_bind_run _ _ _ _ _ _ Hc).
    destruct (Hend w4) as (b & w' & Hrun & Hrc & Ha5).
    { rewrite Hs4. cbn [streaming_processes cleaned]. apply contains_del_same. }
    destruct (appends_in_world_trace any_event w2 w') as (tr & Htr).
    { etransitivity; [exact Ha3|]. etransitivity; [exact Ha4 | exact Ha5]. }
    exists b, w', tr. split; [exact Hrun|]. split.
    + unfold PyDict.contains. rewrite Hget, Hrc, Hs4. cbn [restart_counts cleaned].
      apply get_del_same.
    + rewrite Htr, Htr2, <- app_assoc. reflexivity.
  - (* no session *)
    rewrite (try_except_bind_run _ _ _ _ _ _ (eq_refl : ret tt w2 = (Ok tt, w2))).
    destruct (Hend w2) as (b & w' & Hrun & Hrc & Ha5).
    { rewrite Hsp2. unfold PyDict.contains. rewrite Hget. reflexivity. }
    destruct (appends_in_world_trace _ w2 w' Ha5) as (tr & Htr).
    exists b, w', tr. split; [exact Hrun|]. split.
    + unfold PyDict.contains. rewrite Hget, Hrc. exact Hrc2.
    + rewrite Htr, Htr2, <- app_assoc. reflexivity.
Qed.

(** C5, counterexample: for cam1 with five restarts counted,
    [restart_streaming] makes the count 6, sleeps, queues the camera and
    leaves the counter at 6, not 1; with seven restarts counted,
    [restart_camera_stream] makes the count 8 and sleeps 60 s before it
    goes on, where the policy asks for 120 s. *)
Lemma restart_paths_do_not_follow_the_policy :
  (PyDict.get "cam1"
     (restart_counts (streaming (snd (restart_streaming default_config calm_env "cam1"
                                        (with_restart_count 5 world0))))) = Some 6
   /\ streaming_queue (streaming (snd (restart_streaming default_config calm_env "cam1"
                                         (with_restart_count 5 world0)))) = [cam1])
  /\
  (trace (os (snd (restart_camera_stream default_config calm_env "cam1"
                     (with_restart_count 7 world0)))) = [EvSleep 60%Q; EvSleep 1%Q]
   /\ policy_cooldown 8 = 120).
Proof. repeat split; vm_compute; reflexivity. Qed.

(** C5, amended: every restart request for a camera c increments the
    restart counter of c (a missing counter becomes 1).  In
    [restart_streaming], when the resulting count exceeds
    MAX_RESTART_COUNT (5) the first thing that follows is a sleep of
    RESTART_COOLDOWN × (count − max + 1) seconds, capped at 300 s, and
    the counter keeps that count to the end of the request.  In
    [restart_camera_stream], when the resulting count exceeds 5 the first
    thing that follows is a sleep of RESTART_COOLDOWN × 2 = 60 s and the
    counter is reset to 1; at the end of the request the counter is that
    value (1 after a cool-down), or it is gone when the camera had a
    session, whose clean-up deletes it. *)
Theorem restart_counter_and_cooldown cfg E camera_id w :
  let n := next_restart_count camera_id (streaming w) in
  (exists b w' tr,
     restart_streaming cfg E camera_id w = (Ok b, w') /\
     PyDict.get camera_id (restart_counts (streaming w')) = Some n /\
     trace (os w')
     = (trace (os w)
        ++ (if n >? MAX_RESTART_COUNT
            then [EvSleep (inject_Z (policy_cooldown n))] else [])
        ++ tr)%list)
  /\
  (exists b w' tr,
     restart_camera_stream cfg E camera_id w = (Ok b, w') /\
     PyDict.get camera_id (restart_counts (streaming w'))
     = (if PyDict.contains camera_id (streaming_processes (streaming w))
        then None
        else Some (if n >? MAX_RESTART_COUNT then 1 else n)) /\
     trace (os w')
     = (trace (os w)
        ++ (if n >? MAX_RESTART_COUNT
            then [EvSleep (inject_Z (RESTART_COOLDOWN * 2))] else [])
        ++ tr)%list).
Proof.
  split.
  - apply restart_streaming_counter_and_cooldown.
  - apply restart_camera_stream_counter_and_cooldown.
Qed.

Example policy_cooldown_values :
  policy_cooldown 6 = 60 /\ policy_cooldown 8 = 120 /\ policy_cooldown 20 = 300.
Proof. repeat split. Qed.

(** ** The resource monitor *)



Lemma basic_event_not_shed e : basic_event e = true -> not_shed e.
Proof. intros H id ->. discriminate H. Qed.

Lemma cleaning_up_is_not_shed camera_id :
  not_shed (EvLog ("Cleaning up resources for camera " ++ camera_id)).
Proof. intros id H. discriminate H. Qed.

Lemma paced_app_tail n tr t : paced n tr -> Forall not_shed t -> paced n (tr ++ t)%list.
Proof.
  intros Hp Ht. induction Hp as [tr Hf | id tr1 n tr2 Hf Hin Hp IH].
  - constructor. apply Forall_app. split; assumption.
  - cbn. rewrite <- app_assoc. constructor; assumption.
Qed.

Lemma in_os_cpu_sample_run E w :
  in_os (cpu_sample E) w
  = (Ok (cpu_percent E (now (os w) + 1)%Q),
     set_os (log_event (EvSleep 1%Q)
               (set_fs (elapse_files E (now (os w)) 1%Q)
                  (set_now (fun t => (t + 1)%Q) (os w)))) w).
Proof. reflexivity. Qed.

(** One round: the log line of the tear-down, then events among which is
    the pause of 5 s and none is a tear-down. *)
Lemma tear_down_and_resample_run cfg E camera_id w :
  exists c w1 tr1,
    tear_down_and_resample cfg E camera_id w = (Ok c, w1) /\
    trace (os w1) = (trace (os w) ++ EvLog (temporarily_stopping camera_id) :: tr1)%list /\
    Forall not_shed tr1 /\ In (EvSleep 5%Q) tr1 /\
    streaming w1 = cleaned camera_id (streaming w) /\
    c = cpu_percent E (now (os w1)).
Proof.
  unfold tear_down_and_resample.
  rewrite (bind_run _ _ _ _ _ (in_os_logging_run _ w)).
  set (wa := set_os _ w).
  destruct (cleanup_camera_resources_total cfg E camera_id wa) as ([] & wb & Hc).
  pose proof (cleanup_camera_resources_streaming cfg E camera_id wa) as Hs.
  pose proof (cleanup_camera_resources_appends not_shed basic_event_not_shed cfg E camera_id
                (cleaning_up_is_not_shed camera_id) wa) as (tc & Htc & Hfc).
  rewrite Hc in Hs, Htc. cbn [snd] in Hs, Htc.
  rewrite (bind_run _ _ _ _ _ Hc).
  rewrite (bind_run _ _ _ _ _ (in_os_sleep_run E 5%Q wb)).
  rewrite in_os_cpu_sample_run.
  eexists _, _, (tc ++ [EvSleep 5%Q; EvSleep 1%Q])%list.
  split; [reflexivity|]. split; [|split; [|split; [|split]]].
  - cbn. rewrite Htc. subst wa. cbn. rewrite <- !app_assoc. reflexivity.
  - apply Forall_app. split; [exact Hfc|].
    repeat constructor; apply basic_event_not_shed; reflexivity.
  - apply in_or_app. right. left. reflexivity.
  - cbn. rewrite Hs. reflexivity.
  - reflexivity.
Qed.

Lemma shed_streams_paced cfg E camera_ids : forall count w,
  0 <= count ->
  exists w' n tr,
    shed_streams cfg E camera_ids count w = (Ok tt, w') /\
    trace (os w') = (trace (os w) ++ tr)%list /\
    paced n tr /\ (Z.of_nat n <= Z.max 0 (5 - count)) /\
    (n <= List.length camera_ids)%nat /\
    streaming w' = fold_left (fun s id => cleaned id s) (firstn n camera_ids) (streaming w) /\
    match camera_ids with
    | [] => n = 0%nat /\ w' = w
    | _ :: _ => if count >=? 5 then n = 0%nat /\ w' = w else (1 <= n)%nat
    end.
Proof.
  induction camera_ids as [|id rest IH]; intros count w Hcount; cbn [shed_streams].
  - exists w, 0%nat, []. split; [reflexivity|]. split; [symmetry; apply app_nil_r|].
    split; [constructor; constructor|]. split; [lia|]. split; [reflexivity|].
    split; [reflexivity | split; reflexivity].
  - destruct (count >=? 5) eqn:Hge.
    + exists w, 0%nat, []. split; [reflexivity|]. split; [symmetry; apply app_nil_r|].
      split; [constructor; constructor|]. split; [lia|]. split; [cbn; lia|].
      split; [reflexivity | split; reflexivity].
    + assert (count < 5) by (rewrite Z.geb_leb in Hge; apply Z.leb_gt in Hge; exact Hge).
      destruct (tear_down_and_resample_run cfg E id w)
        as (c & w1 & tr1 & Hrun & Htr & Hf & Hin & Hst & _).
      rewrite (bind_run _ _ _ _ _ Hrun).
      destruct (Qltb c 70).
      * exists w1, 1%nat, (EvLog (temporarily_stopping id) :: tr1 ++ [])%list.
        split; [reflexivity|]. split; [rewrite app_nil_r; exact Htr|].
        split; [constructor; [exact Hf | exact Hin | constructor; constructor]|].
        split; [lia|]. split; [cbn; lia|]. split; [exact Hst | lia].
      * destruct (IH (count + 1) w1 ltac:(lia))
          as (w' & n & tr & Hrun' & Htr' & Hp & Hn & Hlen & Hst' & _).
        exists w', (S n), (EvLog (temporarily_stopping id) :: tr1 ++ tr)%list.
        split; [exact Hrun'|]. split.
        -- rewrite Htr', Htr, <- app_assoc. reflexivity.
        -- split; [constructor; assumption|]. split; [lia|]. split; [cbn; lia|].
           split; [|lia]. cbn [firstn fold_left]. rewrite Hst', Hst. reflexivity.
Qed.

(** The session table after the resources of some cameras are cleaned up *)
Lemma sessions_after_cleaned ids : forall s,
  streaming_processes (fold_left (fun s id => cleaned id s) ids s)
  = without_keys ids (streaming_processes s).
Proof.
  intros s. rewrite <- del_all_as_without. revert s.
  induction ids as [|id ids IH]; intros s; cbn [fold_left]; [reflexivity|].
  rewrite IH. reflexivity.
Qed.

Lemma try_except_ok_run {S A} (m : M S A) h s a s' :
  m s = (Ok a, s') -> try_except m h s = (Ok a, s').
Proof. intros H. unfold try_except. rewrite H. reflexivity. Qed.

(** C4, counterexample: with the CPU at 95 % and the memory at 50 %, and
    six sessions, one pass of the resource monitor tears down five
    sessions although the memory is below 90 %. *)
Lemma sheds_with_low_memory :
  memory_percent busy_cpu_env 1001%Q = 50%Q /\
  PyDict.keys (streaming_processes (streaming six_streams_world))
  = ["cam1"; "cam2"; "cam3"; "cam4"; "cam5"; "cam6"] /\
  PyDict.keys
    (streaming_processes
       (streaming (snd (monitor_system_resources_pass default_config busy_cpu_env
                          six_streams_world))))
  = ["cam6"].
Proof. repeat split; vm_compute; reflexivity. Qed.

(** C4, amended: in one pass the resource monitor tears down streaming
    sessions only when the sampled CPU or the sampled memory exceeds 90 %
    and more than five sessions exist (otherwise it tears down none and
    the session map is unchanged); in such a pass it tears down the first
    n sessions of the table, with n at least one and at most five: these
    sessions are gone from the table afterwards and the others are as
    they were; every tear-down is followed by a pause of 5 s before the
    next one, and the loop ends as soon as the CPU sampled again after a
    tear-down is below 70 %. *)
Theorem resource_monitor_shedding cfg E w :
  let cpu := cpu_percent E (now (os w) + 1)%Q in
  let mem := memory_percent E (now (os w) + 1)%Q in
  let overloaded := (Qgtb cpu 90 || Qgtb mem 90)%bool in
  let sessions := streaming_processes (streaming w) in
  let crowded := PyDict.len sessions >? 5 in
  (exists w' n tr,
     monitor_system_resources_pass cfg E w = (Ok tt, w') /\
     trace (os w') = (trace (os w) ++ EvSleep 1%Q :: tr)%list /\
     paced n tr /\ (n <= 5)%nat /\
     (if (overloaded && crowded)%bool then
        (1 <= n)%nat /\
        List.length (firstn n (PyDict.keys sessions)) = n /\
        streaming_processes (streaming w')
        = without_keys (firstn n (PyDict.keys sessions)) sessions
      else n = 0%nat /\
           streaming_processes (streaming w') = sessions))
  /\
  (forall camera_id rest count x,
     exists c x1,
       tear_down_and_resample cfg E camera_id x = (Ok c, x1) /\
       c = cpu_percent E (now (os x1)) /\
       streaming_processes (streaming x1)
       = PyDict.del camera_id (streaming_processes (streaming x)) /\
       (if ((count <? 5) && Qltb c 70)%bool
        then shed_streams cfg E (camera_id :: rest) count x = (Ok tt, x1)
        else True)).
Proof.
  intros cpu mem overloaded sessions crowded. split.
  - unfold monitor_system_resources_pass.
    rewrite (try_except_bind_run _ _ _ _ _ _ (in_os_cpu_sample_run E w)).
    fold cpu. set (w1 := set_os _ w).
    rewrite (try_except_bind_run _ _ _ _ _ _
               (eq_refl : in_os (gets (fun o => memory_percent E (now o))) w1
                          = (Ok mem, set_os (os w1) w1))).
    set (w2 := set_os (os w1) w1).
    rewrite (try_except_bind_run _ _ _ _ _ _
               (eq_refl : upd_st (set_system_resources (cpu, mem)) w2
                          = (Ok tt, set_streaming (set_system_resources (cpu, mem)) w2))).
    set (w3 := set_streaming _ w2).
    assert (Htr3 : trace (os w3) = (trace (os w) ++ [EvSleep 1%Q])%list) by reflexivity.
    assert (Hsp3 : streaming_processes (streaming w3) = sessions) by reflexivity.
    fold overloaded.
    assert (Hshed : exists w4 n tr,
              when overloaded
                (bind (st streaming_processes) (fun sp =>
                   when (PyDict.len sp >? 5) (shed_streams cfg E (PyDict.keys sp) 0))) w3
              = (Ok tt, w4) /\
              trace (os w4) = (trace (os w3) ++ tr)%list /\
              paced n tr /\ (n <= 5)%nat /\
              (if (overloaded && crowded)%bool then
                 (1 <= n)%nat /\
                 List.length (firstn n (PyDict.keys sessions)) = n /\
                 streaming_processes (streaming w4)
                 = without_keys (firstn n (PyDict.keys sessions)) sessions
               else n = 0%nat /\
                    streaming_processes (streaming w4) = sessions)).
    { destruct overloaded; cbn [when andb].
      - unfold st. rewrite bind_gets_run, Hsp3. fold crowded.
        destruct crowded eqn:Hcr; cbn [when].
        + destruct (shed_streams_paced cfg E (PyDict.keys sessions) 0 w3 ltac:(lia))
            as (w4 & n & tr & Hrun & Htr & Hp & Hn & Hlen & Hst & Hlow).
          exists w4, n, tr. split; [exact Hrun|]. split; [exact Htr|].
          split; [exact Hp|]. split; [lia|]. split; [|split].
          * destruct (PyDict.keys sessions) eqn:Hk; [|exact Hlow].
            exfalso. subst crowded. unfold PyDict.len in Hcr.
            destruct sessions; [discriminate Hcr | discriminate Hk].
          * apply firstn_length_le. exact Hlen.
          * rewrite Hst, sessions_after_cleaned. rewrite Hsp3. reflexivity.
        + exists w3, 0%nat, []. split; [reflexivity|].
          split; [symmetry; apply app_nil_r|]. split; [constructor; constructor|].
          split; [lia | split; [reflexivity | exact Hsp3]].
      - exists w3, 0%nat, []. split; [reflexivity|].
        split; [symmetry; apply app_nil_r|]. split; [constructor; constructor|].
        split; [lia | split; [reflexivity | exact Hsp3]]. }
    destruct Hshed as (w4 & n & tr & Hrun & Htr & Hp & Hn & Hcond).
    rewrite (try_except_bind_run _ _ _ _ _ _ Hrun).
    rewrite (try_except_ok_run _ _ _ _ _ (in_os_sleep_run E _ w4)).
    eexists _, n, (tr ++ [EvSleep (inject_Z (RESOURCE_CHECK_INTERVAL cfg))])%list.
    split; [reflexivity|]. split; [|split; [|split]].
    + cbn. rewrite Htr, Htr3, <- !app_assoc. reflexivity.
    + apply paced_app_tail; [exact Hp|].
      repeat constructor. apply basic_event_not_shed. reflexivity.
    + exact Hn.
    + exact Hcond.
  - intros camera_id rest count x.
    destruct (tear_down_and_resample_run cfg E camera_id x)
      as (c & x1 & tr1 & Hrun & _ & _ & _ & Hst & Hc).
    exists c, x1. split; [exact Hrun|]. split; [exact Hc|].
    split; [rewrite Hst; reflexivity|].
    destruct (count <? 5) eqn:Hlt; cbn [andb]; [|exact I].
    destruct (Qltb c 70) eqn:Hcalm; [|exact I].
    cbn [shed_streams].
    replace (count >=? 5) with false
      by (symmetry; rewrite Z.geb_leb; apply Z.leb_gt; apply Z.ltb_lt; exact Hlt).
    rewrite (bind_run _ _ _ _ _ Hrun), Hcalm. reflexivity.
Qed.

(** ** Clean-up of old segments *)



Lemma for_each_nil_run {S A} (body : A -> M S unit) s :
  for_each [] body s = (Ok tt, s).
Proof. reflexivity. Qed.

Lemma for_each_cons_run {S A} (x : A) xs (body : A -> M S unit) s s' :
  body x s = (Ok tt, s') -> for_each (x :: xs) body s = for_each xs body s'.
Proof.
  intros H. unfold for_each. cbn [for_loop]. unfold bind, ret. rewrite H. reflexivity.
Qed.

Lemma file_get_after_del p dir name f :
  file_get p (fs_update_dir dir (PyDict.del name) f)
  = if (String.eqb (p_dir p) dir && String.eqb (p_name p) name)%bool then None
    else file_get p f.
Proof.
  unfold file_get, fs_update_dir.
  destruct (String.eqb_spec (p_dir p) dir) as [-> | Hd]; cbn [andb].
  - destruct (PyDict.get dir f) as [d|] eqn:Hg.
    + rewrite get_set_same. cbn [with_files d_files].
      destruct (String.eqb_spec (p_name p) name) as [-> | Hn].
      * apply get_del_same.
      * apply get_del_other. congruence.
    + rewrite Hg. destruct (String.eqb (p_name p) name); reflexivity.
  - destruct (PyDict.get dir f) as [d|] eqn:Hg; [|reflexivity].
    rewrite get_set_other by congruence. reflexivity.
Qed.

(** One turn of the loop over the segments: the file is removed when it
    is in no playlist line, older than 180 s and not locked. *)
Lemma sweep_one_run dir active ts_file o :
  exists o',
    (if negb (mem_str ts_file active) then
       try_except
         (let ts_file_path := {| p_dir := dir; p_name := ts_file |} in
          file_mtime <- getmtime ts_file_path ;;
          t <- time_time ;;
          when (Qgtb (t - file_mtime) 180) (remove ts_file_path))
         (fun _ => ret tt)
     else ret tt) o = (Ok tt, o') /\
    now o' = now o /\ procs o' = procs o /\
    forall p,
      file_get p (fs o')
      = match file_get p (fs o) with
        | Some f =>
            if (String.eqb (p_dir p) dir && String.eqb (p_name p) ts_file
                && negb (mem_str (p_name p) active)
                && Qgtb (now o - f_mtime f) 180 && negb (f_locked f))%bool
            then None else Some f
        | None => None
        end.
Proof.
  set (q := {| p_dir := dir; p_name := ts_file |}).
  assert (Hsame : forall p : Path,
            (String.eqb (p_dir p) dir && String.eqb (p_name p) ts_file)%bool = true ->
            p = q).
  { intros [d n] H. cbn in H. apply andb_prop in H as [Hd Hn].
    apply String.eqb_eq in Hd, Hn. subst. reflexivity. }
  assert (Hunchanged :
            (forall f, file_get q (fs o) = Some f ->
                       (negb (mem_str ts_file active) && Qgtb (now o - f_mtime f) 180
                        && negb (f_locked f))%bool = false) ->
            forall p,
              file_get p (fs o)
              = match file_get p (fs o) with
                | Some f =>
                    if (String.eqb (p_dir p) dir && String.eqb (p_name p) ts_file
                        && negb (mem_str (p_name p) active)
                        && Qgtb (now o - f_mtime f) 180 && negb (f_locked f))%bool
                    then None else Some f
                | None => None
                end).
  { intros Hb p. destruct (file_get p (fs o)) as [f|] eqn:Hp; [|reflexivity].
    destruct (String.eqb (p_dir p) dir && String.eqb (p_name p) ts_file)%bool eqn:Hq;
      [|reflexivity].
    apply Hsame in Hq. subst p. cbn [p_name q andb].
    specialize (Hb f Hp).
    destruct (mem_str ts_file active), (Qgtb (now o - f_mtime f) 180), (f_locked f);
      cbn in Hb |- *; solve [reflexivity | discriminate Hb]. }
  destruct (mem_str ts_file active) eqn:Hact; cbn [negb].
  { exists o. repeat (split; [reflexivity|]). apply Hunchanged. intros; reflexivity. }
  unfold try_except, getmtime, stat, time_time. unfold bind at 1.
  destruct (file_get q (fs o)) as [f|] eqn:Hq.
  2:{ exists o. repeat (split; [reflexivity|]). apply Hunchanged. intros; discriminate. }
  rewrite bind_gets_run. destruct (Qgtb (now o - f_mtime f) 180) eqn:Hold; cbn [when].
  2:{ exists o. repeat (split; [reflexivity|]). apply Hunchanged.
      intros f' Hf'. injection Hf' as <-. rewrite Hold. reflexivity. }
  unfold remove. rewrite Hq. destruct (f_locked f) eqn:Hlock.
  { exists o. repeat (split; [reflexivity|]). apply Hunchanged.
    intros f' Hf'. injection Hf' as <-. rewrite Hlock, andb_false_r. reflexivity. }
  eexists. split; [reflexivity|]. split; [reflexivity|]. split; [reflexivity|].
  intros p. cbn [fs log_event set_fs]. rewrite file_get_after_del. cbn [p_dir p_name q].
  destruct (String.eqb (p_dir p) dir && String.eqb (p_name p) ts_file)%bool eqn:Hpq.
  - apply Hsame in Hpq. subst p. rewrite Hq. cbn [p_name q].
    rewrite Hact, Hold, Hlock. reflexivity.
  - cbn [andb]. destruct (file_get p (fs o)); reflexivity.
Qed.

Lemma mem_str_cons x y l : mem_str x (y :: l) = (String.eqb x y || mem_str x l)%bool.
Proof. reflexivity. Qed.

(** The loop over the segments *)
Lemma sweep_run dir active l : forall o,
  exists o',
    for_each l (fun ts_file =>
      if negb (mem_str ts_file active) then
        try_except
          (let ts_file_path := {| p_dir := dir; p_name := ts_file |} in
           file_mtime <- getmtime ts_file_path ;;
           t <- time_time ;;
           when (Qgtb (t - file_mtime) 180) (remove ts_file_path))
          (fun _ => ret tt)
      else ret tt) o = (Ok tt, o') /\
    now o' = now o /\ procs o' = procs o /\
    forall p,
      file_get p (fs o')
      = match file_get p (fs o) with
        | Some f =>
            if (String.eqb (p_dir p) dir && mem_str (p_name p) l
                && negb (mem_str (p_name p) active)
                && Qgtb (now o - f_mtime f) 180 && negb (f_locked f))%bool
            then None else Some f
        | None => None
        end.
Proof.
  induction l as [|name l IH]; intros o.
  - exists o. repeat (split; [reflexivity|]). intros p.
    destruct (file_get p (fs o)); [|reflexivity].
    cbn [mem_str existsb]. rewrite andb_false_r. reflexivity.
  - destruct (sweep_one_run dir active name o) as (o1 & Hrun1 & Hnow1 & Hprocs1 & Hfs1).
    destruct (IH o1) as (o' & Hrun & Hnow & Hprocs & Hfs).
    exists o'. split; [|split; [|split]].
    + etransitivity; [apply for_each_cons_run; exact Hrun1 | exact Hrun].
    + congruence.
    + congruence.
    + intros p. rewrite Hfs, Hfs1, Hnow1, mem_str_cons.
      destruct (file_get p (fs o)) as [f|]; [|reflexivity].
      destruct (String.eqb (p_dir p) dir), (String.eqb (p_name p) name),
        (mem_str (p_name p) l), (mem_str (p_name p) active),
        (Qgtb (now o - f_mtime f) 180) eqn:Hold, (f_locked f) eqn:Hlock;
        cbn; rewrite ?Hold, ?Hlock; reflexivity.
Qed.

Lemma mem_str_filter (g : string -> bool) x l :
  mem_str x (filter g l) = (g x && mem_str x l)%bool.
Proof.
  unfold mem_str. induction l as [|y l IH]; cbn; [rewrite andb_false_r; reflexivity|].
  destruct (g y) eqn:Hy; cbn; rewrite IH.
  - destruct (String.eqb_spec x y) as [-> | Hne]; cbn; [rewrite Hy|]; reflexivity.
  - destruct (String.eqb_spec x y) as [-> | Hne]; cbn; [rewrite Hy|]; reflexivity.
Qed.

(** What one clean-up without force does to the files, when the playlist
    of the camera exists and can be read: a file is removed if and only
    if it is in the directory of the camera, ends in .ts, is in no line of
    the playlist, is older than 180 s and is not locked. *)
Lemma cleanup_old_segments_run cfg camera_id o pl :
  file_get (m3u8_path_of cfg camera_id) (fs o) = Some pl ->
  f_unreadable pl = false ->
  exists o',
    cleanup_old_segments cfg camera_id false o = (Ok tt, o') /\
    now o' = now o /\ procs o' = procs o /\
    forall p,
      file_get p (fs o')
      = match file_get p (fs o) with
        | Some f =>
            if (String.eqb (p_dir p) (camera_tmp_dir_of cfg camera_id)
                && stale_segment (active_segments_of (f_content pl)) (now o) (p_name p) f
                && negb (f_locked f))%bool
            then None else Some f
        | None => None
        end.
Proof.
  intros Hpl Hread.
  set (dir := camera_tmp_dir_of cfg camera_id).
  assert (Hdir : exists d, PyDict.get dir (fs o) = Some d).
  { unfold file_get in Hpl. cbn [m3u8_path_of p_dir] in Hpl. fold dir in Hpl.
    destruct (PyDict.get dir (fs o)) as [d|]; [exists d; reflexivity | discriminate Hpl]. }
  destruct Hdir as [d Hd].
  destruct (sweep_run dir (active_segments_of (f_content pl))
              (filter is_ts (PyDict.keys (d_files d))) o)
    as (o' & Hrun & Hnow & Hprocs & Hfs).
  exists o'. split; [|split; [exact Hnow | split; [exact Hprocs|]]].
  - unfold cleanup_old_segments. apply try_except_ok_run. fold dir.
    unfold os_path_exists. rewrite bind_gets_run.
    unfold PyDict.contains. rewrite Hd. cbn [orb negb].
    unfold listdir at 1. unfold bind at 1. rewrite Hd.
    unfold path_exists. rewrite bind_gets_run, Hpl. cbn [is_some negb andb].
    assert (Hact : try_except
                     (content <- read_text (m3u8_path_of cfg camera_id) ;;
                      ret (Some (active_segments_of content)))
                     (fun _ => ret None) o
                   = (Ok (Some (active_segments_of (f_content pl))), o)).
    { unfold try_except, bind, read_text. rewrite Hpl, Hread. reflexivity. }
    rewrite (bind_run _ _ _ _ _ Hact). exact Hrun.
  - intros p. rewrite Hfs. destruct (file_get p (fs o)) as [f|] eqn:Hp; [|reflexivity].
    unfold stale_segment. rewrite mem_str_filter.
    destruct (String.eqb_spec (p_dir p) dir) as [Hpd | Hpd]; [|reflexivity].
    assert (Hin : mem_str (p_name p) (PyDict.keys (d_files d)) = true).
    { rewrite <- contains_as_mem. unfold PyDict.contains.
      unfold file_get in Hp. rewrite Hpd, Hd in Hp. rewrite Hp. reflexivity. }
    rewrite Hin, andb_true_r. reflexivity.
Qed.




(** The clean-up of [locked_segments_os] removes segment 0 and nothing
    else. *)
Example cleanup_of_locked_segments_os :
  map (fun kv => (fst kv, PyDict.keys (d_files (snd kv))))
      (fs (snd (cleanup_old_segments default_config "cam1" false locked_segments_os)))
  = [(camera_tmp_dir_of default_config "cam1",
      ["cam1.m3u8"; "cam1-00001.ts"; "cam1-00002.ts"; "cam1-00003.ts"])].
Proof. vm_compute. reflexivity. Qed.

(** The clean-up of [segments_os] removes segment 1 and nothing else. *)
Example cleanup_of_segments_os :
  map (fun kv => (fst kv, PyDict.keys (d_files (snd kv))))
      (fs (snd (cleanup_old_segments default_config "cam1" false segments_os)))
  = [(camera_tmp_dir_of default_config "cam1",
      ["cam1.m3u8"; "cam1-00002.ts"; "cam1-00003.ts"])].
Proof. vm_compute. reflexivity. Qed.

(** ** Stopping a recording *)



(** C6, counterexample: a stop that returns True can leave a recording
    smaller than 1 MiB.  A file of 512000 bytes whose removal fails stays
    as it is, and a file of 2 MiB whose remux writes 900000 bytes is
    replaced by that output. *)
Lemma stop_recording_leaves_a_small_file :
  (fst (stop_recording calm_env "cam1" (recording_world (recorded_file 512000 true)))
   = Ok true /\
   size_left (stop_recording calm_env "cam1" (recording_world (recorded_file 512000 true)))
   = Some 512000) /\
  (fst (stop_recording small_remux_env "cam1" (recording_world (recorded_file 2097152 false)))
   = Ok true /\
   size_left (stop_recording small_remux_env "cam1"
                (recording_world (recorded_file 2097152 false)))
   = Some 900000) /\
  512000 < MiB /\ 900000 < MiB.
Proof. repeat split; vm_compute; reflexivity. Qed.

Lemma in_os_run {A} (m : M OS A) w r o' :
  m (os w) = (r, o') -> in_os m w = (r, set_os o' w).
Proof. intros H. unfold in_os, lift_state. rewrite H. reflexivity. Qed.

Lemma try_except_raise_run {S A} (m : M S A) h s e s' :
  m s = (Raise e, s') -> try_except m h s = h e s'.
Proof. intros H. unfold try_except. rewrite H. reflexivity. Qed.

Lemma finalize_recording_total E file_path : total (finalize_recording E file_path).
Proof. unfold finalize_recording. apply total_try_except. intros e. apply total_ret. Qed.

(** C6, amended: stop_recording pops the session and terminates the
    child; if the termination raises it returns False and touches no
    file; otherwise it returns True and disposes of the output file by the
    size measured then: no file, nothing is done; a file smaller than
    1 MiB (an empty one included) is removed, unless the removal fails,
    which leaves it as it is; a file of at least 1 MiB is handed to
    finalize, whose result is what is left on disk. *)
Theorem stop_recording_disposes_by_size E camera_id w info :
  PyDict.get camera_id (recording_processes (recording w)) = Some info ->
  exists r w',
    stop_recording E camera_id w = (Ok r, w') /\
    recording w' = popped camera_id (recording w) /\
    match terminate_process E (ri_process info) 10 (os w) with
    | (Raise _, o1) => r = false /\ os w' = o1
    | (Ok _, o1) =>
        r = true /\
        match file_get (ri_file_path info) (fs o1) with
        | None => os w' = o1
        | Some f =>
            if f_size f <? MiB then
              if f_locked f then os w' = o1
              else file_get (ri_file_path info) (fs (os w')) = None /\
                   trace (os w') = (trace o1 ++ [EvRemove (ri_file_path info)])%list
            else os w' = snd (finalize_recording E (ri_file_path info) o1)
        end
    end.
Proof.
  intros Hget.
  destruct (stop_recording_total E camera_id w) as (r & w' & Hrun).
  pose proof (stop_recording_pops E camera_id w) as (Hpop & _ & _).
  rewrite Hrun in Hpop. cbn [snd] in Hpop.
  exists r, w'. split; [exact Hrun|]. split; [exact Hpop|].
  revert Hrun. unfold stop_recording, rec, upd_rec.
  rewrite bind_gets_run, !bind_modify_run, Hget.
  set (w0 := set_recording _ (set_recording _ w)).
  change (os w) with (os w0).
  destruct (terminate_process E (ri_process info) 10 (os w0)) as [[[]|e] o1] eqn:Ht.
  2:{ rewrite (try_except_raise_run _ _ _ _ _ (bind_run_raise _ _ _ _ _ (in_os_run _ _ _ _ Ht))).
      intros H. injection H as <- <-. split; reflexivity. }
  rewrite (try_except_bind_run _ _ _ _ _ _ (in_os_run _ _ _ _ Ht)).
  set (w1 := set_os o1 w0).
  unfold path_exists at 1.
  rewrite (try_except_bind_run _ _ _ _ _ _
             (eq_refl : in_os (gets (fun o => is_some (file_get (ri_file_path info) (fs o)))) w1
                        = (Ok (is_some (file_get (ri_file_path info) (fs o1))),
                           set_os (os w1) w1))).
  set (w2 := set_os (os w1) w1).
  assert (Hthen : forall (d : M World unit) w3,
            d w2 = (Ok tt, w3) ->
            forall h,
              try_except
                (d ;;
                 modify (set_recording (set_recording_processes (PyDict.del camera_id))) ;;
                 modify (set_recording (set_recording_start_times (PyDict.del camera_id))) ;;
                 ret true) h w2 = (Ok r, w') ->
              r = true /\ os w' = os w3).
  { intros d w3 Hd h. rewrite (try_except_bind_run _ _ _ _ _ _ Hd).
    intros H. injection H as <- <-. split; reflexivity. }
  destruct (file_get (ri_file_path info) (fs o1)) as [f|] eqn:Hf; cbn [is_some].
  2:{ intros H. apply (Hthen _ w2 eq_refl) in H. exact H. }
  assert (Hsize : in_os (getsize (ri_file_path info)) w2 = (Ok (f_size f), set_os o1 w2)).
  { apply in_os_run. unfold getsize, stat. cbn [os w2 w1 set_os]. rewrite Hf. reflexivity. }
  set (w3 := set_os o1 w2) in Hsize.
  change (1024 * 1024) with MiB.
  destruct (f_size f <? MiB) eqn:Hsmall.
  - destruct (f_locked f) eqn:Hlock.
    + intros H. eapply Hthen in H.
      2:{ rewrite (bind_run _ _ _ _ _ Hsize), Hsmall.
          rewrite (try_except_raise_run _ _ _ PermissionError (set_os o1 w3));
            [reflexivity|].
          apply in_os_run. unfold remove. cbn [os w3 set_os]. rewrite Hf, Hlock.
          reflexivity. }
      exact H.
    + intros H. eapply Hthen in H.
      2:{ rewrite (bind_run _ _ _ _ _ Hsize), Hsmall.
          apply try_except_ok_run. apply in_os_run. unfold remove.
          cbn [os w3 set_os]. rewrite Hf, Hlock. reflexivity. }
      destruct H as [Hr Hos]. split; [exact Hr|]. rewrite Hos. cbn [os set_os].
      split; [|reflexivity].
      cbn [fs log_event set_fs]. rewrite file_get_after_del, !String.eqb_refl. reflexivity.
  - destruct (finalize_recording_total E (ri_file_path info) o1) as ([] & o2 & Hfin).
    intros H. eapply Hthen in H.
    2:{ rewrite (bind_run _ _ _ _ _ Hsize), Hsmall.
        replace (f_size f >? 0) with true
          by (symmetry; apply Z.gtb_lt; apply Z.ltb_ge in Hsmall; unfold MiB in Hsmall; lia).
        apply in_os_run. cbn [os w3 set_os]. exact Hfin. }
    rewrite Hfin. exact H.
Qed.

Lemma stop_recording_disposes_by_size_witness :
  exists r w',
    stop_recording calm_env "cam1" (recording_world (recorded_file 512000 false))
    = (Ok r, w') /\
    recording w'
    = popped "cam1" (recording (recording_world (recorded_file 512000 false))) /\
    match terminate_process calm_env (ri_process cam1_session) 10
            (os (recording_world (recorded_file 512000 false))) with
    | (Raise _, o1) => r = false /\ os w' = o1
    | (Ok _, o1) =>
        r = true /\
        match file_get (ri_file_path cam1_session) (fs o1) with
        | None => os w' = o1
        | Some f =>
            if f_size f <? MiB then
              if f_locked f then os w' = o1
              else file_get (ri_file_path cam1_session) (fs (os w')) = None /\
                   trace (os w') = (trace o1 ++ [EvRemove (ri_file_path cam1_session)])%list
            else os w' = snd (finalize_recording calm_env (ri_file_path cam1_session) o1)
        end
    end.
Proof.
  apply (stop_recording_disposes_by_size calm_env "cam1"
           (recording_world (recorded_file 512000 false)) cam1_session).
  reflexivity.
Defined.

(** A recording of 512000 bytes or of 0 bytes is gone after the stop; one of 2 MiB
    for which the remux writes nothing is kept as it was. *)
Example stop_recording_sizes :
  size_left (stop_recording calm_env "cam1" (recording_world (recorded_file 512000 false)))
  = None /\
  size_left (stop_recording calm_env "cam1" (recording_world (recorded_file 0 false)))
  = None /\
  size_left (stop_recording calm_env "cam1" (recording_world (recorded_file 2097152 false)))
  = Some 2097152.
Proof. repeat split; vm_compute; reflexivity. Qed.

(** ** A failed query of the free space *)



Lemma bind_ok_inv {S A B} (m : M S A) (k : A -> M S B) s b s' :
  bind m k s = (Ok b, s') ->
  exists a s1, m s = (Ok a, s1) /\ k a s1 = (Ok b, s').
Proof.
  unfold bind. destruct (m s) as [[a|e] s1]; [|discriminate].
  intros H. exists a, s1. split; [reflexivity | exact H].
Qed.



(** With every query of the free space failing, the free space of an
    existing path is reported as 1 GiB exactly. *)
Lemma get_free_space_of_failed_query E path o :
  (forall x, disk_free E (now o) x = None) ->
  PyDict.contains path (fs o) = true ->
  get_free_space E path o = (Ok GiB, o).
Proof.
  intros Hfail Hex. unfold get_free_space, os_path_exists.
  assert (Hq : forall x, disk_usage_free E x o = (Raise (OSError "disk_usage failed"), o)).
  { intros x. unfold disk_usage_free. rewrite Hfail. reflexivity. }
  unfold try_except at 1. rewrite bind_gets_run, Hex. cbn [orb negb].
  rewrite bind_ret_run, bind_gets_run, Hex. cbn [orb].
  destruct (os_name_nt E); [|rewrite Hq; reflexivity].
  destruct (negb _); [|rewrite Hq; reflexivity].
  unfold try_except. rewrite !Hq. reflexivity.
Qed.





(** On the host whose free-space queries fail, the recorder of cam1 is
    started. *)
Example recording_starts_without_disk_usage :
  let r := start_recording default_config no_disk_usage_env "cam1" "rtsp://x/1" world0 in
  fst r = Ok true /\
  PyDict.keys (recording_processes (recording (snd r))) = ["cam1"].
Proof. vm_compute. split; reflexivity. Qed.

(** * Further properties of the code *)

(** ** ffmpeg_utils.py: killing the encoders *)

Lemma run_logs_the_command E argv o :
  trace (snd (run E argv o)) = (trace o ++ [EvRun argv])%list.
Proof.
  unfold run. destruct (ro_result (run_cmd E (now o) argv (fs o) (procs o))); reflexivity.
Qed.

(** X1: on Windows, [kill_ffmpeg_processes] called for one camera does
    what the call without arguments does: it runs taskkill on every
    ffmpeg.exe and nothing else.  (The selection by camera is not
    implemented.) *)
Theorem kill_for_one_camera_kills_all E camera_id o :
  os_name_nt E = true ->
  kill_ffmpeg_processes E [camera_id] [] o = kill_ffmpeg_processes E [] [] o /\
  kill_ffmpeg_processes E [] [("camera_id", camera_id)] o = kill_ffmpeg_processes E [] [] o /\
  trace (snd (kill_ffmpeg_processes E [camera_id] [] o))
  = (trace o ++ [EvRun taskkill_all])%list.
Proof.
  intros Hnt.
  assert (Hbody : forall c,
            kill_ffmpeg_processes_body E c VNone o
            = kill_ffmpeg_processes_body E VNone VNone o).
  { intros c. unfold kill_ffmpeg_processes_body. rewrite Hnt. cbn [truthy].
    destruct (truthy c); reflexivity. }
  split; [exact (Hbody camera_id)|]. split; [exact (Hbody camera_id)|].
  change (kill_ffmpeg_processes E [camera_id] [] o)
    with (kill_ffmpeg_processes_body E camera_id VNone o).
  rewrite Hbody. unfold kill_ffmpeg_processes_body. rewrite Hnt. cbn [truthy].
  pose proof (run_logs_the_command E taskkill_all o) as Hlog.
  cbv [try_except try_except_only bind ret raise].
  destruct (run E taskkill_all o) as [[r|e] o1]; cbn [snd] in Hlog; [exact Hlog|].
  destruct (is_CalledProcessError e); exact Hlog.
Qed.

Lemma kill_for_one_camera_kills_all_witness :
  kill_ffmpeg_processes calm_env [VStr "cam1"] [] empty_os
  = kill_ffmpeg_processes calm_env [] [] empty_os /\
  kill_ffmpeg_processes calm_env [] [("camera_id", VStr "cam1")] empty_os
  = kill_ffmpeg_processes calm_env [] [] empty_os /\
  trace (snd (kill_ffmpeg_processes calm_env [VStr "cam1"] [] empty_os))
  = (trace empty_os ++ [EvRun taskkill_all])%list.
Proof.
  apply (kill_for_one_camera_kills_all calm_env (VStr "cam1") empty_os). reflexivity.
Defined.

(** X2: a call of [kill_ffmpeg_processes] with a keyword that is neither
    camera_id nor pid raises TypeError before the body runs: no command is
    run and the state is as it was. *)
Theorem kill_with_unknown_keyword_raises E args k v kwargs o :
  existsb (String.eqb k) kill_ffmpeg_processes_params = false ->
  exists msg,
    kill_ffmpeg_processes E args ((k, v) :: kwargs) o = (Raise (TypeError msg), o).
Proof.
  intros Hk. unfold kill_ffmpeg_processes, bind_arguments.
  destruct (bind_positional kill_ffmpeg_processes_params args) as [bound|].
  - cbn [bind_keywords]. rewrite Hk. cbn [negb]. eexists. reflexivity.
  - eexists. reflexivity.
Qed.

Lemma kill_with_unknown_keyword_raises_witness :
  exists msg,
    kill_ffmpeg_processes calm_env [] [("process_type", VStr "recording")] empty_os
    = (Raise (TypeError msg), empty_os).
Proof.
  apply (kill_with_unknown_keyword_raises calm_env [] "process_type" (VStr "recording") []
           empty_os).
  reflexivity.
Defined.

(** ** fs_utils.py *)



Lemma file_get_after_set p dir name f0 f :
  file_get p (fs_update_dir dir (PyDict.set name f0) f)
  = if (String.eqb (p_dir p) dir && String.eqb (p_name p) name)%bool
    then (if PyDict.contains dir f then Some f0 else None)
    else file_get p f.
Proof.
  unfold file_get, fs_update_dir, PyDict.contains.
  destruct (String.eqb_spec (p_dir p) dir) as [-> | Hd]; cbn [andb].
  - destruct (PyDict.get dir f) as [d|] eqn:Hg.
    + rewrite get_set_same. cbn [with_files d_files].
      destruct (String.eqb_spec (p_name p) name) as [-> | Hn].
      * apply get_set_same.
      * apply get_set_other. congruence.
    + rewrite Hg. destruct (String.eqb (p_name p) name); reflexivity.
  - destruct (PyDict.get dir f) as [d|] eqn:Hg; [|reflexivity].
    rewrite get_set_other by congruence. reflexivity.
Qed.

Lemma file_get_in_new_directory p dir f :
  PyDict.contains dir f = false ->
  file_get p (PyDict.set dir {| d_files := PyDict.empty; d_writable := true |} f)
  = file_get p f.
Proof.
  unfold PyDict.contains, file_get. intros Hno.
  destruct (String.eqb_spec dir (p_dir p)) as [<- | Hd].
  - rewrite get_set_same. destruct (PyDict.get dir f); [discriminate | reflexivity].
  - rewrite get_set_other by exact Hd. reflexivity.
Qed.

(** The first part of [ensure_directory_exists]: the directory is there,
    or made, or the call raises; no file changes. *)
Lemma directory_made_sure E path o :
  let m := (ex <- os_path_exists path ;;
            if negb ex then makedirs E path
            else
              isdir <- dir_exists path ;;
              if negb isdir then raise (ValueError "Path exists but is not a directory")
              else ret tt) in
  (forall p, file_get p (fs (snd (m o))) = file_get p (fs o)) /\
  trace (snd (m o)) = trace o /\
  match fst (m o) with
  | Ok _ => PyDict.contains path (fs (snd (m o))) = true
  | Raise _ => snd (m o) = o
  end.
Proof.
  intros m. subst m. unfold os_path_exists, dir_exists. rewrite bind_gets_run.
  destruct (PyDict.contains path (fs o)) eqn:Hc; cbn [orb negb].
  - rewrite bind_gets_run, Hc. cbn. repeat split; try reflexivity. exact Hc.
  - destruct (is_some (file_get (split_path path) (fs o))); cbn [negb].
    + rewrite bind_gets_run, Hc. cbn. repeat split; reflexivity.
    + unfold makedirs. destruct (makedirs_raises E path); [cbn; repeat split; reflexivity|].
      rewrite Hc. cbn [fst snd fs set_fs trace]. split; [|split].
      * intros p. apply file_get_in_new_directory, Hc.
      * reflexivity.
      * unfold PyDict.contains. rewrite get_set_same. reflexivity.
Qed.

(** X3: when [ensure_directory_exists] returns, the directory exists and
    is writable, the probe file is not in it, and every other file, there
    and elsewhere, is as it was. *)
Theorem ensure_directory_exists_postcondition E path o o' :
  ensure_directory_exists E path o = (Ok tt, o') ->
  (exists d, PyDict.get path (fs o') = Some d /\ d_writable d = true) /\
  file_get {| p_dir := path; p_name := probe_file |} (fs o') = None /\
  (forall p, p <> {| p_dir := path; p_name := probe_file |} ->
             file_get p (fs o') = file_get p (fs o)).
Proof.
  unfold ensure_directory_exists. intros H.
  rewrite <- bind_assoc_run in H.
  apply bind_ok_inv in H as (u & o1 & H1 & H).
  pose proof (directory_made_sure E path o) as (Hfiles & _ & Hdir).
  cbv zeta in Hfiles, Hdir. rewrite H1 in Hfiles, Hdir. cbn [fst snd] in Hfiles, Hdir.
  apply bind_ok_inv in H as ([] & o2 & Hw & Hr).
  unfold write_text in Hw. cbn [p_dir p_name] in Hw.
  unfold PyDict.contains in Hdir.
  destruct (PyDict.get path (fs o1)) as [d|] eqn:Hd; [|discriminate].
  destruct (negb (d_writable d) || _)%bool eqn:Hbusy; [discriminate|].
  apply orb_false_iff in Hbusy as [Hwr _]. apply negb_false_iff in Hwr.
  injection Hw as <-.
  unfold remove in Hr. cbn [fs log_event set_fs] in Hr.
  rewrite file_get_after_set in Hr. cbn [p_dir p_name] in Hr.
  rewrite !String.eqb_refl in Hr. unfold PyDict.contains in Hr. rewrite Hd in Hr.
  cbn [andb new_file f_locked] in Hr. injection Hr as <-.
  cbn [fs log_event set_fs p_dir p_name]. split; [|split].
  - exists (with_files (PyDict.del probe_file)
              (with_files (PyDict.set probe_file (new_file "test" (now o1))) d)).
    split; [|exact Hwr].
    unfold fs_update_dir at 1.
    assert (Hs : PyDict.get path
                   (fs_update_dir path
                      (PyDict.set probe_file (new_file "test" (now o1))) (fs o1))
                 = Some (with_files (PyDict.set probe_file (new_file "test" (now o1))) d)).
    { unfold fs_update_dir. rewrite Hd. apply get_set_same. }
    rewrite Hs. apply get_set_same.
  - rewrite file_get_after_del. cbn [p_dir p_name]. rewrite !String.eqb_refl. reflexivity.
  - intros p Hp. rewrite file_get_after_del, file_get_after_set.
    destruct (String.eqb (p_dir p) path && String.eqb (p_name p) probe_file)%bool eqn:He.
    + exfalso. apply Hp. apply andb_prop in He as [Ha Hb].
      apply String.eqb_eq in Ha, Hb. destruct p; cbn in Ha, Hb. subst. reflexivity.
    + apply Hfiles.
Qed.

Lemma ensure_directory_exists_postcondition_witness :
  (exists d, PyDict.get "D:\rec"
               (fs (snd (ensure_directory_exists calm_env "D:\rec" empty_os))) = Some d
             /\ d_writable d = true) /\
  file_get {| p_dir := "D:\rec"; p_name := probe_file |}
    (fs (snd (ensure_directory_exists calm_env "D:\rec" empty_os))) = None /\
  (forall p, p <> {| p_dir := "D:\rec"; p_name := probe_file |} ->
             file_get p (fs (snd (ensure_directory_exists calm_env "D:\rec" empty_os)))
             = file_get p (fs empty_os)).
Proof.
  apply (ensure_directory_exists_postcondition calm_env "D:\rec" empty_os).
  vm_compute. reflexivity.
Defined.




(** X5: for a path that exists, [get_free_space] never raises and changes
    nothing; it answers with the free space of the drive of the path (on
    Windows), with that of the path itself when there is no drive or the
    query on the drive fails, and with 1 GiB when that fails too. *)
Theorem get_free_space_of_existing_path E path o :
  path_is_there path o = true ->
  get_free_space E path o = (Ok (free_space_answer E path o), o).
Proof.
  unfold path_is_there. intros Hex.
  unfold get_free_space, os_path_exists, free_space_answer.
  unfold try_except at 1. rewrite bind_gets_run, Hex. cbn [negb].
  rewrite bind_ret_run, bind_gets_run, Hex.
  unfold disk_usage_free, try_except.
  destruct (os_name_nt E); cbn [andb].
  - destruct (negb _).
    + destruct (disk_free E (now o) _); [reflexivity|].
      destruct (disk_free E (now o) path); reflexivity.
    + destruct (disk_free E (now o) path); reflexivity.
  - destruct (disk_free E (now o) path); reflexivity.
Qed.

Lemma get_free_space_of_existing_path_witness :
  get_free_space calm_env "D:\ro" read_only_os
  = (Ok (free_space_answer calm_env "D:\ro" read_only_os), read_only_os).
Proof.
  apply (get_free_space_of_existing_path calm_env "D:\ro" read_only_os).
  reflexivity.
Defined.

(** X6: for a path that does not exist, [get_free_space] answers as for
    its parent directory when that exists, else as for the current
    directory when that exists, and with 0, asking nothing, when none of
    the three exists. *)
Theorem get_free_space_of_missing_path E path o :
  path_is_there path o = false ->
  get_free_space E path o
  = if path_is_there (OsPath.dirname path) o then
      get_free_space E (OsPath.dirname path) o
    else if path_is_there (getcwd E) o then get_free_space E (getcwd E) o
    else (Ok 0, o).
Proof.
  unfold path_is_there. intros Hex.
  unfold get_free_space at 1. unfold os_path_exists.
  unfold try_except at 1. rewrite bind_gets_run, Hex. cbn [negb].
  rewrite bind_assoc_run, bind_gets_run.
  destruct (PyDict.contains (OsPath.dirname path) (fs o)
            || is_some (file_get (split_path (OsPath.dirname path)) (fs o)))%bool eqn:Hp.
  - rewrite bind_ret_run, bind_gets_run, Hp.
    unfold get_free_space, os_path_exists. unfold try_except at 2.
    rewrite bind_gets_run, Hp. cbn [negb]. rewrite bind_ret_run, bind_gets_run, Hp.
    reflexivity.
  - rewrite bind_ret_run, bind_gets_run.
    destruct (PyDict.contains (getcwd E) (fs o)
              || is_some (file_get (split_path (getcwd E)) (fs o)))%bool eqn:Hc.
    + unfold get_free_space, os_path_exists. unfold try_except at 2.
      rewrite bind_gets_run, Hc. cbn [negb]. rewrite bind_ret_run, bind_gets_run, Hc.
      reflexivity.
    + reflexivity.
Qed.

Lemma get_free_space_of_missing_path_witness :
  get_free_space calm_env "D:\ro\cam9" read_only_os
  = if path_is_there (OsPath.dirname "D:\ro\cam9") read_only_os then
      get_free_space calm_env (OsPath.dirname "D:\ro\cam9") read_only_os
    else if path_is_there (getcwd calm_env) read_only_os
         then get_free_space calm_env (getcwd calm_env) read_only_os
    else (Ok 0, read_only_os).
Proof.
  apply (get_free_space_of_missing_path calm_env "D:\ro\cam9" read_only_os).
  reflexivity.
Defined.

(** ** streaming.py: the clean-up of segments in every state *)



Lemma files_without_nothing o p : files_without (fun _ _ => false) o p = file_get p (fs o).
Proof. unfold files_without. destruct (file_get p (fs o)); reflexivity. Qed.

(** Without a playlist that can be read, the clean-up without force is a
    no-op. *)
Lemma cleanup_old_segments_without_playlist cfg camera_id o :
  match file_get (m3u8_path_of cfg camera_id) (fs o) with
  | Some pl => f_unreadable pl = true
  | None => True
  end ->
  cleanup_old_segments cfg camera_id false o = (Ok tt, o).
Proof.
  intros H. unfold cleanup_old_segments.
  set (dir := camera_tmp_dir_of cfg camera_id).
  destruct (file_get (m3u8_path_of cfg camera_id) (fs o)) as [pl|] eqn:Hpl.
  - assert (Hd : exists d, PyDict.get dir (fs o) = Some d).
    { unfold file_get in Hpl. cbn [m3u8_path_of p_dir] in Hpl. fold dir in Hpl.
      destruct (PyDict.get dir (fs o)) as [d|]; [exists d; reflexivity | discriminate]. }
    destruct Hd as [d Hd].
    apply try_except_ok_run.
    unfold os_path_exists. rewrite bind_gets_run.
    unfold PyDict.contains. rewrite Hd. cbn [orb negb].
    unfold listdir at 1. unfold bind at 1. rewrite Hd.
    unfold path_exists. rewrite bind_gets_run, Hpl. cbn [is_some negb andb].
    assert (Hact : try_except
                     (content <- read_text (m3u8_path_of cfg camera_id) ;;
                      ret (Some (active_segments_of content)))
                     (fun _ => ret None) o
                   = (Ok None, o)).
    { unfold try_except, bind, read_text. rewrite Hpl, H. reflexivity. }
    rewrite (bind_run _ _ _ _ _ Hact). reflexivity.
  - unfold try_except, os_path_exists. rewrite bind_gets_run.
    destruct (negb _); [reflexivity|].
    unfold listdir at 1. unfold bind at 1.
    destruct (PyDict.get dir (fs o)) as [d|]; [|reflexivity].
    unfold path_exists. rewrite bind_gets_run, Hpl. cbn [is_some negb andb].
    destruct (filter is_ts (PyDict.keys (d_files d))) as [|x l]; reflexivity.
Qed.

(** The clean-up without force, in every state: it returns, leaves the
    clock and the processes alone and removes the removable files. *)
Lemma cleanup_old_segments_effect cfg camera_id o :
  exists o',
    cleanup_old_segments cfg camera_id false o = (Ok tt, o') /\
    now o' = now o /\ procs o' = procs o /\
    forall p, file_get p (fs o') = files_without (removable cfg camera_id o) o p.
Proof.
  unfold files_without.
  destruct (file_get (m3u8_path_of cfg camera_id) (fs o)) as [pl|] eqn:Hpl.
  - destruct (f_unreadable pl) eqn:Hread.
    + exists o. split; [|split; [reflexivity | split; [reflexivity|]]].
      * apply cleanup_old_segments_without_playlist. rewrite Hpl. exact Hread.
      * intros p. unfold removable. rewrite Hpl, Hread. cbn [negb andb].
        destruct (file_get p (fs o)); reflexivity.
    + destruct (cleanup_old_segments_run cfg camera_id o pl Hpl Hread)
        as (o' & Hrun & Hnow & Hprocs & Hfs).
      exists o'. split; [exact Hrun|]. split; [exact Hnow|]. split; [exact Hprocs|].
      intros p. rewrite Hfs. unfold removable. rewrite Hpl, Hread. cbn [negb andb].
      reflexivity.
  - exists o. split; [|split; [reflexivity | split; [reflexivity|]]].
    + apply cleanup_old_segments_without_playlist. rewrite Hpl. exact I.
    + intros p. unfold removable. rewrite Hpl. destruct (file_get p (fs o)); reflexivity.
Qed.

(** X7: without force, [cleanup_old_segments] removes nothing when the
    playlist of the camera is missing or cannot be read, whatever
    segments are in the directory: it returns with the state as it was. *)
Theorem cleanup_old_segments_needs_the_playlist cfg camera_id o :
  match file_get (m3u8_path_of cfg camera_id) (fs o) with
  | Some pl => f_unreadable pl = true
  | None => True
  end ->
  cleanup_old_segments cfg camera_id false o = (Ok tt, o).
Proof. apply cleanup_old_segments_without_playlist. Qed.

Lemma cleanup_old_segments_needs_the_playlist_witness :
  cleanup_old_segments default_config "cam1" false orphan_segments_os
  = (Ok tt, orphan_segments_os).
Proof.
  apply (cleanup_old_segments_needs_the_playlist default_config "cam1" orphan_segments_os).
  vm_compute. exact I.
Defined.

Lemma chars_app a b : PyStr.chars (a ++ b) = (PyStr.chars a ++ PyStr.chars b)%list.
Proof.
  unfold PyStr.chars. induction a as [|c a IH]; cbn; [reflexivity | rewrite IH; reflexivity].
Qed.

Lemma playlist_is_no_segment camera_id : is_ts (camera_id ++ ".m3u8") = false.
Proof.
  unfold is_ts, PyStr.endswith. rewrite chars_app, rev_app_distr. reflexivity.
Qed.

(** The playlist and the clock decide what is removable, and the clean-up
    changes neither. *)
Lemma removable_after_cleanup cfg camera_id other o o' :
  now o' = now o ->
  (forall p, file_get p (fs o') = files_without (removable cfg other o) o p) ->
  forall p f, removable cfg camera_id o' p f = removable cfg camera_id o p f.
Proof.
  intros Hnow Hfs p f. unfold removable.
  rewrite Hfs, Hnow. unfold files_without.
  destruct (file_get (m3u8_path_of cfg camera_id) (fs o)) as [pl|]; [|reflexivity].
  replace (removable cfg other o (m3u8_path_of cfg camera_id) pl) with false; [reflexivity|].
  unfold removable. destruct (file_get (m3u8_path_of cfg other) (fs o)); [|reflexivity].
  unfold stale_segment. cbn [m3u8_path_of p_name]. rewrite playlist_is_no_segment.
  cbn [andb]. rewrite !andb_false_r. reflexivity.
Qed.

(** X8: the clean-up without force is idempotent at a fixed clock reading:
    run again right after itself, for the same camera, it removes nothing
    more. *)
Theorem cleanup_old_segments_idempotent cfg camera_id o :
  forall p,
    file_get p
      (fs (snd (cleanup_old_segments cfg camera_id false
                  (snd (cleanup_old_segments cfg camera_id false o)))))
    = file_get p (fs (snd (cleanup_old_segments cfg camera_id false o))).
Proof.
  intros p.
  destruct (cleanup_old_segments_effect cfg camera_id o) as (o1 & Hrun1 & Hnow1 & _ & Hfs1).
  rewrite Hrun1. cbn [snd].
  destruct (cleanup_old_segments_effect cfg camera_id o1) as (o2 & Hrun2 & _ & _ & Hfs2).
  rewrite Hrun2. cbn [snd]. rewrite Hfs2. unfold files_without.
  destruct (file_get p (fs o1)) as [f|] eqn:Hp; [|reflexivity].
  rewrite (removable_after_cleanup cfg camera_id camera_id o o1 Hnow1 Hfs1).
  rewrite Hfs1 in Hp. unfold files_without in Hp.
  destruct (file_get p (fs o)) as [g|]; [|discriminate].
  destruct (removable cfg camera_id o p g) eqn:Hg; [discriminate|].
  injection Hp as <-. rewrite Hg. reflexivity.
Qed.

(** ** streaming.py: the clean-up scheduler *)



Lemma set_os_same w : set_os (os w) w = w.
Proof. destruct w; reflexivity. Qed.

Lemma disk_usage_free_reads_only E x :
  steps (frame (fun o : OS => o)) (disk_usage_free E x).
Proof. intros o. unfold disk_usage_free, frame. destruct (disk_free E (now o) x); reflexivity. Qed.

Lemma get_free_space_reads_only E path o :
  exists n, get_free_space E path o = (Ok n, o).
Proof.
  assert (Hs : steps (frame (fun o : OS => o)) (get_free_space E path)).
  { unfold get_free_space, os_path_exists.
    repeat first [ apply disk_usage_free_reads_only | steps_step ]. }
  assert (Ht : total (get_free_space E path)).
  { unfold get_free_space. apply total_try_except. intros e. apply total_ret. }
  destruct (Ht o) as (n & o' & Hrun). specialize (Hs o). rewrite Hrun in Hs.
  exists n. rewrite Hrun. f_equal. exact Hs.
Qed.

Lemma fs_check_disk_space_reads_only E path m o :
  exists b, fs_check_disk_space E path m o = (Ok b, o).
Proof.
  unfold fs_check_disk_space.
  destruct (get_free_space_reads_only E path o) as (n & Hn).
  unfold try_except. rewrite (bind_run _ _ _ _ _ Hn).
  destruct (Qltb _ _); eexists; reflexivity.
Qed.

(** In a settled state the loop over the segments does nothing. *)
Lemma sweep_nothing dir active l o :
  (forall name f,
     In name l -> file_get {| p_dir := dir; p_name := name |} (fs o) = Some f ->
     (negb (mem_str name active) && Qgtb (now o - f_mtime f) 180 && negb (f_locked f))%bool
     = false) ->
  for_each l (fun ts_file =>
    if negb (mem_str ts_file active) then
      try_except
        (let ts_file_path := {| p_dir := dir; p_name := ts_file |} in
         file_mtime <- getmtime ts_file_path ;;
         t <- time_time ;;
         when (Qgtb (t - file_mtime) 180) (remove ts_file_path))
        (fun _ => ret tt)
    else ret tt) o = (Ok tt, o).
Proof.
  induction l as [|name l IH]; intros H; [reflexivity|].
  etransitivity; [apply for_each_cons_run | apply IH; intros n f Hin; apply H; right; exact Hin].
  specialize (H name). cbn beta.
  destruct (mem_str name active); cbn [negb]; [reflexivity|].
  unfold try_except, getmtime, stat, time_time. unfold bind at 1.
  destruct (file_get {| p_dir := dir; p_name := name |} (fs o)) as [f|] eqn:Hf; [|reflexivity].
  specialize (H f (or_introl eq_refl) eq_refl). cbn [negb andb] in H.
  rewrite bind_gets_run.
  destruct (Qgtb (now o - f_mtime f) 180); cbn [when]; [|reflexivity].
  cbn [andb] in H. apply negb_false_iff in H.
  unfold remove. rewrite Hf, H. reflexivity.
Qed.

Lemma settled_noop cfg camera_id o :
  settled cfg camera_id o -> cleanup_old_segments cfg camera_id false o = (Ok tt, o).
Proof.
  intros Hs.
  destruct (file_get (m3u8_path_of cfg camera_id) (fs o)) as [pl|] eqn:Hpl.
  2:{ apply cleanup_old_segments_without_playlist. rewrite Hpl. exact I. }
  destruct (f_unreadable pl) eqn:Hread.
  { apply cleanup_old_segments_without_playlist. rewrite Hpl. exact Hread. }
  set (dir := camera_tmp_dir_of cfg camera_id).
  assert (Hd : exists d, PyDict.get dir (fs o) = Some d).
  { unfold file_get in Hpl. cbn [m3u8_path_of p_dir] in Hpl. fold dir in Hpl.
    destruct (PyDict.get dir (fs o)) as [d|]; [exists d; reflexivity | discriminate]. }
  destruct Hd as [d Hd].
  unfold cleanup_old_segments. apply try_except_ok_run. fold dir.
  unfold os_path_exists. rewrite bind_gets_run.
  unfold PyDict.contains. rewrite Hd. cbn [orb negb].
  unfold listdir at 1. unfold bind at 1. rewrite Hd.
  unfold path_exists. rewrite bind_gets_run, Hpl. cbn [is_some negb andb].
  assert (Hact : try_except
                   (content <- read_text (m3u8_path_of cfg camera_id) ;;
                    ret (Some (active_segments_of content)))
                   (fun _ => ret None) o
                 = (Ok (Some (active_segments_of (f_content pl))), o)).
  { unfold try_except, bind, read_text. rewrite Hpl, Hread. reflexivity. }
  rewrite (bind_run _ _ _ _ _ Hact).
  apply sweep_nothing. intros name f Hin Hf.
  apply filter_In in Hin as [_ Hts].
  specialize (Hs _ f Hf). unfold removable in Hs. rewrite Hpl, Hread in Hs.
  cbn [p_dir p_name negb andb] in Hs. fold dir in Hs. rewrite String.eqb_refl in Hs.
  unfold stale_segment in Hs. rewrite Hts in Hs. cbn [andb] in Hs. exact Hs.
Qed.

Lemma settled_after_cleanup cfg camera_id other o o' :
  now o' = now o ->
  (forall p, file_get p (fs o') = files_without (removable cfg other o) o p) ->
  (camera_id = other \/ settled cfg camera_id o) ->
  settled cfg camera_id o'.
Proof.
  intros Hnow Hfs Hcase p f Hp.
  rewrite (removable_after_cleanup cfg camera_id other o o' Hnow Hfs).
  rewrite Hfs in Hp. unfold files_without in Hp.
  destruct (file_get p (fs o)) as [g|] eqn:Hg; [|discriminate].
  destruct (removable cfg other o p g) eqn:Hr; [discriminate|].
  injection Hp as <-.
  destruct Hcase as [-> | Hs]; [exact Hr | exact (Hs p g Hg)].
Qed.

(** A round of clean-ups leaves every camera it went through settled. *)
Lemma cleanup_loop_settles cfg ids : forall w,
  exists o',
    for_each ids (fun camera_id => in_os (cleanup_old_segments cfg camera_id false)) w
    = (Ok tt, set_os o' w) /\
    now o' = now (os w) /\
    (forall camera_id, In camera_id ids \/ settled cfg camera_id (os w) ->
                       settled cfg camera_id o').
Proof.
  induction ids as [|id ids IH]; intros w.
  - exists (os w). rewrite set_os_same. split; [reflexivity|]. split; [reflexivity|].
    intros c [[] | Hs]. exact Hs.
  - destruct (cleanup_old_segments_effect cfg id (os w)) as (o1 & Hrun1 & Hnow1 & _ & Hfs1).
    destruct (IH (set_os o1 w)) as (o' & Hrun & Hnow & Hset).
    exists o'. split; [|split].
    + etransitivity; [apply for_each_cons_run; apply in_os_run; exact Hrun1|].
      exact Hrun.
    + rewrite Hnow. exact Hnow1.
    + intros c Hc. apply Hset. cbn [os set_os].
      destruct Hc as [[-> | Hin] | Hs].
      * right. apply (settled_after_cleanup cfg c c (os w) o1 Hnow1 Hfs1). left. reflexivity.
      * left. exact Hin.
      * right. apply (settled_after_cleanup cfg c id (os w) o1 Hnow1 Hfs1). right. exact Hs.
Qed.

Lemma cleanup_loop_of_settled cfg ids w :
  (forall camera_id, In camera_id ids -> settled cfg camera_id (os w)) ->
  for_each ids (fun camera_id => in_os (cleanup_old_segments cfg camera_id false)) w
  = (Ok tt, w).
Proof.
  induction ids as [|id ids IH]; intros H; [reflexivity|].
  etransitivity; [apply for_each_cons_run; apply in_os_run; apply settled_noop, H; left;
                  reflexivity|].
  rewrite set_os_same. apply IH. intros c Hc. apply H. right. exact Hc.
Qed.

(** X9: a pass of [cleanup_scheduler] is one round of clean-ups followed
    by the sleep of CLEANUP_INTERVAL seconds: the check of the disk space
    changes nothing, and the thorough clean-up that low disk space
    triggers is the same round again, which (at the clock reading of the
    first round) finds nothing left to remove. *)
Theorem cleanup_scheduler_second_round_removes_nothing cfg E w :
  cleanup_scheduler_pass cfg E w
  = (cleanup_round cfg ;; in_os (sleep E (inject_Z (CLEANUP_INTERVAL cfg)))) w.
Proof.
  unfold cleanup_scheduler_pass, cleanup_round, st.
  rewrite !bind_assoc_run. rewrite try_except_bind_assoc.
  rewrite bind_gets_run.
  rewrite (try_except_bind_run _ _ _ _ _ _
             (eq_refl : gets (fun w0 => streaming_processes (streaming w0)) w
                        = (Ok (streaming_processes (streaming w)), w))).
  set (ids := PyDict.keys (streaming_processes (streaming w))).
  destruct (cleanup_loop_settles cfg ids w) as (o1 & Hrun1 & _ & Hset).
  rewrite (try_except_bind_run _ _ _ _ _ _ Hrun1), (bind_run _ _ _ _ _ Hrun1).
  destruct (fs_check_disk_space_reads_only E (TMP_PATH cfg) 2 o1) as (b & Hb).
  assert (Hb' : in_os (fs_check_disk_space E (TMP_PATH cfg) 2) (set_os o1 w)
                = (Ok b, set_os o1 w))
    by exact (in_os_run _ (set_os o1 w) _ _ Hb).
  rewrite (try_except_bind_run _ _ _ _ _ _ Hb').
  assert (Hsecond : when (negb b)
                      (bind (gets (fun w0 => streaming_processes (streaming w0)))
                         (fun sp => for_each (PyDict.keys sp)
                            (fun camera_id =>
                               in_os (cleanup_old_segments cfg camera_id false))))
                      (set_os o1 w) = (Ok tt, set_os o1 w)).
  { destruct b; cbn [negb when]; [reflexivity|].
    rewrite bind_gets_run. cbn [streaming set_os]. fold ids.
    apply (cleanup_loop_of_settled cfg ids (set_os o1 w)).
    intros c Hc. apply Hset. left. exact Hc. }
  rewrite (try_except_bind_run _ _ _ _ _ _ Hsecond).
  reflexivity.
Qed.

Lemma for_each_ext {S A} (l : list A) (b1 b2 : A -> M S unit) s :
  (forall x s', b1 x s' = b2 x s') -> for_each l b1 s = for_each l b2 s.
Proof.
  intros H.
  assert (Hl : forall s0,
            for_loop (R := unit) l (fun x => bind (b1 x) (fun _ => ret None)) s0
            = for_loop (R := unit) l (fun x => bind (b2 x) (fun _ => ret None)) s0).
  { induction l as [|x l IH]; intros s0; [reflexivity|].
    cbn [for_loop]. unfold bind, ret. rewrite H.
    destruct (b2 x s0) as [[[]|e] s1]; [|reflexivity]. apply IH. }
  unfold for_each, bind. rewrite Hl. reflexivity.
Qed.

Lemma cleanup_round_total cfg w : exists w', cleanup_round cfg w = (Ok tt, w').
Proof.
  unfold cleanup_round, st. rewrite bind_gets_run.
  destruct (cleanup_loop_settles cfg (PyDict.keys (streaming_processes (streaming w))) w)
    as (o' & Hrun & _). eexists. exact Hrun.
Qed.

(** X10: [scheduled_cleanup] returns True and does exactly what one round
    of the scheduler's clean-ups does: its test that the directory exists
    changes nothing, because [cleanup_old_segments] returns at once for a
    directory that does not exist. *)
Theorem scheduled_cleanup_is_one_round cfg w :
  scheduled_cleanup cfg w = (Ok true, snd (cleanup_round cfg w)).
Proof.
  unfold scheduled_cleanup, cleanup_round, st.
  rewrite bind_gets_run.
  rewrite (try_except_bind_run _ _ _ _ _ _
             (eq_refl : gets (fun w0 => streaming_processes (streaming w0)) w
                        = (Ok (streaming_processes (streaming w)), w))).
  assert (Hsame :
    for_each (PyDict.keys (streaming_processes (streaming w)))
      (fun camera_id =>
         try_except
           (let camera_tmp_dir := camera_tmp_dir_of cfg camera_id in
            ex <- in_os (os_path_exists camera_tmp_dir) ;;
            when ex (in_os (cleanup_old_segments cfg camera_id false)))
           (fun _ => ret tt)) w
    = for_each (PyDict.keys (streaming_processes (streaming w)))
        (fun camera_id => in_os (cleanup_old_segments cfg camera_id false)) w).
  { apply for_each_ext. intros id x. cbv zeta.
    destruct (cleanup_old_segments_effect cfg id (os x)) as (o1 & Hrun & _).
    rewrite (in_os_run _ _ _ _ Hrun).
    unfold os_path_exists.
    rewrite (try_except_bind_run _ _ _ _ _ _
               (eq_refl : in_os (gets (fun o =>
                            (PyDict.contains (camera_tmp_dir_of cfg id) (fs o)
                             || is_some (file_get (split_path (camera_tmp_dir_of cfg id))
                                           (fs o)))%bool)) x
                          = (Ok _, set_os (os x) x))).
    rewrite set_os_same.
    destruct (_ || _)%bool eqn:Hex; cbn [when].
    - apply try_except_ok_run. apply in_os_run. exact Hrun.
    - unfold cleanup_old_segments, try_except, os_path_exists in Hrun.
      rewrite bind_gets_run, Hex in Hrun. cbn in Hrun. injection Hrun as <-.
      rewrite set_os_same. reflexivity. }
  destruct (cleanup_loop_settles cfg (PyDict.keys (streaming_processes (streaming w))) w)
    as (o' & Hrun & _).
  rewrite <- Hsame in Hrun.
  rewrite (try_except_bind_run _ _ _ _ _ _ Hrun). rewrite Hsame in Hrun.
  rewrite Hrun. reflexivity.
Qed.

(** ** The admission checks on the disk space *)

Lemma Qle_bool_of_one (m : Q) :
  Qle_bool m (inject_Z GiB / inject_Z (1024 * 1024 * 1024)) = Qle_bool m 1.
Proof.
  apply Bool.eq_iff_eq_true. rewrite !Qle_bool_iff.
  assert (H : (inject_Z GiB / inject_Z (1024 * 1024 * 1024) == 1)%Q) by reflexivity.
  rewrite H. reflexivity.
Qed.

(** X11: when every query of the free space fails, [fs_utils.check_disk_space]
    of an existing directory returns True exactly when at most 1 GiB is
    asked for; with its default of 2 GiB, which [cleanup_scheduler] uses,
    it returns False. *)
Theorem fs_check_disk_space_of_failed_query E path m o :
  (forall x, disk_free E (now o) x = None) ->
  PyDict.contains path (fs o) = true ->
  fs_check_disk_space E path m o = (Ok (Qle_bool m 1), o).
Proof.
  intros Hfail Hex. unfold fs_check_disk_space.
  pose proof (get_free_space_of_failed_query E path o Hfail Hex) as Hfree.
  fold GiB in Hfree.
  unfold try_except. rewrite (bind_run _ _ _ _ _ Hfree).
  unfold Qltb. rewrite Qle_bool_of_one. destruct (Qle_bool m 1); reflexivity.
Qed.

Lemma fs_check_disk_space_of_failed_query_witness :
  fs_check_disk_space no_disk_usage_env "D:\ro" 2 read_only_os
  = (Ok (Qle_bool 2 1), read_only_os).
Proof.
  apply (fs_check_disk_space_of_failed_query no_disk_usage_env "D:\ro" 2 read_only_os).
  - intros x. reflexivity.
  - reflexivity.
Defined.




(** ** streaming.py: the clean-up of one camera *)

Lemma kill_by_camera_trace E camera_id o :
  os_name_nt E = true ->
  exists b o',
    kill_ffmpeg_processes E [VStr camera_id] [] o = (Ok b, o') /\
    trace o' = (trace o ++ [EvRun taskkill_all])%list.
Proof.
  intros Hnt.
  change (kill_ffmpeg_processes E [VStr camera_id] [] o)
    with (kill_ffmpeg_processes_body E (VStr camera_id) VNone o).
  unfold kill_ffmpeg_processes_body. rewrite Hnt. cbn [truthy].
  pose proof (run_logs_the_command E taskkill_all o) as Hlog.
  cbv [try_except try_except_only bind ret raise].
  destruct (negb (camera_id =? "")%string);
    destruct (run E taskkill_all o) as [[r|e] o1]; cbn [snd] in Hlog;
    try (eexists _, _; split; [reflexivity | exact Hlog]);
    destruct (is_CalledProcessError e); eexists _, _; (split; [reflexivity | exact Hlog]).
Qed.

(** X13: on Windows, the clean-up of the resources of one camera runs
    taskkill on every ffmpeg.exe: the encoders of all cameras, and the
    recorders, are killed with it. *)
Theorem cleanup_of_one_camera_kills_every_ffmpeg cfg E camera_id w :
  os_name_nt E = true ->
  In (EvRun taskkill_all) (trace (os (snd (cleanup_camera_resources cfg E camera_id w)))).
Proof.
  intros Hnt. unfold cleanup_camera_resources. rewrite snd_try_except_ret.
  rewrite (bind_run _ _ _ _ _ (in_os_logging_run _ w)).
  unfold st. rewrite bind_gets_run.
  set (w1 := set_os _ w).
  assert (Hrest : forall x,
            In (EvRun taskkill_all)
              (trace (os (snd (bind (upd_st (set_hls_last_update (PyDict.del camera_id)))
              (fun _ => bind (upd_st (set_m3u8_last_size (PyDict.del camera_id)))
              (fun _ => bind (upd_st (set_restart_counts (PyDict.del camera_id)))
              (fun _ => bind (in_os (kill_ffmpeg_processes E [VStr camera_id] []))
              (fun _ => in_os (cleanup_old_segments cfg camera_id false))))) x))))).
  { intros x. unfold upd_st. rewrite !bind_modify_run.
    set (y := set_streaming _ _).
    destruct (kill_by_camera_trace E camera_id (os y) Hnt) as (b & o1 & Hkill & Htr).
    rewrite (bind_run _ _ _ _ _ (in_os_run _ _ _ _ Hkill)).
    pose proof (cleanup_old_segments_appends any_event any_basic_event cfg camera_id false o1)
      as (tr & Htr' & _).
    unfold in_os, lift_state. cbn [os set_os].
    destruct (cleanup_old_segments cfg camera_id false o1) as [r o2]. cbn [snd os set_os] in *.
    rewrite Htr', Htr. apply in_or_app. left. apply in_or_app. right. left. reflexivity. }
  destruct (PyDict.get camera_id (streaming_processes (streaming w1))) as [process|].
  - rewrite !bind_assoc_run.
    match goal with |- context [bind (try_except ?m ?h) ?k w1] =>
      destruct (total_try_except m h (fun _ => total_ret tt) w1) as (u & w2 & Ht);
      rewrite (bind_run _ _ _ _ _ Ht)
    end.
    cbv beta. rewrite !bind_assoc_run. unfold upd_st at 1 2. rewrite !bind_modify_run.
    apply Hrest.
  - rewrite bind_ret_run. apply Hrest.
Qed.

Lemma cleanup_of_one_camera_kills_every_ffmpeg_witness :
  In (EvRun taskkill_all)
    (trace (os (snd (cleanup_camera_resources default_config calm_env "cam1"
                       six_streams_world)))).
Proof.
  apply (cleanup_of_one_camera_kills_every_ffmpeg default_config calm_env "cam1"
           six_streams_world).
  reflexivity.
Defined.

(** X14: the clean-up of the resources of one camera removes that
    camera's session and its entries in hls_last_update, m3u8_last_size
    and restart_counts, and leaves the entries of every other camera and
    the queue as they were; the count of active streams goes down by one,
    not below 0, when the camera had a session, and is unchanged when it
    had none. *)
Theorem cleanup_camera_resources_tables cfg E camera_id w :
  let s := streaming w in
  let s' := streaming (snd (cleanup_camera_resources cfg E camera_id w)) in
  (forall other,
     PyDict.get other (streaming_processes s')
     = (if String.eqb camera_id other then None
        else PyDict.get other (streaming_processes s)) /\
     PyDict.get other (hls_last_update s')
     = (if String.eqb camera_id other then None else PyDict.get other (hls_last_update s)) /\
     PyDict.get other (m3u8_last_size s')
     = (if String.eqb camera_id other then None else PyDict.get other (m3u8_last_size s)) /\
     PyDict.get other (restart_counts s')
     = (if String.eqb camera_id other then None else PyDict.get other (restart_counts s))) /\
  streaming_queue s' = streaming_queue s /\
  active_streams_count s'
  = (if PyDict.contains camera_id (streaming_processes s)
     then Z.max 0 (active_streams_count s - 1) else active_streams_count s).
Proof.
  intros s s'. subst s s'. rewrite cleanup_camera_resources_streaming.
  assert (Hdel : forall V (d : dict V) other,
            PyDict.get other (PyDict.del camera_id d)
            = if String.eqb camera_id other then None else PyDict.get other d).
  { intros V d other. destruct (String.eqb_spec camera_id other) as [<- | Hne].
    - apply get_del_same.
    - apply get_del_other. exact Hne. }
  unfold cleaned. cbn [streaming_processes hls_last_update m3u8_last_size restart_counts
                       streaming_queue active_streams_count].
  split; [|split; reflexivity].
  intros other. rewrite !Hdel. repeat split.
Qed.

(** ** streaming.py: queueing a camera *)



Lemma start_threads_run (target : string) (name : Z -> string) l : forall w,
  exists o',
    for_each l (fun i => in_os (start_thread target (name i))) w = (Ok tt, set_os o' w) /\
    now o' = now (os w) /\ fs o' = fs (os w) /\ procs o' = procs (os w) /\
    trace o' = (trace (os w) ++ map (fun i => EvThread target (name i)) l)%list.
Proof.
  induction l as [|i l IH]; intros w.
  - exists (os w). rewrite set_os_same, app_nil_r. repeat split; reflexivity.
  - destruct (IH (set_os (log_event (EvThread target (name i)) (os w)) w))
      as (o' & Hrun & Hnow & Hfs & Hprocs & Htr).
    exists o'. split; [|repeat split; try assumption].
    + etransitivity; [apply for_each_cons_run; reflexivity | exact Hrun].
    + rewrite Htr. cbn. rewrite <- app_assoc. reflexivity.
Qed.

(** X15: for a camera whose enabled is 1, [get_or_start_streaming] returns
    True and starts no encoder itself.  If the camera has a session,
    nothing changes.  Otherwise the camera is appended once to the queue,
    and if the workers were not running they are marked as running and
    the worker threads and the three monitor threads are started, once. *)
Theorem get_or_start_streaming_queues cfg camera w :
  get_enabled camera = 1 ->
  let streamed := PyDict.contains (cam_id camera) (streaming_processes (streaming w)) in
  let running := streaming_workers_running (streaming w) in
  exists w',
    get_or_start_streaming cfg camera w = (Ok true, w') /\
    (if streamed then w' = w
     else
       streaming_queue (streaming w') = (streaming_queue (streaming w) ++ [camera])%list /\
       streaming_workers_running (streaming w') = true /\
       streaming_processes (streaming w') = streaming_processes (streaming w) /\
       trace (os w')
       = (trace (os w) ++ if running then [] else started_threads cfg)%list).
Proof.
  intros Hen streamed running. unfold get_or_start_streaming. rewrite Hen.
  change (negb (1 =? 1)) with false. cbv iota.
  unfold st. rewrite bind_gets_run. fold streamed.
  destruct streamed; [exists w; split; reflexivity|].
  unfold queue_put, upd_st. rewrite bind_modify_run, bind_gets_run.
  set (w1 := set_streaming _ w). cbn [streaming_workers_running streaming set_streaming
                                       set_streaming_queue w1]. fold running.
  destruct running eqn:Hrun; cbn [negb when].
  - rewrite bind_ret_run. exists w1. split; [reflexivity|].
    repeat split; try reflexivity. exact Hrun. symmetry. apply app_nil_r.
  - unfold start_streaming_workers, st. rewrite bind_assoc_run, bind_gets_run.
    cbn [streaming_workers_running streaming set_streaming set_streaming_queue w1].
    fold running. rewrite Hrun.
    unfold upd_st. rewrite !bind_assoc_run, bind_modify_run.
    set (w2 := set_streaming _ w1).
    destruct (start_threads_run "streaming_worker"
                (fun i => "streaming-worker-" ++ PyStr.str_of_Z i)
                (range (MAX_CONCURRENT_STREAMS cfg)) w2)
      as (o' & Hth & _ & _ & _ & Htr).
    rewrite !bind_assoc_run. rewrite (bind_run _ _ _ _ _ Hth).
    eexists. split; [reflexivity|].
    cbn [streaming os set_os set_streaming streaming_queue streaming_workers_running
         streaming_processes set_streaming_workers_running set_streaming_queue
         trace log_event w2 w1].
    repeat split; try reflexivity.
    rewrite Htr. unfold started_threads. cbn [os w2 w1 set_streaming].
    rewrite <- !app_assoc. reflexivity.
Qed.

Lemma get_or_start_streaming_queues_witness :
  exists w',
    get_or_start_streaming default_config cam1 world0 = (Ok true, w') /\
    (if PyDict.contains (cam_id cam1) (streaming_processes (streaming world0)) then w' = world0
     else
       streaming_queue (streaming w') = (streaming_queue (streaming world0) ++ [cam1])%list /\
       streaming_workers_running (streaming w') = true /\
       streaming_processes (streaming w') = streaming_processes (streaming world0) /\
       trace (os w')
       = (trace (os world0)
          ++ if streaming_workers_running (streaming world0) then []
             else started_threads default_config)%list).
Proof.
  apply (get_or_start_streaming_queues default_config cam1 world0). reflexivity.
Defined.

(** ** streaming.py: the worker and the stop of one stream *)



Lemma kill_ffmpeg_processes_body_total E camera_id pid :
  total (kill_ffmpeg_processes_body E camera_id pid).
Proof.
  unfold kill_ffmpeg_processes_body. apply total_try_except. intros e. apply total_ret.
Qed.

(** X16: [terminate_streaming] returns True at once for a camera without
    a session.  For a camera with a session it terminates the child and
    runs [kill_ffmpeg_processes]; then the session is removed and the
    count of active streams goes down by one, not below 0, while the
    camera's entries in hls_last_update, m3u8_last_size and
    restart_counts stay.  If the termination raises, it returns False and
    the session stays in the table. *)
Theorem terminate_streaming_cases E camera_id w :
  match PyDict.get camera_id (streaming_processes (streaming w)) with
  | None => terminate_streaming E camera_id w = (Ok true, w)
  | Some process =>
      match terminate_process E process 10 (os w) with
      | (Ok _, _) =>
          exists w',
            terminate_streaming E camera_id w = (Ok true, w') /\
            streaming w'
            = set_streaming_processes (PyDict.del camera_id)
                (set_active_streams_count dec_count (streaming w))
      | (Raise _, o1) => terminate_streaming E camera_id w = (Ok false, set_os o1 w)
      end
  end.
Proof.
  unfold terminate_streaming, st.
  destruct (PyDict.get camera_id (streaming_processes (streaming w))) as [process|] eqn:Hget.
  2:{ unfold try_except. rewrite bind_gets_run, Hget. reflexivity. }
  destruct (terminate_process E process 10 (os w)) as [[[]|e] o1] eqn:Ht.
  2:{ unfold try_except. rewrite bind_gets_run, Hget.
      rewrite (bind_run_raise _ _ _ _ _ (in_os_run _ _ _ _ Ht)). reflexivity. }
  rewrite (try_except_bind_run _ _ _ _ _ _
             (eq_refl : gets (fun w0 => streaming_processes (streaming w0)) w = (Ok _, w))).
  rewrite Hget.
  rewrite (try_except_bind_run _ _ _ _ _ _ (in_os_run _ _ _ _ Ht)).
  destruct (kill_ffmpeg_processes_body_total E (VStr camera_id) VNone o1) as (b & o2 & Hk).
  change (kill_ffmpeg_processes_body E (VStr camera_id) VNone)
    with (kill_ffmpeg_processes E [] [("camera_id", VStr camera_id)]) in Hk.
  rewrite (try_except_bind_run _ _ _ _ _ _ (in_os_run _ (set_os o1 w) _ _ Hk)).
  unfold upd_st.
  rewrite (try_except_bind_run _ _ _ _ _ _
             (eq_refl : modify (set_streaming (set_active_streams_count dec_count))
                          (set_os o2 (set_os o1 w)) = (Ok tt, _))).
  rewrite (try_except_bind_run _ _ _ _ _ _
             (eq_refl : gets (fun w0 => streaming_processes (streaming w0))
                          (set_streaming (set_active_streams_count dec_count)
                             (set_os o2 (set_os o1 w))) = (Ok _, _))).
  cbn [streaming set_streaming set_os streaming_processes set_active_streams_count].
  unfold PyDict.contains. rewrite Hget.
  eexists. split; [reflexivity|]. reflexivity.
Qed.

(** The launch fails in every state, and what it leaves of the streaming
    tables is what the clean-up of the camera leaves. *)
Lemma start_streaming_process_run cfg E camera w :
  exists w',
    start_streaming_process cfg E camera w = (Ok false, w') /\
    streaming w' = cleaned (cam_id camera) (streaming w).
Proof.
  unfold start_streaming_process.
  match goal with |- context [try_except ?m ?h w] =>
    assert (Hm : always_raises (frame streaming) m)
  end.
  { sapply @always_raises_bind_r; [apply in_os_keeps_streaming|].
    intros _. sapply @always_raises_bind_r; [apply in_os_keeps_streaming|].
    intros _. sapply @always_raises_bind_r; [apply in_os_keeps_streaming|].
    intros timestamp. sapply @always_raises_bind_l.
    intros s. eexists _, (set_os (os s) s). split.
    - unfold in_os, lift_state. rewrite kill_with_process_type_raises. reflexivity.
    - reflexivity. }
  destruct (Hm w) as (e & w1 & Hrun & Hfr). unfold frame in Hfr.
  rewrite (try_except_raise_run _ _ _ _ _ Hrun).
  destruct (cleanup_camera_resources_total cfg E (cam_id camera) w1) as ([] & w2 & Hc).
  pose proof (cleanup_camera_resources_streaming cfg E (cam_id camera) w1) as Hs.
  rewrite Hc in Hs. cbn [snd] in Hs.
  exists w2. rewrite (bind_run _ _ _ _ _ Hc). split; [reflexivity|].
  rewrite Hs, Hfr. reflexivity.
Qed.

(** X17: a turn of a streaming worker never starts a stream and never
    loses a camera that has no session: a dequeued camera that has a
    session is dropped, any other dequeued camera is put back at the end
    of the queue (at once when the limit of streams or of CPU or memory
    is reached, else after the launch, which fails); the session table
    and the count of active streams are as before. *)
Theorem streaming_worker_step_requeues cfg E w :
  exists w',
    streaming_worker_step cfg E w = (Ok tt, w') /\
    streaming_processes (streaming w') = streaming_processes (streaming w) /\
    active_streams_count (streaming w') = active_streams_count (streaming w) /\
    streaming_queue (streaming w')
    = match streaming_queue (streaming w) with
      | [] => []
      | camera :: rest =>
          if PyDict.contains (cam_id camera) (streaming_processes (streaming w))
          then rest else (rest ++ [camera])%list
      end.
Proof.
  unfold streaming_worker_step, st.
  rewrite (try_except_bind_run _ _ _ _ _ _
             (eq_refl : gets (fun w0 => streaming_queue (streaming w0)) w = (Ok _, w))).
  destruct (streaming_queue (streaming w)) as [|camera rest] eqn:Hq.
  { eexists. split; [reflexivity|]. cbn. repeat split; try reflexivity. exact Hq. }
  unfold upd_st, queue_put, upd_st.
  rewrite (try_except_bind_run _ _ _ _ _ _
             (eq_refl : modify (set_streaming (set_streaming_queue (fun _ => rest))) w
                        = (Ok tt, _))).
  set (w1 := set_streaming _ w).
  rewrite (try_except_bind_run _ _ _ _ _ _
             (eq_refl : gets (fun w0 => streaming_processes (streaming w0)) w1 = (Ok _, w1))).
  change (streaming_processes (streaming w1)) with (streaming_processes (streaming w)).
  destruct (PyDict.contains (cam_id camera) (streaming_processes (streaming w))) eqn:Hc.
  { exists w1. repeat split; reflexivity. }
  rewrite (try_except_bind_run _ _ _ _ _ _
             (eq_refl : gets (fun w0 => system_resources (streaming w0)) w1 = (Ok _, w1))).
  destruct (system_resources (streaming w1)) as [cpu_usage mem_usage].
  rewrite (try_except_bind_run _ _ _ _ _ _
             (eq_refl : gets (fun w0 => active_streams_count (streaming w0)) w1
                        = (Ok _, w1))).
  destruct (active_streams_count (streaming w1) >=? MAX_CONCURRENT_STREAMS cfg).
  { eexists. split; [reflexivity|]. repeat split; reflexivity. }
  destruct (Qgtb cpu_usage _ || Qgtb mem_usage _)%bool.
  { eexists. split; [reflexivity|]. repeat split; reflexivity. }
  rewrite (try_except_bind_run _ _ _ _ _ _ (in_os_sleep_run E 1 w1)).
  set (w2 := set_os _ w1).
  destruct (start_streaming_process_run cfg E camera w2) as (w3 & Hrun & Hs).
  rewrite (try_except_bind_run _ _ _ _ _ _ Hrun).
  cbn [when negb].
  rewrite (try_except_bind_run _ _ _ _ _ _ (eq_refl : ret tt w3 = (Ok tt, w3))).
  rewrite (try_except_bind_run _ _ _ _ _ _ (in_os_sleep_run E 10 w3)).
  eexists. split; [reflexivity|].
  cbn [streaming set_streaming set_os streaming_processes active_streams_count
       streaming_queue set_streaming_queue].
  rewrite Hs. cbn [streaming w2 w1 set_os set_streaming cleaned streaming_processes
                   active_streams_count streaming_queue set_streaming_queue].
  rewrite Hc.
  assert (Hget : PyDict.get (cam_id camera) (streaming_processes (streaming w)) = None).
  { unfold PyDict.contains in Hc.
    destruct (PyDict.get (cam_id camera) (streaming_processes (streaming w)));
      [discriminate | reflexivity]. }
  rewrite (del_absent _ _ Hget). repeat split; reflexivity.
Qed.

(** ** streaming.py: the health of the HLS files *)



Lemma Qgtb_spec a b : Qgtb a b = true <-> (b < a)%Q.
Proof.
  unfold Qgtb, Qltb. rewrite negb_true_iff, <- Bool.not_true_iff_false, Qle_bool_iff.
  split; [apply Qnot_le_lt | apply Qlt_not_le].
Qed.

Lemma Qgtb_false a b : Qgtb a b = false <-> (a <= b)%Q.
Proof.
  rewrite <- Bool.not_true_iff_false, Qgtb_spec.
  split; [apply Qnot_lt_le | intros H H'; exact (Qlt_not_le _ _ H' H)].
Qed.

Lemma max_by_key_spec l : forall best,
  (max_by_key best l = best \/ In (max_by_key best l) l) /\
  (snd best <= snd (max_by_key best l))%Q /\
  (forall x, In x l -> (snd x <= snd (max_by_key best l))%Q).
Proof.
  induction l as [|y l IH]; intros best; cbn [max_by_key].
  - split; [left; reflexivity|]. split; [apply Qle_refl | intros x []].
  - destruct (Qgtb (snd y) (snd best)) eqn:Hy.
    + destruct (IH y) as (Hin & Hle & Hall). apply Qgtb_spec in Hy.
      split; [|split].
      * destruct Hin as [-> | Hin]; right; [left; reflexivity | right; exact Hin].
      * apply Qle_trans with (snd y); [apply Qlt_le_weak, Hy | exact Hle].
      * intros x [<- | Hx]; [exact Hle | apply Hall, Hx].
    + destruct (IH best) as (Hin & Hle & Hall). apply Qgtb_false in Hy.
      split; [|split].
      * destruct Hin as [-> | Hin]; [left; reflexivity | right; right; exact Hin].
      * exact Hle.
      * intros x [<- | Hx]; [apply Qle_trans with (snd best); assumption | apply Hall, Hx].
Qed.

Lemma get_of_key {V} name (d : dict V) :
  In name (PyDict.keys d) -> exists v, PyDict.get name d = Some v.
Proof.
  intros Hin. destruct (PyDict.get name d) as [v|] eqn:Hg; [exists v; reflexivity|].
  exfalso. assert (Hc : PyDict.contains name d = false)
    by (unfold PyDict.contains; rewrite Hg; reflexivity).
  rewrite contains_as_mem in Hc. unfold mem_str in Hc.
  assert (Ht : existsb (String.eqb name) (PyDict.keys d) = true).
  { apply existsb_exists. exists name. split; [exact Hin | apply String.eqb_refl]. }
  congruence.
Qed.

Lemma key_of_get {V} name (d : dict V) v :
  PyDict.get name d = Some v -> In name (PyDict.keys d).
Proof.
  intros Hg. assert (Hc : PyDict.contains name d = true)
    by (unfold PyDict.contains; rewrite Hg; reflexivity).
  rewrite contains_as_mem in Hc. unfold mem_str in Hc.
  apply existsb_exists in Hc as (x & Hin & Hx). apply String.eqb_eq in Hx. subst x. exact Hin.
Qed.

(** The modification times of the files of a directory, by name *)
Lemma keyed_mtimes dir d o l :
  PyDict.get dir (fs o) = Some d ->
  (forall name, In name l -> In name (PyDict.keys (d_files d))) ->
  exists keyed,
    map_m (fun f => t <- getmtime {| p_dir := dir; p_name := f |} ;; ret (f, t)) l o
    = (Ok keyed, o) /\
    map fst keyed = l /\
    (forall x, In x keyed ->
               exists f, PyDict.get (fst x) (d_files d) = Some f /\ snd x = f_mtime f).
Proof.
  intros Hd. induction l as [|name l IH]; intros Hl.
  - exists []. repeat split. intros x [].
  - destruct IH as (keyed & Hrun & Hmap & Hall); [intros n Hn; apply Hl; right; exact Hn|].
    destruct (get_of_key name (d_files d) (Hl name (or_introl eq_refl))) as (f & Hf).
    exists ((name, f_mtime f) :: keyed). split; [|split].
    + cbn [map_m]. unfold getmtime, stat, file_get. cbn [p_dir p_name].
      unfold bind at 1. unfold bind at 1. rewrite Hd, Hf. cbn [ret].
      rewrite (bind_run _ _ _ _ _ Hrun). reflexivity.
    + cbn. rewrite Hmap. reflexivity.
    + intros x [<- | Hx]; [exists f; split; [exact Hf | reflexivity] | apply Hall, Hx].
Qed.

(** X18: [check_hls_file_health] changes nothing and never raises.  It
    returns True exactly when the playlist of the camera exists, can be
    read, was written within HLS_UPDATE_TIMEOUT (10) seconds, has at
    least 100 bytes and mentions '.ts', and some .ts file of the
    camera's directory was written within HLS_UPDATE_TIMEOUT seconds. *)
Theorem check_hls_file_health_spec cfg camera_id o :
  exists b,
    check_hls_file_health cfg camera_id o = (Ok b, o) /\
    (b = true <->
     exists pl,
       file_get (m3u8_path_of cfg camera_id) (fs o) = Some pl /\
       f_unreadable pl = false /\
       fresh (now o) pl = true /\
       100 <= f_size pl /\
       PyStr.contains ".ts" (f_content pl) = true /\
       exists name f,
         is_ts name = true /\
         file_get {| p_dir := camera_tmp_dir_of cfg camera_id; p_name := name |} (fs o)
         = Some f /\
         fresh (now o) f = true).
Proof.
  unfold check_hls_file_health, fresh.
  set (dir := camera_tmp_dir_of cfg camera_id).
  set (T := inject_Z HLS_UPDATE_TIMEOUT).
  unfold try_except, path_exists, time_time, getmtime, getsize, stat, read_text, listdir.
  rewrite bind_gets_run.
  destruct (file_get (m3u8_path_of cfg camera_id) (fs o)) as [pl|] eqn:Hpl; cbn [is_some negb].
  2:{ exists false. split; [reflexivity|]. split; [discriminate|].
      intros (pl' & H & _). discriminate H. }
  assert (Hd : exists d, PyDict.get dir (fs o) = Some d).
  { unfold file_get in Hpl. cbn [m3u8_path_of p_dir] in Hpl. fold dir in Hpl.
    destruct (PyDict.get dir (fs o)) as [d|]; [exists d; reflexivity | discriminate]. }
  destruct Hd as [d Hd].
  rewrite bind_gets_run. unfold bind at 1. rewrite Hpl.
  destruct (Qgtb (now o - f_mtime pl) T) eqn:Hold.
  { exists false. split; [reflexivity|]. split; [discriminate|].
    intros (pl' & H & _ & Hf & _). injection H as <-.
    rewrite Hold in Hf. discriminate Hf. }
  unfold bind at 1. rewrite Hpl.
  destruct (f_size pl <? 100) eqn:Hsize.
  { exists false. split; [reflexivity|]. split; [discriminate|].
    intros (pl' & H & _ & _ & Hs & _). injection H as <-.
    apply Z.ltb_lt in Hsize. lia. }
  unfold bind at 1. rewrite Hpl.
  destruct (f_unreadable pl) eqn:Hread.
  { exists false. split; [reflexivity|]. split; [discriminate|].
    intros (pl' & H & Hr & _). injection H as <-. congruence. }
  destruct (PyStr.contains ".ts" (f_content pl)) eqn:Hts; cbn [negb].
  2:{ exists false. split; [reflexivity|]. split; [discriminate|].
      intros (pl' & H & _ & _ & _ & Hc & _). injection H as <-.
      rewrite Hts in Hc. discriminate Hc. }
  unfold bind at 1. rewrite Hd.
  destruct (keyed_mtimes dir d o (filter is_ts (PyDict.keys (d_files d))) Hd)
    as (keyed & Hrun & Hmap & Hall).
  { intros name Hin. apply filter_In in Hin. apply Hin. }
  rewrite (bind_run _ _ _ _ _ Hrun).
  assert (Hseg : forall name f,
            is_ts name = true ->
            file_get {| p_dir := dir; p_name := name |} (fs o) = Some f ->
            exists x, In x keyed /\ snd x = f_mtime f).
  { intros name f Hn Hf. unfold file_get in Hf. cbn [p_dir p_name] in Hf. rewrite Hd in Hf.
    assert (Hin : In name (map fst keyed)).
    { rewrite Hmap. apply filter_In. split; [exact (key_of_get _ _ _ Hf) | exact Hn]. }
    apply in_map_iff in Hin as (x & Hx & Hin). exists x. split; [exact Hin|].
    destruct (Hall x Hin) as (g & Hg & Hsnd). rewrite Hx, Hf in Hg. injection Hg as <-.
    exact Hsnd. }
  destruct keyed as [|first others].
  { exists false. split; [reflexivity|]. split; [discriminate|].
    intros (pl' & _ & _ & _ & _ & _ & name & f & Hn & Hf & _).
    destruct (Hseg name f Hn Hf) as (x & [] & _). }
  destruct (max_by_key_spec others first) as (Hin & _ & Hmax).
  set (latest := max_by_key first others) in *.
  assert (Hlatest : In latest (first :: others))
    by (destruct Hin as [-> | Hin]; [left; reflexivity | right; exact Hin]).
  destruct (Hall latest Hlatest) as (g & Hg & Hsnd).
  assert (Hname : is_ts (fst latest) = true).
  { assert (H : In (fst latest) (map fst (first :: others))) by (apply in_map; exact Hlatest).
    rewrite Hmap in H. apply filter_In in H. apply H. }
  unfold file_get. cbn [p_dir p_name]. unfold bind. rewrite Hd, Hg, <- Hsnd.
  destruct (Qgtb (now o - snd latest) T) eqn:Hfresh.
  - exists false. split; [reflexivity|]. split; [discriminate|].
    intros (pl' & _ & _ & _ & _ & _ & name & f & Hn & Hf & Hfr).
    assert (Hf' : file_get {| p_dir := dir; p_name := name |} (fs o) = Some f)
      by (unfold file_get; cbn [p_dir p_name]; rewrite Hd; exact Hf).
    destruct (Hseg name f Hn Hf') as (x & Hx & Hxs).
    assert (Hle : (snd x <= snd latest)%Q).
    { destruct Hx as [<- | Hx]; [|apply Hmax, Hx].
      destruct (max_by_key_spec others first) as (_ & Hb & _). exact Hb. }
    apply negb_true_iff, Qgtb_false in Hfr. apply Qgtb_spec in Hfresh.
    rewrite <- Hxs in Hfr. exfalso.
    apply (Qlt_not_le _ _ Hfresh). apply Qle_trans with (now o - snd x)%Q; [|exact Hfr].
    unfold Qminus. apply Qplus_le_r. apply Qopp_le_compat. exact Hle.
  - exists true. split; [reflexivity|]. split; [|reflexivity]. intros _.
    exists pl. split; [reflexivity|]. split; [exact Hread|].
    split; [rewrite Hold; reflexivity|]. split; [apply Z.ltb_ge, Hsize|].
    split; [exact Hts|].
    exists (fst latest), g. split; [exact Hname|]. split.
    + exact Hg.
    + rewrite <- Hsnd, Hfresh. reflexivity.
Qed.

(** The files of [healthy_os] pass the check. *)
Example check_hls_file_health_of_healthy_os :
  check_hls_file_health default_config "cam1" healthy_os = (Ok true, healthy_os).
Proof. vm_compute. reflexivity. Qed.

(** ** ffmpeg_utils.py: the termination ladder *)

Lemma proc_get_set_same pid p ps : proc_get pid (proc_set pid p ps) = Some p.
Proof.
  induction ps as [|[n q] ps IH]; cbn.
  - rewrite Nat.eqb_refl. reflexivity.
  - destruct (Nat.eqb n pid) eqn:Hn; cbn; [rewrite Nat.eqb_refl | rewrite Hn]; auto.
Qed.

Lemma poll_of_running pid p o :
  proc_get pid (procs o) = Some p -> proc_broken p = false ->
  proc_returncode p = None -> proc_exit_at p = None ->
  poll pid o = (Ok None, o).
Proof. intros Hp Hb Hr He. unfold poll. rewrite Hp, Hb, Hr, He. reflexivity. Qed.

Lemma poll_of_exited pid p rc o :
  proc_get pid (procs o) = Some p -> proc_broken p = false ->
  proc_returncode p = Some rc ->
  poll pid o = (Ok (Some rc), o).
Proof. intros Hp Hb Hr. unfold poll. rewrite Hp, Hb, Hr. reflexivity. Qed.

Lemma send_signal_to_running sig pid p o :
  proc_get pid (procs o) = Some p -> proc_broken p = false ->
  proc_returncode p = None ->
  send_signal sig pid o
  = (Ok tt,
     if reacts sig p
     then set_procs (proc_set pid (with_returncode (signal_code sig) p))
            (log_event (EvSignal sig pid) o)
     else log_event (EvSignal sig pid) o).
Proof.
  intros Hp Hb Hr. unfold send_signal. cbn [procs log_event]. rewrite Hp, Hb, Hr.
  destruct (reacts sig p); reflexivity.
Qed.

Lemma sleep_run E d o :
  exists o', sleep E d o = (Ok tt, o') /\
             procs o' = procs o /\ trace o' = (trace o ++ [EvSleep d])%list.
Proof. eexists. split; [reflexivity|]. split; reflexivity. Qed.

(** The three waits of one second after 'q', for a child that goes on *)
Lemma waits_of_running E pid p o :
  proc_get pid (procs o) = Some p -> proc_broken p = false ->
  proc_returncode p = None -> proc_exit_at p = None ->
  exists o',
    for_loop [0; 1; 2] (fun _ : Z =>
      sleep E 1%Q ;;
      rc1 <- poll pid ;;
      match rc1 with
      | Some _ => ret (Some tt)
      | None => ret None
      end) o = (Ok None, o') /\
    procs o' = procs o /\
    trace o' = (trace o ++ [EvSleep 1%Q; EvSleep 1%Q; EvSleep 1%Q])%list.
Proof.
  intros Hp Hb Hr He.
  assert (Hstep : forall x, procs x = procs o ->
            exists x', (sleep E 1%Q ;;
                        rc1 <- poll pid ;;
                        match rc1 with
                        | Some _ => ret (Some tt)
                        | None => ret None
                        end) x = (Ok (None : option unit), x') /\
                       procs x' = procs o /\ trace x' = (trace x ++ [EvSleep 1%Q])%list).
  { intros x Hx. destruct (sleep_run E 1%Q x) as (x' & Hs & Hpr & Htr).
    exists x'. rewrite (bind_run _ _ _ _ _ Hs).
    assert (Hp' : proc_get pid (procs x') = Some p) by (rewrite Hpr, Hx; exact Hp).
    rewrite (bind_run _ _ _ _ _ (poll_of_running pid p x' Hp' Hb Hr He)).
    split; [reflexivity|]. split; [congruence | exact Htr]. }
  destruct (Hstep o eq_refl) as (o1 & H1 & Hp1 & Ht1).
  destruct (Hstep o1 Hp1) as (o2 & H2 & Hp2 & Ht2).
  destruct (Hstep o2 Hp2) as (o3 & H3 & Hp3 & Ht3).
  exists o3. cbn [for_loop].
  rewrite (bind_run _ _ _ _ _ H1), (bind_run _ _ _ _ _ H2), (bind_run _ _ _ _ _ H3).
  split; [reflexivity|]. split; [exact Hp3|].
  rewrite Ht3, Ht2, Ht1, <- !app_assoc. reflexivity.
Qed.

(** The first wait, for a child that has exited *)
Lemma wait_of_exited E pid p rc o :
  proc_get pid (procs o) = Some p -> proc_broken p = false ->
  proc_returncode p = Some rc ->
  exists o',
    for_loop [0; 1; 2] (fun _ : Z =>
      sleep E 1%Q ;;
      rc1 <- poll pid ;;
      match rc1 with
      | Some _ => ret (Some tt)
      | None => ret None
      end) o = (Ok (Some tt), o') /\
    procs o' = procs o /\
    trace o' = (trace o ++ [EvSleep 1%Q])%list.
Proof.
  intros Hp Hb Hr. destruct (sleep_run E 1%Q o) as (o1 & Hs & Hpr & Htr).
  exists o1. cbn [for_loop]. rewrite !bind_assoc_run. rewrite (bind_run _ _ _ _ _ Hs).
  assert (Hp' : proc_get pid (procs o1) = Some p) by (rewrite Hpr; exact Hp).
  rewrite !bind_assoc_run.
  rewrite (bind_run _ _ _ _ _ (poll_of_exited pid p rc o1 Hp' Hb Hr)).
  split; [reflexivity|]. split; assumption.
Qed.

(** X19: the ladder of [terminate_process] stops at the first step that
    ends the child.  For a running child (no exit of its own pending)
    that quits on 'q' written to its stdin, only 'q' is sent, followed by
    one pause of 1 s.  For a child that does not, but ends on
    terminate(), 'q' is sent if it has a stdin, three pauses of 1 s
    follow, then terminate() is sent.  In both cases no taskkill is run,
    no kill() is sent, and the child has exited when the call returns. *)
Theorem terminate_process_graceful E pid timeout p o :
  proc_get pid (procs o) = Some p ->
  proc_broken p = false ->
  proc_returncode p = None ->
  proc_exit_at p = None ->
  (proc_has_stdin p && proc_on_q p || proc_on_terminate p)%bool = true ->
  exists o' p',
    terminate_process E pid timeout o = (Ok tt, o') /\
    trace o'
    = (trace o
       ++ (if proc_has_stdin p then [EvSignal SigQ pid] else [])
       ++ (if (proc_has_stdin p && proc_on_q p)%bool then [EvSleep 1%Q]
           else [EvSleep 1%Q; EvSleep 1%Q; EvSleep 1%Q; EvSignal SigTerminate pid]))%list /\
    proc_get pid (procs o') = Some p' /\
    proc_returncode p' <> None.
Proof.
  intros Hp Hb Hr He Hreact. unfold terminate_process.
  rewrite (bind_run _ _ _ _ _ (poll_of_running pid p o Hp Hb Hr He)).
  rewrite (try_except_bind_run _ _ _ _ _ _
             (eq_refl : gets (fun o0 => match proc_get pid (procs o0) with
                                        | Some p0 => proc_has_stdin p0
                                        | None => false
                                        end) o = (Ok _, o))).
  rewrite Hp.
  (* the state after 'q', if it is sent *)
  assert (Hq : exists o1 p1,
            when (proc_has_stdin p) (try_except (send_signal SigQ pid) (fun _ => ret tt)) o
            = (Ok tt, o1) /\
            trace o1 = (trace o ++ if proc_has_stdin p then [EvSignal SigQ pid] else [])%list /\
            proc_get pid (procs o1) = Some p1 /\ proc_broken p1 = false /\
            proc_exit_at p1 = None /\ proc_on_terminate p1 = proc_on_terminate p /\
            proc_returncode p1
            = if (proc_has_stdin p && proc_on_q p)%bool then Some 0 else None).
  { destruct (proc_has_stdin p); cbn [when andb].
    - rewrite (try_except_ok_run _ _ _ _ _ (send_signal_to_running SigQ pid p o Hp Hb Hr)).
      cbn [reacts]. destruct (proc_on_q p).
      + eexists _, _. split; [reflexivity|]. split; [reflexivity|].
        cbn [procs set_procs]. rewrite proc_get_set_same.
        repeat split; try reflexivity; assumption.
      + exists (log_event (EvSignal SigQ pid) o), p. repeat split; try assumption; reflexivity.
    - exists o, p. rewrite app_nil_r. repeat split; try assumption; reflexivity. }
  destruct Hq as (o1 & p1 & Hq & Htr1 & Hp1 & Hb1 & He1 & Hterm1 & Hr1).
  rewrite (try_except_bind_run _ _ _ _ _ _ Hq).
  destruct (proc_has_stdin p && proc_on_q p)%bool eqn:Hquits.
  - destruct (wait_of_exited E pid p1 0 o1 Hp1 Hb1 Hr1) as (o2 & Hw & Hp2 & Htr2).
    rewrite (try_except_bind_run _ _ _ _ _ _ Hw).
    exists o2, p1. split; [reflexivity|]. split; [|split].
    + rewrite Htr2, Htr1, <- app_assoc. reflexivity.
    + rewrite Hp2. exact Hp1.
    + rewrite Hr1. discriminate.
  - cbn [orb] in Hreact.
    destruct (waits_of_running E pid p1 o1 Hp1 Hb1 Hr1 He1) as (o2 & Hw & Hp2 & Htr2).
    rewrite (try_except_bind_run _ _ _ _ _ _ Hw).
    assert (Hp1' : proc_get pid (procs o2) = Some p1) by (rewrite Hp2; exact Hp1).
    rewrite (try_except_bind_run _ _ _ _ _ _ (poll_of_running pid p1 o2 Hp1' Hb1 Hr1 He1)).
    rewrite try_except_bind_assoc.
    rewrite (try_except_bind_run _ _ _ _ _ _
               (send_signal_to_running SigTerminate pid p1 o2 Hp1' Hb1 Hr1)).
    cbn [reacts]. rewrite Hterm1, Hreact.
    set (p2 := with_returncode (signal_code SigTerminate) p1).
    set (o3 := set_procs _ _).
    assert (Hp3 : proc_get pid (procs o3) = Some p2) by apply proc_get_set_same.
    assert (Hpoll : poll pid o3 = (Ok (Some 1), o3))
      by (apply (poll_of_exited pid p2 1 o3 Hp3); [exact Hb1 | reflexivity]).
    assert (Hwait : try_except_only is_TimeoutExpired
                      (wait E pid 3%Q ;;
                       rc3 <- poll pid ;;
                       ret (is_some rc3))
                      (fun _ => ret false) o3 = (Ok true, o3)).
    { unfold try_except_only. apply try_except_ok_run.
      unfold wait. rewrite !bind_assoc_run. rewrite (bind_run _ _ _ _ _ Hpoll).
      rewrite bind_ret_run. rewrite (bind_run _ _ _ _ _ Hpoll). reflexivity. }
    rewrite (try_except_bind_run _ _ _ _ _ _ Hwait).
    exists o3, p2. split; [reflexivity|]. split; [|split].
    + subst o3. cbn [trace set_procs log_event]. rewrite Htr2, Htr1, <- !app_assoc.
      reflexivity.
    + exact Hp3.
    + discriminate.
Qed.

Lemma terminate_process_graceful_witness :
  exists o' p',
    terminate_process calm_env 1 10 (os six_streams_world) = (Ok tt, o') /\
    trace o'
    = (trace (os six_streams_world)
       ++ (if proc_has_stdin child_running then [EvSignal SigQ 1%nat] else [])
       ++ (if (proc_has_stdin child_running && proc_on_q child_running)%bool
           then [EvSleep 1%Q]
           else [EvSleep 1%Q; EvSleep 1%Q; EvSleep 1%Q; EvSignal SigTerminate 1%nat]))%list /\
    proc_get 1 (procs o') = Some p' /\
    proc_returncode p' <> None.
Proof.
  apply (terminate_process_graceful calm_env 1 10 child_running (os six_streams_world));
    reflexivity.
Defined.

(** ** ffmpeg_utils.py: finalizing a recording *)

(** X20: [finalize_recording] never raises.  For a file that is missing
    or empty it does nothing.  Otherwise it runs the remux once; only if
    the remux exits with 0 it moves the output over the recording, and
    after a remux that fails, times out or cannot be run the only thing
    done is that run. *)
Theorem finalize_recording_cases E file_path o :
  exists o',
    finalize_recording E file_path o = (Ok tt, o') /\
    match file_get file_path (fs o) with
    | None => o' = o
    | Some f =>
        if f_size f >? 0 then
          match run E (finalize_command file_path) o with
          | (Ok (0, _, _), o1) => o' = snd (replace (temp_path_of file_path) file_path o1)
          | (_, o1) => o' = o1
          end
        else o' = o
    end.
Proof.
  unfold finalize_recording, path_exists, getsize, stat.
  unfold try_except at 1. rewrite bind_gets_run.
  destruct (file_get file_path (fs o)) as [f|] eqn:Hf; cbn [is_some].
  2:{ rewrite bind_ret_run. cbn [andb]. exists o. split; reflexivity. }
  unfold bind at 1. rewrite Hf. cbn [andb].
  destruct (f_size f >? 0); [|exists o; split; reflexivity].
  unfold bind at 1.
  destruct (run E (finalize_command file_path) o) as [[[[rc so] se]|e] o1].
  - destruct rc as [|rc|rc]; cbn [Z.eqb].
    + rewrite bind_ret_run.
      destruct (replace (temp_path_of file_path) file_path o1) as [[[]|e] o2];
        eexists; split; reflexivity.
    + eexists. split; reflexivity.
    + eexists. split; reflexivity.
  - eexists. split; reflexivity.
Qed.

Lemma append_differs (s t : string) : t <> "" -> String.eqb (s ++ t) s = false.
Proof.
  intros Ht. induction s as [|c s IH]; cbn.
  - destruct t; [contradiction | reflexivity].
  - rewrite Ascii.eqb_refl. exact IH.
Qed.

Lemma contains_after_update dir (g : dict File -> dict File) f :
  PyDict.contains dir (fs_update_dir dir g f) = PyDict.contains dir f.
Proof.
  unfold fs_update_dir, PyDict.contains.
  destruct (PyDict.get dir f) as [d|] eqn:Hd; [rewrite get_set_same | rewrite Hd]; reflexivity.
Qed.

(** X21: when the remux of [finalize_recording] exits with 0 and has
    written its output, and neither file is locked, the recording is
    that output afterwards and the temporary file is gone. *)
Theorem finalize_recording_replaces E file_path o f so se o1 g :
  file_get file_path (fs o) = Some f ->
  0 < f_size f ->
  run E (finalize_command file_path) o = (Ok (0, so, se), o1) ->
  file_get (temp_path_of file_path) (fs o1) = Some g ->
  f_locked g = false ->
  match file_get file_path (fs o1) with Some f1 => f_locked f1 | None => false end = false ->
  exists o',
    finalize_recording E file_path o = (Ok tt, o') /\
    file_get file_path (fs o') = Some g /\
    file_get (temp_path_of file_path) (fs o') = None.
Proof.
  intros Hf Hsize Hrun Hg Hlock Hbusy.
  unfold finalize_recording, path_exists, getsize, stat.
  unfold try_except at 1. rewrite bind_gets_run, Hf. cbn [is_some].
  unfold bind at 1. rewrite Hf. cbn [andb].
  replace (f_size f >? 0) with true by (symmetry; apply Z.gtb_lt; exact Hsize).
  rewrite (bind_run _ _ _ _ _ Hrun). cbn [Z.eqb]. rewrite bind_ret_run.
  unfold replace. rewrite Hg.
  assert (Hd : exists d, PyDict.get (p_dir file_path) (fs o1) = Some d
                         /\ PyDict.get (p_name (temp_path_of file_path)) (d_files d) = Some g).
  { unfold file_get in Hg. cbn [temp_path_of p_dir] in Hg.
    destruct (PyDict.get (p_dir file_path) (fs o1)) as [d|]; [|discriminate].
    exists d. split; [reflexivity | exact Hg]. }
  destruct Hd as (d & Hd & _). rewrite Hd.
  unfold file_get in Hbusy. rewrite Hd in Hbusy. rewrite Hlock, Hbusy. cbn [orb].
  eexists. split; [reflexivity|]. cbn [fs log_event set_fs temp_path_of p_dir p_name].
  split.
  - rewrite file_get_after_set, !String.eqb_refl. cbn [andb].
    rewrite contains_after_update. unfold PyDict.contains. rewrite Hd. reflexivity.
  - rewrite file_get_after_set. cbn [temp_path_of p_dir p_name].
    rewrite append_differs by discriminate. rewrite andb_false_r.
    rewrite file_get_after_del. cbn [p_dir p_name]. rewrite !String.eqb_refl. reflexivity.
Qed.

Lemma finalize_recording_replaces_witness :
  exists o',
    finalize_recording small_remux_env rec_path_cam1
      (os (recording_world (recorded_file 2097152 false))) = (Ok tt, o') /\
    file_get rec_path_cam1 (fs o') = Some (recorded_file 900000 false) /\
    file_get (temp_path_of rec_path_cam1) (fs o') = None.
Proof.
  apply (finalize_recording_replaces small_remux_env rec_path_cam1
           (os (recording_world (recorded_file 2097152 false)))
           (recorded_file 2097152 false) "" ""
           (snd (run small_remux_env (finalize_command rec_path_cam1)
                   (os (recording_world (recorded_file 2097152 false)))))).
  - reflexivity.
  - reflexivity.
  - reflexivity.
  - reflexivity.
  - reflexivity.
  - reflexivity.
Defined.

(** ** recording.py: stopping all recordings *)

(** The check through tasklist at the end of [stop_all_recordings] *)
Lemma tasklist_check_run E x :
  exists x' tail,
    try_except
      (r <- in_os (run E [tasklist_command]) ;;
       let '(returncode, tasklist_output, _) := r in
       (if returncode =? 0 then ret tt else raise CalledProcessError) ;;
       when (PyStr.contains "ffmpeg.exe" tasklist_output)
         (in_os (run E ["taskkill /F /IM ffmpeg.exe /T"]) ;;
          in_os (sleep E 1%Q)))
      (fun _ => ret tt) x = (Ok tt, x') /\
    recording x' = recording x /\
    trace (os x') = (trace (os x) ++ EvRun [tasklist_command] :: tail)%list /\
    exists rest,
      (tail ++ rest)%list = [EvRun ["taskkill /F /IM ffmpeg.exe /T"]; EvSleep 1%Q].
Proof.
  pose proof (run_logs_the_command E [tasklist_command] (os x)) as Hlog.
  destruct (run E [tasklist_command] (os x)) as [[[[rc out] err]|e] o1] eqn:Hrun;
    cbn [snd] in Hlog.
  2:{ exists (set_os o1 x), [].
      rewrite (try_except_raise_run _ _ _ e (set_os o1 x))
        by (apply bind_run_raise; apply in_os_run; exact Hrun).
      split; [reflexivity|]. split; [reflexivity|]. split; [exact Hlog|].
      eexists. reflexivity. }
  rewrite (try_except_bind_run _ _ _ _ _ _ (in_os_run _ _ _ _ Hrun)).
  destruct (rc =? 0).
  2:{ exists (set_os o1 x), []. split; [reflexivity|]. split; [reflexivity|].
      split; [exact Hlog|]. eexists. reflexivity. }
  rewrite (try_except_bind_run _ _ _ _ _ _ (eq_refl : ret tt (set_os o1 x) = (Ok tt, _))).
  destruct (PyStr.contains "ffmpeg.exe" out); cbn [when].
  2:{ exists (set_os o1 x), []. split; [reflexivity|]. split; [reflexivity|].
      split; [exact Hlog|]. eexists. reflexivity. }
  pose proof (run_logs_the_command E ["taskkill /F /IM ffmpeg.exe /T"] o1) as Hlog2.
  destruct (run E ["taskkill /F /IM ffmpeg.exe /T"] o1) as [[r2|e2] o2] eqn:Hrun2;
    cbn [snd] in Hlog2.
  - rewrite (try_except_bind_run _ _ _ _ _ _ (in_os_run _ (set_os o1 x) _ _ Hrun2)).
    eexists _, [EvRun ["taskkill /F /IM ffmpeg.exe /T"]; EvSleep 1%Q].
    split; [reflexivity|]. split; [reflexivity|]. split.
    + cbn [os set_os trace log_event set_fs set_now]. rewrite Hlog2, Hlog, <- !app_assoc.
      reflexivity.
    + exists []. reflexivity.
  - exists (set_os o2 x), [EvRun ["taskkill /F /IM ffmpeg.exe /T"]].
    rewrite (try_except_raise_run _ _ _ e2 (set_os o2 x))
      by (apply bind_run_raise; exact (in_os_run _ (set_os o1 x) _ _ Hrun2)).
    split; [reflexivity|]. split; [reflexivity|]. split.
    + cbn [os set_os]. rewrite Hlog2, Hlog, <- !app_assoc. reflexivity.
    + eexists. reflexivity.
Qed.

(** X22: [stop_all_recordings], with sessions in the table, stops each
    session once with [stop_recording] and returns True exactly when
    every one of these stops returned True.  Because [stop_recording]
    pops the session even when it fails, the forced stop and the direct
    kill of the last resort never act: after the stops come only the
    pause of 3 s and the check through tasklist, with its taskkill if
    ffmpeg.exe is still listed. *)
Theorem stop_all_recordings_stops_each_once E w :
  PyDict.keys (recording_processes (recording w)) <> [] ->
  exists failed w1 w' tail,
    stop_each E (PyDict.keys (recording_processes (recording w))) w = (Ok failed, w1) /\
    stop_all_recordings E w = (Ok (match failed with [] => true | _ => false end), w') /\
    trace (os w') = (trace (os w1) ++ EvSleep 3%Q :: EvRun [tasklist_command] :: tail)%list /\
    exists rest,
      (tail ++ rest)%list = [EvRun ["taskkill /F /IM ffmpeg.exe /T"]; EvSleep 1%Q].
Proof.
  intros Hne. unfold stop_all_recordings, rec. rewrite bind_gets_run.
  destruct (PyDict.keys (recording_processes (recording w))) as [|id ids] eqn:Hkeys;
    [contradiction|].
  destruct (stop_each_run E (id :: ids) w) as (failed & w1 & Hs & Hrp & _).
  rewrite (bind_run _ _ _ _ _ Hs).
  rewrite <- Hkeys in Hrp. rewrite del_all_as_without, without_own_keys in Hrp.
  rewrite (bind_run _ _ _ _ _ (for_each_force_stop_nothing E failed w1 Hrp)).
  rewrite (bind_run _ _ _ _ _ (in_os_sleep_run E 3 w1)).
  rewrite bind_gets_run. cbn [recording set_os]. rewrite Hrp.
  cbn [PyDict.keys map]. rewrite bind_ret_run.
  set (w2 := set_os _ w1).
  destruct (tasklist_check_run E w2) as (w3 & tail & Hcheck & Hrec & Htr & Hrest).
  rewrite (bind_run _ _ _ _ _ Hcheck).
  rewrite bind_gets_run, Hrec. cbn [recording set_os w2]. rewrite Hrp.
  cbn [List.length Nat.eqb negb when]. rewrite bind_ret_run.
  exists failed, w1, w3, tail. split; [exact Hs|]. split; [reflexivity|].
  split; [|exact Hrest].
  rewrite Htr. cbn [os set_os w2 trace log_event]. rewrite <- app_assoc. reflexivity.
Qed.

Lemma stop_all_recordings_stops_each_once_witness :
  exists failed w1 w' tail,
    stop_each calm_env
      (PyDict.keys (recording_processes
                      (recording (recording_world (recorded_file 2097152 false)))))
      (recording_world (recorded_file 2097152 false)) = (Ok failed, w1) /\
    stop_all_recordings calm_env (recording_world (recorded_file 2097152 false))
    = (Ok (match failed with [] => true | _ => false end), w') /\
    trace (os w') = (trace (os w1) ++ EvSleep 3%Q :: EvRun [tasklist_command] :: tail)%list /\
    exists rest,
      (tail ++ rest)%list = [EvRun ["taskkill /F /IM ffmpeg.exe /T"]; EvSleep 1%Q].
Proof.
  apply (stop_all_recordings_stops_each_once calm_env
           (recording_world (recorded_file 2097152 false))).
  discriminate.
Defined.

(** ** fs_utils.py: cleaning a directory *)



(** With a limit of two files and of 650 s of age, the oldest log (age
    900) goes for its age, the tiny one for its size, and of the three
    left the oldest (c.log) goes for the count; notes.txt does not match
    the pattern. *)
Example cleanup_of_logs :
  let r := cleanup_directory "D:\log" ".log" (Some 650%Q) (Some 2) logs_os in
  fst r = Ok (Some 2) /\
  map (fun kv => PyDict.keys (d_files (snd kv))) (fs (snd r))
  = [["b.log"; "notes.txt"; "d.log"]].
Proof. vm_compute. split; reflexivity. Qed.



Lemma insert_by_mtime_length x l : List.length (insert_by_mtime x l) = S (List.length l).
Proof.
  induction l as [|y l IH]; cbn; [reflexivity|].
  destruct (Qltb (fi_mtime x) (fi_mtime y)); cbn; [reflexivity | rewrite IH; reflexivity].
Qed.

Lemma insert_by_mtime_in x l z : In z (insert_by_mtime x l) <-> z = x \/ In z l.
Proof.
  induction l as [|y l IH]; cbn.
  - split; [intros [<- | []]; left; reflexivity | intros [-> | []]; left; reflexivity].
  - destruct (Qltb (fi_mtime x) (fi_mtime y)); cbn.
    + split; [intros [<- | H]; [left; reflexivity | right; exact H]
             | intros [-> | H]; [left; reflexivity | right; exact H]].
    + rewrite IH. split.
      * intros [<- | [-> | H]]; [right; left | left | right; right]; auto.
      * intros [-> | [<- | H]]; [right; left | left | right; right]; auto.
Qed.

Lemma sort_by_mtime_facts l :
  List.length (sort_by_mtime l) = List.length l /\
  forall z, In z (sort_by_mtime l) <-> In z l.
Proof.
  unfold sort_by_mtime.
  assert (H : forall acc,
            List.length (fold_left (fun a x => insert_by_mtime x a) l acc)
            = (List.length l + List.length acc)%nat /\
            forall z, In z (fold_left (fun a x => insert_by_mtime x a) l acc)
                      <-> In z l \/ In z acc).
  { induction l as [|x l IH]; intros acc; cbn [fold_left].
    - split; [reflexivity|]. intros z. cbn. tauto.
    - destruct (IH (insert_by_mtime x acc)) as (Hlen & Hin). split.
      + rewrite Hlen, insert_by_mtime_length. cbn. lia.
      + intros z. rewrite Hin, insert_by_mtime_in. cbn. split.
        * intros [H | [-> | H]]; auto.
        * intros [[<- | H] | H]; auto. }
  destruct (H []) as (Hlen & Hin). split.
  - rewrite Hlen. cbn. lia.
  - intros z. rewrite Hin. cbn. tauto.
Qed.

Lemma skipn_of_nth {A} (l : list A) : forall k x,
  nth_error l k = Some x -> skipn k l = x :: skipn (S k) l.
Proof.
  induction l as [|y l IH]; intros [|k] x H; try discriminate.
  - injection H as ->. reflexivity.
  - cbn in H. cbn [skipn]. apply IH in H. exact H.
Qed.

(** The first [n] elements by index, as the loop over [range(n)] reads
    them *)
Lemma names_by_index {St} (sorted : list FileInfo) (n : nat) (s : St) :
  (n <= List.length sorted)%nat ->
  map_m (fun i => match nth_error sorted (Z.to_nat i) with
                  | Some fi => ret (fi_name fi)
                  | None => raise (Exception "IndexError")
                  end)
        (map Z.of_nat (seq 0 n)) s
  = (Ok (map fi_name (firstn n sorted)), s).
Proof.
  assert (H : forall m k,
            (k + m <= List.length sorted)%nat ->
            map_m (fun i => match nth_error sorted (Z.to_nat i) with
                            | Some fi => ret (fi_name fi)
                            | None => raise (Exception "IndexError")
                            end)
                  (map Z.of_nat (seq k m)) s
            = (Ok (map fi_name (firstn m (skipn k sorted))), s)).
  { induction m as [|m IH]; intros k Hk; [reflexivity|].
    cbn [seq map map_m]. rewrite Nat2Z.id.
    destruct (nth_error sorted k) as [fi|] eqn:Hnth.
    2:{ apply nth_error_None in Hnth. lia. }
    rewrite bind_ret_run. rewrite (bind_run _ _ _ _ _ (IH (S k) ltac:(lia))).
    rewrite (skipn_of_nth _ _ _ Hnth). reflexivity. }
  intros Hn. apply (H n 0%nat). lia.
Qed.

(** Removing a file takes nothing else away. *)
Lemma remove_run p f o :
  file_get p (fs o) = Some f -> f_locked f = false ->
  exists o',
    remove p o = (Ok tt, o') /\ now o' = now o /\
    forall q, file_get q (fs o')
              = if (String.eqb (p_dir q) (p_dir p) && String.eqb (p_name q) (p_name p))%bool
                then None else file_get q (fs o).
Proof.
  intros Hf Hl. unfold remove. rewrite Hf, Hl. eexists. split; [reflexivity|].
  split; [reflexivity|]. intros q. cbn [fs log_event set_fs]. apply file_get_after_del.
Qed.

Lemma same_path dir name q :
  (String.eqb (p_dir q) dir && String.eqb (p_name q) name)%bool = true ->
  q = {| p_dir := dir; p_name := name |}.
Proof.
  intros H. apply andb_prop in H as [Ha Hb]. apply String.eqb_eq in Ha, Hb.
  destruct q; cbn in *; subst; reflexivity.
Qed.

(** The first loop of [cleanup_directory], when no file of the directory
    is locked: files only go away, only files that match the pattern, and
    every matching file of the listing that is still there is in the
    list. *)
Lemma scan_run directory file_pattern names : forall acc o,
  (forall name f, file_get {| p_dir := directory; p_name := name |} (fs o) = Some f ->
                  f_locked f = false) ->
  exists files o1,
    fold_m (fun files filename =>
      if (negb (String.eqb file_pattern "")
          && negb (PyStr.endswith filename file_pattern))%bool then ret files
      else
        let file_path := {| p_dir := directory; p_name := filename |} in
        isfile <- path_exists file_path ;;
        if negb isfile then ret files
        else
          try_except_only is_OSError
            (file_stat <- stat (fun f => (f_mtime f, f_size f)) file_path ;;
             let '(file_mtime, file_size) := file_stat in
             removed <- (if file_size <? 1024 then
                           try_except_only is_OSError
                             (remove file_path ;; ret true)
                             (fun _ => ret false)
                         else ret false) ;;
             if removed : bool then ret files
             else ret (files ++ [{| fi_name := filename; fi_mtime := file_mtime;
                                    fi_size := file_size |}])%list)
            (fun _ => ret files)) names acc o = (Ok files, o1) /\
    now o1 = now o /\
    (forall q f, file_get q (fs o1) = Some f -> file_get q (fs o) = Some f) /\
    (forall q, (String.eqb (p_dir q) directory && matches file_pattern (p_name q))%bool = false ->
               file_get q (fs o1) = file_get q (fs o)) /\
    (forall fi, In fi acc -> In fi files) /\
    (forall fi, In fi files ->
                In fi acc \/
                (matches file_pattern (fi_name fi) = true /\
                 exists f, file_get {| p_dir := directory; p_name := fi_name fi |} (fs o) = Some f
                           /\ fi_mtime fi = f_mtime f /\ 1024 <= f_size f)) /\
    (forall name f, In name names -> matches file_pattern name = true ->
                    file_get {| p_dir := directory; p_name := name |} (fs o1) = Some f ->
                    In name (map fi_name files)).
Proof.
  induction names as [|name names IH]; intros acc o Hfree.
  { exists acc, o. split; [reflexivity|]. split; [reflexivity|].
    split; [auto|]. split; [auto|]. split; [auto|]. split; [auto|].
    intros n f []. }
  cbn [fold_m].
  (* one turn of the loop *)
  assert (Hturn : exists acc' o',
    (if (negb (String.eqb file_pattern "")
         && negb (PyStr.endswith name file_pattern))%bool then ret acc
     else
       let file_path := {| p_dir := directory; p_name := name |} in
       isfile <- path_exists file_path ;;
       if negb isfile then ret acc
       else
         try_except_only is_OSError
           (file_stat <- stat (fun f => (f_mtime f, f_size f)) file_path ;;
            let '(file_mtime, file_size) := file_stat in
            removed <- (if file_size <? 1024 then
                          try_except_only is_OSError
                            (remove file_path ;; ret true)
                            (fun _ => ret false)
                        else ret false) ;;
            if removed : bool then ret acc
            else ret (acc ++ [{| fi_name := name; fi_mtime := file_mtime;
                                 fi_size := file_size |}])%list)
           (fun _ => ret acc)) o = (Ok acc', o') /\
    now o' = now o /\
    (forall q f, file_get q (fs o') = Some f -> file_get q (fs o) = Some f) /\
    (forall q, (String.eqb (p_dir q) directory && matches file_pattern (p_name q))%bool = false ->
               file_get q (fs o') = file_get q (fs o)) /\
    (forall fi, In fi acc -> In fi acc') /\
    (forall fi, In fi acc' ->
                In fi acc \/
                (matches file_pattern (fi_name fi) = true /\
                 exists f, file_get {| p_dir := directory; p_name := fi_name fi |} (fs o) = Some f
                           /\ fi_mtime fi = f_mtime f /\ 1024 <= f_size f)) /\
    (forall f, matches file_pattern name = true ->
               file_get {| p_dir := directory; p_name := name |} (fs o') = Some f ->
               In name (map fi_name acc'))).
  { unfold matches.
    destruct (String.eqb file_pattern "") eqn:Hpat; cbn [negb andb orb].
    - (* every name matches *)
      unfold path_exists. rewrite bind_gets_run.
      destruct (file_get {| p_dir := directory; p_name := name |} (fs o)) as [f|] eqn:Hf;
        cbn [is_some negb].
      2:{ exists acc, o. repeat split; auto. intros f _ H. congruence. }
      unfold try_except_only, try_except, stat. unfold bind at 1. rewrite Hf.
      destruct (f_size f <? 1024) eqn:Hsmall.
      + destruct (remove_run _ f o Hf (Hfree name f Hf)) as (o' & Hrm & Hnow & Hfs).
        unfold bind at 1. unfold bind at 1. rewrite Hrm. cbn [ret].
        exists acc, o'. split; [reflexivity|]. split; [exact Hnow|].
        split; [|split; [|split; [auto | split; [auto|]]]].
        * intros q g. rewrite Hfs. destruct (_ && _)%bool; [discriminate | auto].
        * intros q Hq. rewrite Hfs. cbn [p_dir p_name].
          destruct (String.eqb (p_dir q) directory); [discriminate Hq|]. reflexivity.
        * intros g _. rewrite Hfs. cbn [p_dir p_name]. rewrite !String.eqb_refl.
          discriminate.
      + rewrite bind_ret_run. eexists _, o. split; [reflexivity|].
        split; [reflexivity|]. split; [auto|]. split; [auto|].
        split; [intros fi Hfi; apply in_or_app; left; exact Hfi|].
        split.
        * intros fi Hfi. apply in_app_or in Hfi as [Hfi | [<- | []]];
            [left; exact Hfi|].
          right. cbn [fi_name fi_mtime]. split; [reflexivity|]. exists f.
          split; [exact Hf|]. split; [reflexivity | apply Z.ltb_ge, Hsmall].
        * intros g _ _. rewrite map_app. apply in_or_app. right. left. reflexivity.
    - destruct (PyStr.endswith name file_pattern) eqn:Hend; cbn [negb].
      2:{ exists acc, o. repeat split; auto. intros f H. discriminate H. }
      unfold path_exists. rewrite bind_gets_run.
      destruct (file_get {| p_dir := directory; p_name := name |} (fs o)) as [f|] eqn:Hf;
        cbn [is_some negb].
      2:{ exists acc, o. repeat split; auto. intros f _ H. congruence. }
      unfold try_except_only, try_except, stat. unfold bind at 1. rewrite Hf.
      destruct (f_size f <? 1024) eqn:Hsmall.
      + destruct (remove_run _ f o Hf (Hfree name f Hf)) as (o' & Hrm & Hnow & Hfs).
        unfold bind at 1. unfold bind at 1. rewrite Hrm. cbn [ret].
        exists acc, o'. split; [reflexivity|]. split; [exact Hnow|].
        split; [|split; [|split; [auto | split; [auto|]]]].
        * intros q g. rewrite Hfs. destruct (_ && _)%bool; [discriminate | auto].
        * intros q Hq. rewrite Hfs. cbn [p_dir p_name].
          destruct (String.eqb (p_dir q) directory && String.eqb (p_name q) name)%bool
            eqn:Hsame; [|reflexivity].
          apply same_path in Hsame. subst q. cbn [p_dir p_name] in Hq.
          rewrite String.eqb_refl, Hend in Hq. discriminate Hq.
        * intros g _. rewrite Hfs. cbn [p_dir p_name]. rewrite !String.eqb_refl.
          discriminate.
      + rewrite bind_ret_run. eexists _, o. split; [reflexivity|].
        split; [reflexivity|]. split; [auto|]. split; [auto|].
        split; [intros fi Hfi; apply in_or_app; left; exact Hfi|].
        split.
        * intros fi Hfi. apply in_app_or in Hfi as [Hfi | [<- | []]];
            [left; exact Hfi|].
          right. cbn [fi_name fi_mtime]. split; [exact Hend|]. exists f.
          split; [exact Hf|]. split; [reflexivity | apply Z.ltb_ge, Hsmall].
        * intros g _ _. rewrite map_app. apply in_or_app. right. left. reflexivity. }
  destruct Hturn as (acc' & o' & Hrun & Hnow & Hsub & Hframe & Hacc & Hnew & Hhead).
  rewrite (bind_run _ _ _ _ _ Hrun).
  destruct (IH acc' o') as (files & o1 & Hrun1 & Hnow1 & Hsub1 & Hframe1 & Hacc1 & Hnew1 & Hin1).
  { intros n f Hf. apply (Hfree n f). apply Hsub. exact Hf. }
  exists files, o1. split; [exact Hrun1|]. split; [congruence|].
  split; [intros q f Hq; apply Hsub, Hsub1, Hq|].
  split; [intros q Hq; rewrite (Hframe1 q Hq); apply Hframe, Hq|].
  split; [intros fi Hfi; apply Hacc1, Hacc, Hfi|].
  split.
  - intros fi Hfi. destruct (Hnew1 fi Hfi) as [Hfi' | (Hpat & f & Hf & Hm)];
      [apply Hnew, Hfi'|].
    right. split; [exact Hpat|]. exists f. split; [apply Hsub, Hf | exact Hm].
  - intros n f [<- | Hn] Hm Hf.
    + assert (Hin : In name (map fi_name acc')) by (apply (Hhead f Hm); apply Hsub1, Hf).
      apply in_map_iff in Hin as (fi & Hname & Hfi). apply in_map_iff.
      exists fi. split; [exact Hname | apply Hacc1, Hfi].
    + apply (Hin1 n f Hn Hm Hf).
Qed.

(** The last loop of [cleanup_directory], when no file of the directory
    is locked: the files of the list are gone, nothing else changes. *)
Lemma remove_all_run directory to_delete : forall o,
  (forall name f, file_get {| p_dir := directory; p_name := name |} (fs o) = Some f ->
                  f_locked f = false) ->
  exists o',
    for_each to_delete (fun name =>
      try_except_only is_OSError
        (remove {| p_dir := directory; p_name := name |})
        (fun _ => ret tt)) o = (Ok tt, o') /\
    forall q, file_get q (fs o')
              = if (String.eqb (p_dir q) directory && mem_str (p_name q) to_delete)%bool
                then None else file_get q (fs o).
Proof.
  induction to_delete as [|name l IH]; intros o Hfree.
  { exists o. split; [reflexivity|]. intros q. cbn [mem_str existsb].
    rewrite andb_false_r. reflexivity. }
  assert (Hturn : exists o1,
            try_except_only is_OSError
              (remove {| p_dir := directory; p_name := name |}) (fun _ => ret tt) o
            = (Ok tt, o1) /\
            forall q, file_get q (fs o1)
                      = if (String.eqb (p_dir q) directory && String.eqb (p_name q) name)%bool
                        then None else file_get q (fs o)).
  { destruct (file_get {| p_dir := directory; p_name := name |} (fs o)) as [f|] eqn:Hf.
    - destruct (remove_run _ f o Hf (Hfree name f Hf)) as (o1 & Hrm & _ & Hfs).
      exists o1. split; [apply try_except_ok_run; exact Hrm | exact Hfs].
    - exists o. split.
      + unfold try_except_only, try_except, remove. rewrite Hf. reflexivity.
      + intros q.
        destruct (String.eqb (p_dir q) directory && String.eqb (p_name q) name)%bool
          eqn:Hsame; [|reflexivity].
        apply same_path in Hsame. subst q. exact Hf. }
  destruct Hturn as (o1 & Hrun1 & Hfs1).
  destruct (IH o1) as (o' & Hrun & Hfs).
  { intros n f. rewrite Hfs1. destruct (_ && _)%bool; [discriminate | apply Hfree]. }
  exists o'. split.
  - etransitivity; [apply for_each_cons_run; exact Hrun1 | exact Hrun].
  - intros q. rewrite Hfs, Hfs1, mem_str_cons.
    destruct (String.eqb (p_dir q) directory), (String.eqb (p_name q) name),
      (mem_str (p_name q) l); reflexivity.
Qed.

Lemma mem_str_In x l : mem_str x l = true <-> In x l.
Proof.
  unfold mem_str. rewrite existsb_exists. split.
  - intros (y & Hin & Hy). apply String.eqb_eq in Hy. subst y. exact Hin.
  - intros Hin. exists x. split; [exact Hin | apply String.eqb_refl].
Qed.

Lemma In_firstn_or_skipn {A} n (l : list A) x :
  In x l -> In x (firstn n l) \/ In x (skipn n l).
Proof. intros H. rewrite <- (firstn_skipn n l) in H. apply in_app_or, H. Qed.

Lemma In_of_firstn {A} n (l : list A) x : In x (firstn n l) -> In x l.
Proof. intros H. rewrite <- (firstn_skipn n l). apply in_or_app. left. exact H. Qed.

(** A directory whose files are all unlocked *)
Lemma files_unlocked directory d (f0 : FS) :
  PyDict.get directory f0 = Some d ->
  forallb (fun kv => negb (f_locked (snd kv))) (d_files d) = true ->
  forall name f, file_get {| p_dir := directory; p_name := name |} f0 = Some f ->
                 f_locked f = false.
Proof.
  intros Hd Hall name f. unfold file_get. cbn [p_dir p_name]. rewrite Hd.
  induction (d_files d) as [|[k v] l IH]; cbn [PyDict.get]; [discriminate|].
  cbn [forallb snd] in Hall. apply andb_prop in Hall as [Hv Hl].
  destruct (String.eqb k name); [|apply IH, Hl].
  intros H. injection H as <-. apply negb_true_iff, Hv.
Qed.

(** X23 (fs_utils.py, cleanup_directory): in a directory that exists and
    has no locked file, a cleanup with a positive [max_files] returns a
    count, only takes files away, leaves the files that do not match the
    pattern and those of other directories as they are, and leaves at
    most [max_files] matching files; each
    matching file left has at least 1024 bytes and, when [max_age_seconds]
    is given and not zero, an age within it at the time of the call. *)
Theorem cleanup_directory_keeps_within_limits
  directory file_pattern max_age_seconds m o d :
  PyDict.get directory (fs o) = Some d ->
  (forall name f, file_get {| p_dir := directory; p_name := name |} (fs o) = Some f ->
                  f_locked f = false) ->
  0 < m ->
  exists n o' kept,
    cleanup_directory directory file_pattern max_age_seconds (Some m) o = (Ok (Some n), o') /\
    (forall q f, file_get q (fs o') = Some f -> file_get q (fs o) = Some f) /\
    (forall q, (String.eqb (p_dir q) directory && matches file_pattern (p_name q))%bool = false ->
               file_get q (fs o') = file_get q (fs o)) /\
    Z.of_nat (List.length kept) <= m /\
    (forall name f,
        matches file_pattern name = true ->
        file_get {| p_dir := directory; p_name := name |} (fs o') = Some f ->
        In name kept /\ 1024 <= f_size f /\
        (forall a, max_age_seconds = Some a -> ~ (a == 0)%Q -> (now o - f_mtime f <= a)%Q)).
Proof.
  intros Hd Hfree Hm.
  destruct (scan_run directory file_pattern (PyDict.keys (d_files d)) [] o Hfree)
    as (files & o1 & Hscan & Hnow1 & Hsub1 & Hframe1 & _ & Hnew1 & Hin1).
  pose (to_delete1 := too_old (now o) max_age_seconds files).
  pose (remaining := filter (fun fi => negb (mem_str (fi_name fi) to_delete1)) files).
  pose (len := Z.of_nat (List.length remaining)).
  pose (sorted := sort_by_mtime remaining).
  pose (excess := if len >? m then map fi_name (firstn (Z.to_nat (len - m)) sorted) else []).
  pose (kept := if len >? m then map fi_name (skipn (Z.to_nat (len - m)) sorted)
                else map fi_name remaining).
  destruct (sort_by_mtime_facts remaining) as (Hslen & Hsin).
  destruct (remove_all_run directory (to_delete1 ++ excess) o1) as (o2 & Hrm & Hfs2).
  { intros name f Hf. apply (Hfree name f), Hsub1, Hf. }
  (* the names listed for removal are names of scanned files *)
  assert (Hlisted : forall name, In name (to_delete1 ++ excess) ->
                                 exists fi, In fi files /\ fi_name fi = name).
  { intros name Hin. apply in_app_or in Hin as [Hin | Hin].
    - unfold to_delete1, too_old in Hin. destruct (truthy_Q max_age_seconds); [|destruct Hin].
      apply in_map_iff in Hin as (fi & Hname & Hfi). apply filter_In in Hfi as [Hfi _].
      exists fi. split; assumption.
    - unfold excess in Hin. destruct (len >? m); [|destruct Hin].
      apply in_map_iff in Hin as (fi & Hname & Hfi). apply In_of_firstn in Hfi.
      apply Hsin in Hfi. apply filter_In in Hfi as [Hfi _].
      exists fi. split; assumption. }
  exists (Z.of_nat (List.length (to_delete1 ++ excess))), o2, kept.
  split; [|split; [|split; [|split]]].
  - (* the run *)
    unfold cleanup_directory, os_path_exists. rewrite bind_gets_run.
    assert (Hc : PyDict.contains directory (fs o) = true)
      by (unfold PyDict.contains; rewrite Hd; reflexivity).
    rewrite Hc. cbn [orb negb]. apply try_except_ok_run.
    unfold time_time. rewrite bind_gets_run.
    assert (Hls : listdir directory o = (Ok (PyDict.keys (d_files d)), o))
      by (unfold listdir; rewrite Hd; reflexivity).
    rewrite (bind_run _ _ _ _ _ Hls).
    unfold scan_directory. rewrite (bind_run _ _ _ _ _ Hscan). cbv zeta.
    fold to_delete1. fold remaining. fold len. fold sorted.
    assert (Hex : (if (truthy_Z (Some m) && (len >? m))%bool then
                     map_m (fun i => match nth_error sorted (Z.to_nat i) with
                                     | Some fi => ret (fi_name fi)
                                     | None => raise (Exception "IndexError")
                                     end)
                           (range (len - m))
                   else ret []) o1 = (Ok excess, o1)).
    { unfold truthy_Z, excess. replace (m =? 0) with false by (symmetry; apply Z.eqb_neq; lia).
      cbn [negb andb]. destruct (len >? m) eqn:Hgt; [|reflexivity].
      unfold range. apply names_by_index. unfold sorted. rewrite Hslen.
      unfold len. lia. }
    rewrite (bind_run _ _ _ _ _ Hex). rewrite (bind_run _ _ _ _ _ Hrm). reflexivity.
  - (* files only go away *)
    intros q f. rewrite Hfs2. destruct (_ && _)%bool; [discriminate | apply Hsub1].
  - (* what does not match stays *)
    intros q Hq. rewrite Hfs2.
    destruct (String.eqb (p_dir q) directory) eqn:Hdir; cbn [andb] in *;
      [|apply Hframe1; rewrite Hdir; reflexivity].
    destruct (mem_str (p_name q) (to_delete1 ++ excess)) eqn:Hmem.
    + apply mem_str_In in Hmem. destruct (Hlisted _ Hmem) as (fi & Hfi & Hname).
      destruct (Hnew1 fi Hfi) as [[] | (Hpat & _)]. rewrite Hname in Hpat. congruence.
    + apply Hframe1. rewrite Hdir. exact Hq.
  - (* the count *)
    unfold kept. destruct (len >? m) eqn:Hgt.
    + rewrite length_map, length_skipn. unfold sorted. rewrite Hslen.
      apply Z.gtb_lt in Hgt. unfold len in *. lia.
    + rewrite length_map. fold len.
      destruct (Z.gtb_spec len m) as [|Hle]; [discriminate | exact Hle].
  - (* the matching files left *)
    intros name f Hpat Hf2. rewrite Hfs2 in Hf2. cbn [p_dir p_name] in Hf2.
    rewrite String.eqb_refl in Hf2. cbn [andb] in Hf2.
    destruct (mem_str name (to_delete1 ++ excess)) eqn:Hmem; [discriminate Hf2|].
    assert (Hnot : ~ In name (to_delete1 ++ excess)).
    { intros Hin. apply mem_str_In in Hin. congruence. }
    pose proof (Hsub1 _ _ Hf2) as Hf0.
    assert (Hkey : In name (PyDict.keys (d_files d))).
    { unfold file_get in Hf0. cbn [p_dir p_name] in Hf0. rewrite Hd in Hf0.
      apply (key_of_get _ _ _ Hf0). }
    pose proof (Hin1 name f Hkey Hpat Hf2) as Hin.
    apply in_map_iff in Hin as (fi & Hname & Hfi).
    destruct (Hnew1 fi Hfi) as [[] | (_ & f0 & Hf0' & Hmtime & Hsize)].
    rewrite Hname in Hf0'. assert (f0 = f) by congruence. subst f0.
    assert (Hrem : In fi remaining).
    { apply filter_In. split; [exact Hfi|]. apply negb_true_iff.
      destruct (mem_str (fi_name fi) to_delete1) eqn:Hm1; [|reflexivity].
      exfalso. apply Hnot, in_or_app. left. apply mem_str_In in Hm1.
      rewrite Hname in Hm1. exact Hm1. }
    split; [|split; [exact Hsize|]].
    + unfold kept. destruct (len >? m) eqn:Hgt.
      * apply Hsin in Hrem. fold sorted in Hrem.
        destruct (In_firstn_or_skipn (Z.to_nat (len - m)) _ _ Hrem) as [Hfirst | Hlast].
        -- exfalso. apply Hnot, in_or_app. right. unfold excess. rewrite ?Hgt.
           rewrite <- Hname. apply in_map, Hfirst.
        -- rewrite <- Hname. apply in_map, Hlast.
      * rewrite <- Hname. apply in_map, Hrem.
    + intros a Ha Hnz. rewrite <- Hmtime. apply Qgtb_false.
      destruct (Qgtb (now o - fi_mtime fi) a) eqn:Hold; [|reflexivity].
      exfalso. apply Hnot, in_or_app. left. unfold to_delete1, too_old.
      rewrite Ha. cbn [truthy_Q].
      replace (Qeq_bool a 0) with false.
      2:{ symmetry. apply Bool.not_true_iff_false. intros H. apply Qeq_bool_iff in H.
          exact (Hnz H). }
      cbn [negb]. rewrite <- Hname. apply in_map, filter_In. split; [exact Hfi | exact Hold].
Qed.

(** On the directory of logs, with the pattern ".log", 650 s and two
    files *)
Lemma cleanup_directory_keeps_within_limits_witness :
  exists n o' kept,
    cleanup_directory "D:\log" ".log" (Some 650%Q) (Some 2) logs_os = (Ok (Some n), o') /\
    (forall q f, file_get q (fs o') = Some f -> file_get q (fs logs_os) = Some f) /\
    (forall q, (String.eqb (p_dir q) "D:\log" && matches ".log" (p_name q))%bool = false ->
               file_get q (fs o') = file_get q (fs logs_os)) /\
    Z.of_nat (List.length kept) <= 2 /\
    (forall name f,
        matches ".log" name = true ->
        file_get {| p_dir := "D:\log"; p_name := name |} (fs o') = Some f ->
        In name kept /\ 1024 <= f_size f /\
        (forall a, Some 650%Q = Some a -> ~ (a == 0)%Q -> (now logs_os - f_mtime f <= a)%Q)).
Proof.
  refine (cleanup_directory_keeps_within_limits "D:\log" ".log" (Some 650%Q) 2 logs_os
            {| d_files := [("a.log", log_file 2000 100%Q);
                           ("tiny.log", log_file 100 950%Q);
                           ("b.log", log_file 2000 400%Q);
                           ("notes.txt", log_file 10 1%Q);
                           ("c.log", log_file 2000 300%Q);
                           ("d.log", log_file 2000 900%Q)];
               d_writable := true |} _ _ _).
  - reflexivity.
  - eapply files_unlocked; reflexivity.
  - lia.
Defined.
